(** * POS / inventory backend: sales, stock and purchase-order transactions

    A shallow embedding of the transactional routes of the Flask backend
    ([routes/sales.py], [routes/inventory.py], [routes/purchase.py]) over the
    SQLAlchemy models of [models/user.py], [models/inventory.py] and
    [models/sales.py].

    Modelling conventions.
    - The database is a record [Store] of tables.  Tables read by primary key
      are finite maps from the key; the inventory table is keyed by the pair
      (product_id, branch_id) of its uniqueness constraint; the append-only
      tables (movements, sale items, loyalty transactions) are lists in
      insertion order.
    - A route body runs in the [Session] monad: it threads the pending
      session state and stops at the first [return jsonify(error)] or raised
      exception.  [respond] is the request boundary: pending changes become
      the stored state only when the body reached [db.session.commit()];
      otherwise the session is rolled back or dropped with the request.
    - Integer columns and JSON integers are [Z].  Numeric columns and JSON
      decimals are exact rationals [Q]: the development abstracts from binary
      floating point rounding, from the scale of the Numeric columns and from
      the Python representation (float or Decimal) of these values.
    - Timestamps (created_at, updated_at, last_updated) are not modelled.
      Values produced from the clock or from uuid4 (sale numbers, transfer
      references) are inputs of the handlers.
    - Only the columns that the modelled routes read or write are kept. *)

From stdpp Require Import gmap strings list fin_maps numbers pretty.
From Stdlib Require Import QArith Qround.

Local Close Scope Q_scope.
Local Open Scope Z_scope.

(** ** Models *)

Module User.
Record t := mk { role : string }.
End User.

Module Branch.
Record t := mk { branch_name : string }.
End Branch.

Module Product.
Record t := mk {
  product_name : string;
  selling_price : Q;
  tax_rate : Q;
  is_active : bool }.
End Product.

Module Customer.
Record t := mk {
  loyalty_points : Z;
  total_purchases : Q }.
End Customer.

Module Inventory.
(** One row per (product_id, branch_id); the pair is the key of the table. *)
Record t := mk {
  current_stock : Z;
  reserved_stock : Z }.

Definition available_stock (self : t) : Z :=
  current_stock self - reserved_stock self.
End Inventory.

Module StockMovement.
Record t := mk {
  product_id : Z;
  branch_id : Z;
  movement_type : string;
  quantity : Z;
  unit_cost : option Q;
  reference : string;
  notes : string;
  created_by : Z }.
End StockMovement.

Module Sale.
Record t := mk {
  sale_number : string;
  customer_id : option Z;
  branch_id : Z;
  cashier_id : Z;
  sub_total : Q;
  tax_amount : Q;
  discount_amount : Q;
  total_amount : Q;
  payment_method : string;
  payment_status : string;
  notes : string }.
End Sale.

Module SaleItem.
Record t := mk {
  sale_id : Z;
  product_id : Z;
  quantity : Z;
  unit_price : Q;
  discount_amount : Q;
  tax_amount : Q;
  line_total : Q }.
End SaleItem.

Module LoyaltyTransaction.
Record t := mk {
  customer_id : Z;
  sale_id : option Z;
  transaction_type : string;
  points : Z;
  description : string }.
End LoyaltyTransaction.

Module PurchaseOrder.
Record t := mk {
  po_number : string;
  branch_id : Z;
  expected_delivery_date : option Z;
  status : string;
  notes : string }.
End PurchaseOrder.

Module PurchaseOrderItem.
Record t := mk {
  purchase_order_id : Z;
  product_id : Z;
  ordered_quantity : Z;
  received_quantity : Z;
  unit_cost : Q }.
End PurchaseOrderItem.

(** ** The store *)

Record Store := mkStore {
  users : gmap Z User.t;
  branches : gmap Z Branch.t;
  products : gmap Z Product.t;
  customers : gmap Z Customer.t;
  system_settings : gmap string string;
  inventory : gmap (Z * Z) Inventory.t;
  stock_movements : list StockMovement.t;
  sales : gmap Z Sale.t;
  sale_items : list SaleItem.t;
  loyalty_transactions : list LoyaltyTransaction.t;
  purchase_orders : gmap Z PurchaseOrder.t;
  purchase_order_items : gmap Z PurchaseOrderItem.t }.

Definition upd_customers (f : gmap Z Customer.t → gmap Z Customer.t) (s : Store) : Store :=
  mkStore (users s) (branches s) (products s) (f (customers s)) (system_settings s)
    (inventory s) (stock_movements s) (sales s) (sale_items s)
    (loyalty_transactions s) (purchase_orders s) (purchase_order_items s).

Definition upd_inventory (f : gmap (Z * Z) Inventory.t → gmap (Z * Z) Inventory.t) (s : Store) : Store :=
  mkStore (users s) (branches s) (products s) (customers s) (system_settings s)
    (f (inventory s)) (stock_movements s) (sales s) (sale_items s)
    (loyalty_transactions s) (purchase_orders s) (purchase_order_items s).

Definition upd_stock_movements (f : list StockMovement.t → list StockMovement.t) (s : Store) : Store :=
  mkStore (users s) (branches s) (products s) (customers s) (system_settings s)
    (inventory s) (f (stock_movements s)) (sales s) (sale_items s)
    (loyalty_transactions s) (purchase_orders s) (purchase_order_items s).

Definition upd_sales (f : gmap Z Sale.t → gmap Z Sale.t) (s : Store) : Store :=
  mkStore (users s) (branches s) (products s) (customers s) (system_settings s)
    (inventory s) (stock_movements s) (f (sales s)) (sale_items s)
    (loyalty_transactions s) (purchase_orders s) (purchase_order_items s).

Definition upd_sale_items (f : list SaleItem.t → list SaleItem.t) (s : Store) : Store :=
  mkStore (users s) (branches s) (products s) (customers s) (system_settings s)
    (inventory s) (stock_movements s) (sales s) (f (sale_items s))
    (loyalty_transactions s) (purchase_orders s) (purchase_order_items s).

Definition upd_loyalty_transactions
    (f : list LoyaltyTransaction.t → list LoyaltyTransaction.t) (s : Store) : Store :=
  mkStore (users s) (branches s) (products s) (customers s) (system_settings s)
    (inventory s) (stock_movements s) (sales s) (sale_items s)
    (f (loyalty_transactions s)) (purchase_orders s) (purchase_order_items s).

Definition upd_purchase_orders
    (f : gmap Z PurchaseOrder.t → gmap Z PurchaseOrder.t) (s : Store) : Store :=
  mkStore (users s) (branches s) (products s) (customers s) (system_settings s)
    (inventory s) (stock_movements s) (sales s) (sale_items s)
    (loyalty_transactions s) (f (purchase_orders s)) (purchase_order_items s).

Definition upd_purchase_order_items
    (f : gmap Z PurchaseOrderItem.t → gmap Z PurchaseOrderItem.t) (s : Store) : Store :=
  mkStore (users s) (branches s) (products s) (customers s) (system_settings s)
    (inventory s) (stock_movements s) (sales s) (sale_items s)
    (loyalty_transactions s) (purchase_orders s) (f (purchase_order_items s)).

(** The id an autoincrement primary key gives to the next inserted row. *)
Definition next_id {A} (table : gmap Z A) : Z :=
  1 + foldr Z.max 0 (map fst (map_to_list table)).

(** ** Responses and the session monad *)

(** An error response: [jsonify({'error': message}), http_status]. *)
Record error := err { http_status : Z; message : string }.

(** What [except Exception as e] answers: the exception text with status 500. *)
Definition exception (text : string) : error := err 500 text.

Definition Session (A : Type) : Type := Store → (error + A) * Store.

Definition ret {A} (a : A) : Session A := λ s, (inr a, s).

Definition fail {A} (e : error) : Session A := λ s, (inl e, s).

Definition bind {A B} (m : Session A) (k : A → Session B) : Session B :=
  λ s, match m s with
       | (inr a, s') => k a s'
       | (inl e, s') => (inl e, s')
       end.

Definition query {A} (f : Store → A) : Session A := λ s, (inr (f s), s).

Definition modify (f : Store → Store) : Session unit := λ s, (inr tt, f s).

Notation "'do' x <- m ; k" := (bind m (λ x, k))
  (at level 10, x name, m at level 100, k at level 200).
Notation "m ;; k" := (bind m (λ _, k))
  (at level 100, k at level 200, right associativity).

(** [for x in l: body x], where the body may return from the handler. *)
Fixpoint for_each {A} (body : A → Session unit) (l : list A) : Session unit :=
  match l with
  | [] => ret tt
  | x :: rest => body x ;; for_each body rest
  end.

(** The request boundary.  A body that ends in an error response never
    reached [db.session.commit()]: its pending changes are discarded and the
    stored state is the one the request started from. *)
Definition respond {A} (body : Session A) (s : Store) : (error + A) * Store :=
  match body s with
  | (inr a, s') => (inr a, s')
  | (inl e, _) => (inl e, s)
  end.

(** Python truthiness of an optional integer ([None] and [0] are falsy). *)
Definition truthy (x : option Z) : bool :=
  match x with
  | Some n => negb (n =? 0)
  | None => false
  end.

(** [int(x)] on a number: truncation toward zero. *)
Definition py_int (x : Q) : Z := Z.quot (Qnum x) (Z.pos (Qden x)).

(** [points_earned = int(total_amount * loyalty_rate)]. *)
Definition points_earned (total_amount loyalty_rate : Q) : Z :=
  py_int (total_amount * loyalty_rate)%Q.

(** [check_permission(required_roles)] for the user the token identifies. *)
Definition check_permission (current_user_id : Z) (required_roles : list string)
    (s : Store) : bool :=
  match users s !! current_user_id with
  | Some user => bool_decide (User.role user ∈ required_roles)
  | None => false
  end.

Definition unauthorized (msg : string) : error := err 403 msg.

(** [for field in required_fields: if field not in data: return 400]. *)
Fixpoint require_fields (has_field : string → bool) (required_fields : list string)
    : Session unit :=
  match required_fields with
  | [] => ret tt
  | field :: rest =>
      if has_field field then require_fields has_field rest
      else fail (err 400 (field +:+ " is required"))
  end.

(** ** Sales: request data *)

(** One entry of [data['items']]; a field is [None] when the key is absent. *)
Record SaleItemData := mkSaleItemData {
  d_product_id : option Z;
  d_quantity : option Z;
  d_unit_price : option Q;
  d_item_discount_amount : option Q }.

(** The JSON body of POST /sales. *)
Record SaleData := mkSaleData {
  d_branch_id : option Z;
  d_customer_id : option Z;
  d_items : option (list SaleItemData);
  d_payment_method : option string;
  d_total_amount : option Q;
  d_discount_amount : option Q;
  d_notes : option string }.

Definition sale_data_has (data : SaleData) (field : string) : bool :=
  if String.eqb field "branch_id" then bool_decide (is_Some (d_branch_id data))
  else if String.eqb field "items" then bool_decide (is_Some (d_items data))
  else if String.eqb field "payment_method" then bool_decide (is_Some (d_payment_method data))
  else if String.eqb field "total_amount" then bool_decide (is_Some (d_total_amount data))
  else false.

(** The dictionaries collected in [validated_items]. *)
Record ValidatedItem := mkValidatedItem {
  v_product_id : Z;
  v_quantity : Z;
  v_unit_price : Q;
  v_discount_amount : Q;
  v_tax_amount : Q;
  v_line_total : Q }.

(** [SaleItem(sale_id=sale.id, **item_data)]. *)
Definition sale_item_of (sale_id : Z) (item_data : ValidatedItem) : SaleItem.t :=
  SaleItem.mk sale_id (v_product_id item_data) (v_quantity item_data)
    (v_unit_price item_data) (v_discount_amount item_data)
    (v_tax_amount item_data) (v_line_total item_data).

(** [sale.items]: the rows of sale_items that reference the sale. *)
Definition items_of_sale (sale_id : Z) (s : Store) : list SaleItem.t :=
  filter (λ item, SaleItem.sale_id item = sale_id) (sale_items s).

Definition set_current_stock (n : Z) (inv : Inventory.t) : Inventory.t :=
  Inventory.mk n (Inventory.reserved_stock inv).

Definition add_movement (m : StockMovement.t) : Session unit :=
  modify (upd_stock_movements (λ ms, ms ++ [m])).

(** [update_inventory_after_sale(sale_items, branch_id, cashier_id)].  The
    dictionaries of [validated_items] carry no 'sale_id' key, so the
    reference [f"SALE-{item.get('sale_id', '')}"] is always "SALE-". *)
Definition update_inventory_after_sale (sale_items : list ValidatedItem)
    (branch_id cashier_id : Z) : Session unit :=
  for_each (λ item,
    do inventory <- query (λ s, inventory s !! (v_product_id item, branch_id));
    match inventory with
    | Some inv =>
        modify (upd_inventory
          <[(v_product_id item, branch_id) :=
              set_current_stock (Inventory.current_stock inv - v_quantity item) inv]>) ;;
        add_movement
          (StockMovement.mk (v_product_id item) branch_id "OUT" (- v_quantity item)
             None "SALE-" "Sale transaction" cashier_id)
    | None => ret tt
    end) sale_items.

(** The item loop of [create_sale]: validation, stock check and line totals.
    It reads the store and writes nothing. *)
Fixpoint validate_items (branch_id : Z) (items_data : list SaleItemData)
    (validated_items : list ValidatedItem) (sub_total total_tax : Q)
    : Session (list ValidatedItem * Q * Q) :=
  match items_data with
  | [] => ret (validated_items, sub_total, total_tax)
  | item_data :: rest =>
      let quantity := default 0 (d_quantity item_data) in
      let item_discount := default 0%Q (d_item_discount_amount item_data) in
      match d_product_id item_data with
      | Some product_id =>
          if (product_id =? 0) || (quantity <=? 0)
          then fail (err 400 "Invalid item data")
          else
            do product <- query (λ s, products s !! product_id);
            match product with
            | Some product =>
                if negb (Product.is_active product)
                then fail (err 404 ("Product " +:+ pretty product_id +:+ " not found or inactive"))
                else
                  let unit_price :=
                    default (Product.selling_price product) (d_unit_price item_data) in
                  do inventory <- query (λ s, inventory s !! (product_id, branch_id));
                  match inventory with
                  | Some inv =>
                      if Inventory.available_stock inv <? quantity
                      then fail (err 400 ("Insufficient stock for product "
                                          +:+ Product.product_name product))
                      else
                        let line_subtotal :=
                          (unit_price * inject_Z quantity - item_discount)%Q in
                        let tax_amount :=
                          (line_subtotal * (Product.tax_rate product / 100))%Q in
                        let line_total := (line_subtotal + tax_amount)%Q in
                        validate_items branch_id rest
                          (validated_items ++
                             [mkValidatedItem product_id quantity unit_price
                                item_discount tax_amount line_total])
                          (sub_total + line_subtotal)%Q
                          (total_tax + tax_amount)%Q
                  | None =>
                      fail (err 400 ("Insufficient stock for product "
                                     +:+ Product.product_name product))
                  end
            | None =>
                fail (err 404 ("Product " +:+ pretty product_id +:+ " not found or inactive"))
            end
      | None => fail (err 400 "Invalid item data")
      end
  end.

Section Routes.

(** Python's [float] on the text of a setting: [None] when it raises. *)
Variable py_float : string → option Q.

(** [datetime.strptime(text, '%Y-%m-%d').date()]: [None] when it raises
    ValueError; dates are day numbers. *)
Variable strptime_date : string → option Z.

(** The loyalty step of [create_sale], run when a customer is attached. *)
Definition award_loyalty_points (customer_id sale_id : Z) (sale_number : string)
    (total_amount : Q) : Session unit :=
  do loyalty_rate_setting <- query (λ s, system_settings s !! "LOYALTY_POINTS_RATE");
  do loyalty_rate <-
    match loyalty_rate_setting with
    | Some setting_value =>
        match py_float setting_value with
        | Some rate => ret rate
        | None => fail (exception "could not convert string to float")
        end
    | None => ret 1%Q
    end;
  let points := points_earned total_amount loyalty_rate in
  if points >? 0 then
    modify (upd_customers (alter (λ customer,
      Customer.mk (Customer.loyalty_points customer + points)
                  (Customer.total_purchases customer + total_amount)%Q) customer_id)) ;;
    modify (upd_loyalty_transactions (λ ts, ts ++
      [LoyaltyTransaction.mk customer_id (Some sale_id) "EARNED" points
         ("Points earned from sale " +:+ sale_number)]))
  else ret tt.

(** POST /sales.  [current_user_id] is [get_jwt_identity()], [sale_number]
    the value [generate_sale_number()] returns for this request.  The answer
    on success is the id of the created sale (status 201). *)
Definition create_sale_body (current_user_id : Z) (sale_number : string)
    (data : SaleData) : Session Z :=
  do allowed <- query (check_permission current_user_id ["Admin"; "Cashier"]);
  if negb allowed
  then fail (unauthorized "Unauthorized. Admin or Cashier access required.")
  else
  require_fields (sale_data_has data)
    ["branch_id"; "items"; "payment_method"; "total_amount"] ;;
  match d_branch_id data, d_items data, d_payment_method data with
  | Some branch_id, Some items_data, Some payment_method =>
      match items_data with
      | [] => fail (err 400 "Sale must have at least one item")
      | _ :: _ =>
          let customer_id := d_customer_id data in
          let discount_amount := default 0%Q (d_discount_amount data) in
          let notes := default "" (d_notes data) in
          do branch <- query (λ s, branches s !! branch_id);
          match branch with
          | None => fail (err 404 "Branch not found")
          | Some _ =>
              do customer <-
                (if truthy customer_id
                 then
                   do found <- query (λ s, customers s !! default 0 customer_id);
                   match found with
                   | Some c => ret (Some c)
                   | None => fail (err 404 "Customer not found")
                   end
                 else ret None);
              do validated <- validate_items branch_id items_data [] 0%Q 0%Q;
              let '(validated_items, sub_total, total_tax) := validated in
              let total_amount := (sub_total + total_tax - discount_amount)%Q in
              do sale_id <- query (λ s, next_id (sales s));
              modify (upd_sales <[sale_id :=
                Sale.mk sale_number customer_id branch_id current_user_id
                  sub_total total_tax discount_amount total_amount
                  payment_method "Completed" notes]>) ;;
              modify (upd_sale_items (λ rows,
                rows ++ map (sale_item_of sale_id) validated_items)) ;;
              update_inventory_after_sale validated_items branch_id current_user_id ;;
              (match customer with
               | Some _ =>
                   award_loyalty_points (default 0 customer_id) sale_id sale_number
                     total_amount
               | None => ret tt
               end) ;;
              ret sale_id
          end
      end
  | _, _, _ => fail (exception "KeyError")
  end.

Definition create_sale (current_user_id : Z) (sale_number : string)
    (data : SaleData) (s : Store) : (error + Z) * Store :=
  respond (create_sale_body current_user_id sale_number data) s.

(** The filter of the loyalty query of a refund: the sale's customer, the
    sale, and the type EARNED. *)
Definition is_earned_for (customer_id sale_id : Z) (t : LoyaltyTransaction.t) : bool :=
  (LoyaltyTransaction.customer_id t =? customer_id)
  && bool_decide (LoyaltyTransaction.sale_id t = Some sale_id)
  && String.eqb (LoyaltyTransaction.transaction_type t) "EARNED".

(** The body of the loop over [sale.items] of a refund. *)
Definition restore_item (sale : Sale.t) (current_user_id : Z) (item : SaleItem.t)
    : Session unit :=
  do inventory <-
    query (λ s, inventory s !! (SaleItem.product_id item, Sale.branch_id sale));
  match inventory with
  | Some inv =>
      modify (upd_inventory
        <[(SaleItem.product_id item, Sale.branch_id sale) :=
            set_current_stock (Inventory.current_stock inv + SaleItem.quantity item) inv]>) ;;
      add_movement
        (StockMovement.mk (SaleItem.product_id item) (Sale.branch_id sale) "IN"
           (SaleItem.quantity item) None
           ("REFUND-" +:+ Sale.sale_number sale)
           ("Refund for sale " +:+ Sale.sale_number sale) current_user_id)
  | None => ret tt
  end.

(** The loyalty step of a refund. *)
Definition refund_loyalty (sale_id : Z) (sale : Sale.t) : Session unit :=
  if truthy (Sale.customer_id sale) then
    let customer_id := default 0 (Sale.customer_id sale) in
    do customer <- query (λ s, customers s !! customer_id);
    match customer with
    | Some _ =>
        do loyalty_transaction <-
          query (λ s, find (is_earned_for customer_id sale_id) (loyalty_transactions s));
        match loyalty_transaction with
        | Some earned =>
            modify (upd_customers (alter (λ customer,
              Customer.mk
                (Customer.loyalty_points customer - LoyaltyTransaction.points earned)
                (Customer.total_purchases customer - Sale.total_amount sale)%Q)
              customer_id)) ;;
            modify (upd_loyalty_transactions (λ ts, ts ++
              [LoyaltyTransaction.mk customer_id (Some sale_id) "ADJUSTED"
                 (- LoyaltyTransaction.points earned)
                 ("Points deducted for refunded sale " +:+ Sale.sale_number sale)]))
        | None => ret tt
        end
    | None => ret tt
    end
  else ret tt.

(** POST /sales/<sale_id>/refund; [reason] is [data.get('reason')]. *)
Definition refund_sale_body (current_user_id sale_id : Z) (reason : option string)
    : Session unit :=
  do allowed <- query (check_permission current_user_id ["Admin"; "Cashier"]);
  if negb allowed
  then fail (unauthorized "Unauthorized. Admin or Cashier access required.")
  else
  do sale <- query (λ s, sales s !! sale_id);
  match sale with
  | None => fail (err 404 "Sale not found")
  | Some sale =>
      if String.eqb (Sale.payment_status sale) "Refunded"
      then fail (err 400 "Sale already refunded")
      else
        let refund_reason := default "Customer request" reason in
        modify (upd_sales <[sale_id :=
          Sale.mk (Sale.sale_number sale) (Sale.customer_id sale) (Sale.branch_id sale)
            (Sale.cashier_id sale) (Sale.sub_total sale) (Sale.tax_amount sale)
            (Sale.discount_amount sale) (Sale.total_amount sale)
            (Sale.payment_method sale) "Refunded"
            (Sale.notes sale +:+ " | REFUNDED: " +:+ refund_reason)]>) ;;
        do items <- query (items_of_sale sale_id);
        for_each (restore_item sale current_user_id) items ;;
        refund_loyalty sale_id sale
  end.

Definition refund_sale (current_user_id sale_id : Z) (reason : option string)
    (s : Store) : (error + unit) * Store :=
  respond (refund_sale_body current_user_id sale_id reason) s.

(** ** Inventory routes *)

(** The JSON body of POST /inventory/adjust. *)
Record AdjustData := mkAdjustData {
  a_product_id : option Z;
  a_branch_id : option Z;
  a_quantity : option Z;
  a_movement_type : option string;
  a_unit_cost : option Q;
  a_reference : option string;
  a_notes : option string }.

Definition adjust_data_has (data : AdjustData) (field : string) : bool :=
  if String.eqb field "product_id" then bool_decide (is_Some (a_product_id data))
  else if String.eqb field "branch_id" then bool_decide (is_Some (a_branch_id data))
  else if String.eqb field "quantity" then bool_decide (is_Some (a_quantity data))
  else if String.eqb field "movement_type" then bool_decide (is_Some (a_movement_type data))
  else false.

(** [Inventory.query.filter_by(...).first()] followed by the creation of a
    row with [current_stock=0] when there is none. *)
Definition get_or_create_inventory (product_id branch_id : Z) : Session Inventory.t :=
  do inventory <- query (λ s, inventory s !! (product_id, branch_id));
  match inventory with
  | Some inv => ret inv
  | None =>
      modify (upd_inventory <[(product_id, branch_id) := Inventory.mk 0 0]>) ;;
      ret (Inventory.mk 0 0)
  end.

Definition adjust_stock_body (current_user_id : Z) (data : AdjustData) : Session unit :=
  do allowed <- query (check_permission current_user_id ["Admin"; "InventoryManager"]);
  if negb allowed
  then fail (unauthorized "Unauthorized. Admin or Inventory Manager access required.")
  else
  require_fields (adjust_data_has data)
    ["product_id"; "branch_id"; "quantity"; "movement_type"] ;;
  match a_product_id data, a_branch_id data, a_quantity data, a_movement_type data with
  | Some product_id, Some branch_id, Some quantity, Some movement_type =>
      let unit_cost := a_unit_cost data in
      let reference := default "" (a_reference data) in
      let notes := default "" (a_notes data) in
      do product <- query (λ s, products s !! product_id);
      match product with
      | None => fail (err 404 "Product not found")
      | Some _ =>
          do branch <- query (λ s, branches s !! branch_id);
          match branch with
          | None => fail (err 404 "Branch not found")
          | Some _ =>
              do inv <- get_or_create_inventory product_id branch_id;
              do new_stock <-
                (if String.eqb movement_type "IN"
                 then ret (Inventory.current_stock inv + quantity)
                 else if String.eqb movement_type "OUT"
                 then
                   if Inventory.current_stock inv <? quantity
                   then fail (err 400 "Insufficient stock")
                   else ret (Inventory.current_stock inv - quantity)
                 else if String.eqb movement_type "ADJUSTMENT"
                 then ret quantity
                 else fail (err 400 "Invalid movement type"));
              modify (upd_inventory
                <[(product_id, branch_id) := set_current_stock new_stock inv]>) ;;
              add_movement
                (StockMovement.mk product_id branch_id movement_type
                   (if negb (String.eqb movement_type "OUT") then quantity else - quantity)
                   unit_cost reference notes current_user_id)
          end
      end
  | _, _, _, _ => fail (exception "KeyError")
  end.

Definition adjust_stock (current_user_id : Z) (data : AdjustData) (s : Store)
    : (error + unit) * Store :=
  respond (adjust_stock_body current_user_id data) s.

(** The JSON body of POST /inventory/transfer. *)
Record TransferData := mkTransferData {
  t_product_id : option Z;
  t_from_branch_id : option Z;
  t_to_branch_id : option Z;
  t_quantity : option Z;
  t_notes : option string }.

Definition transfer_data_has (data : TransferData) (field : string) : bool :=
  if String.eqb field "product_id" then bool_decide (is_Some (t_product_id data))
  else if String.eqb field "from_branch_id" then bool_decide (is_Some (t_from_branch_id data))
  else if String.eqb field "to_branch_id" then bool_decide (is_Some (t_to_branch_id data))
  else if String.eqb field "quantity" then bool_decide (is_Some (t_quantity data))
  else false.

(** POST /inventory/transfer; [utcnow] is the text
    [datetime.utcnow().strftime('%Y%m%d%H%M%S')] of this request. *)
Definition transfer_stock_body (current_user_id : Z) (utcnow : string)
    (data : TransferData) : Session unit :=
  do allowed <- query (check_permission current_user_id ["Admin"; "InventoryManager"]);
  if negb allowed
  then fail (unauthorized "Unauthorized. Admin or Inventory Manager access required.")
  else
  require_fields (transfer_data_has data)
    ["product_id"; "from_branch_id"; "to_branch_id"; "quantity"] ;;
  match t_product_id data, t_from_branch_id data, t_to_branch_id data, t_quantity data with
  | Some product_id, Some from_branch_id, Some to_branch_id, Some quantity =>
      let notes := default "" (t_notes data) in
      if from_branch_id =? to_branch_id
      then fail (err 400 "Source and destination branches cannot be the same")
      else
        do product <- query (λ s, products s !! product_id);
        match product with
        | None => fail (err 404 "Product not found")
        | Some _ =>
            do from_branch <- query (λ s, branches s !! from_branch_id);
            do to_branch <- query (λ s, branches s !! to_branch_id);
            match from_branch, to_branch with
            | Some from_branch, Some to_branch =>
                do from_inventory <- query (λ s, inventory s !! (product_id, from_branch_id));
                match from_inventory with
                | None => fail (err 400 "Insufficient stock in source branch")
                | Some from_inv =>
                    if Inventory.available_stock from_inv <? quantity
                    then fail (err 400 "Insufficient stock in source branch")
                    else
                      do to_inv <- get_or_create_inventory product_id to_branch_id;
                      modify (upd_inventory
                        <[(product_id, from_branch_id) :=
                            set_current_stock (Inventory.current_stock from_inv - quantity)
                              from_inv]>) ;;
                      modify (upd_inventory
                        <[(product_id, to_branch_id) :=
                            set_current_stock (Inventory.current_stock to_inv + quantity)
                              to_inv]>) ;;
                      let transfer_ref := "TRANSFER-" +:+ utcnow in
                      add_movement
                        (StockMovement.mk product_id from_branch_id "TRANSFER" (- quantity)
                           None transfer_ref
                           ("Transfer to " +:+ Branch.branch_name to_branch +:+ ". " +:+ notes)
                           current_user_id) ;;
                      add_movement
                        (StockMovement.mk product_id to_branch_id "TRANSFER" quantity
                           None transfer_ref
                           ("Transfer from " +:+ Branch.branch_name from_branch +:+ ". " +:+ notes)
                           current_user_id)
                end
            | _, _ => fail (err 404 "Branch not found")
            end
        end
  | _, _, _, _ => fail (exception "KeyError")
  end.

Definition transfer_stock (current_user_id : Z) (utcnow : string)
    (data : TransferData) (s : Store) : (error + unit) * Store :=
  respond (transfer_stock_body current_user_id utcnow data) s.

(** ** Purchase-order routes *)

Definition set_status (status : string) (po : PurchaseOrder.t) : PurchaseOrder.t :=
  PurchaseOrder.mk (PurchaseOrder.po_number po) (PurchaseOrder.branch_id po)
    (PurchaseOrder.expected_delivery_date po) status (PurchaseOrder.notes po).

Definition set_notes (notes : string) (po : PurchaseOrder.t) : PurchaseOrder.t :=
  PurchaseOrder.mk (PurchaseOrder.po_number po) (PurchaseOrder.branch_id po)
    (PurchaseOrder.expected_delivery_date po) (PurchaseOrder.status po) notes.

Definition set_expected_delivery_date (date : option Z) (po : PurchaseOrder.t)
    : PurchaseOrder.t :=
  PurchaseOrder.mk (PurchaseOrder.po_number po) (PurchaseOrder.branch_id po)
    date (PurchaseOrder.status po) (PurchaseOrder.notes po).

(** [status in ['Received', 'Cancelled']]. *)
Definition received_or_cancelled (status : string) : bool :=
  String.eqb status "Received" || String.eqb status "Cancelled".

(** The JSON body of PUT /purchases/<po_id>. *)
Record UpdateData := mkUpdateData {
  u_expected_delivery_date : option string;
  u_status : option string;
  u_notes : option string }.

(** PUT /purchases/<po_id>.  A non-empty date text is parsed first; an empty
    one is falsy, stays a [str] and is refused by the Date column when the
    session is flushed. *)
Definition update_purchase_order_body (current_user_id po_id : Z) (data : UpdateData)
    : Session unit :=
  do allowed <- query (check_permission current_user_id ["Admin"; "InventoryManager"]);
  if negb allowed
  then fail (unauthorized "Unauthorized. Admin or Inventory Manager access required.")
  else
  do purchase_order <- query (λ s, purchase_orders s !! po_id);
  match purchase_order with
  | None => fail (err 404 "Purchase order not found")
  | Some po =>
      if received_or_cancelled (PurchaseOrder.status po)
      then fail (err 400 "Cannot update received or cancelled purchase order")
      else
        do date <-
          match u_expected_delivery_date data with
          | Some text =>
              if String.eqb text ""
              then fail (exception "TypeError")
              else match strptime_date text with
                   | Some d => ret (Some d)
                   | None => fail (err 400 "Invalid date format. Use YYYY-MM-DD")
                   end
          | None => ret (PurchaseOrder.expected_delivery_date po)
          end;
        let po := set_expected_delivery_date date po in
        let po := match u_status data with Some v => set_status v po | None => po end in
        let po := match u_notes data with Some v => set_notes v po | None => po end in
        modify (upd_purchase_orders <[po_id := po]>)
  end.

Definition update_purchase_order (current_user_id po_id : Z) (data : UpdateData)
    (s : Store) : (error + unit) * Store :=
  respond (update_purchase_order_body current_user_id po_id data) s.

(** One entry of the 'items' list of POST /purchases/<po_id>/receive. *)
Record ReceivedItem := mkReceivedItem {
  r_item_id : option Z;
  r_received_quantity : option Z }.

(** [str(item_id)] in the error message. *)
Definition show_item_id (item_id : option Z) : string :=
  match item_id with
  | Some n => pretty n
  | None => "None"
  end.

(** The body of the loop over [received_items]. *)
Definition receive_item (current_user_id po_id : Z) (po : PurchaseOrder.t)
    (received_item : ReceivedItem) : Session unit :=
  let item_id := r_item_id received_item in
  let received_quantity := default 0 (r_received_quantity received_item) in
  if received_quantity <=? 0 then ret tt
  else
    do po_item <-
      query (λ s, item_id ≫= λ i, purchase_order_items s !! i);
    match po_item with
    | None => fail (err 400 ("Invalid item ID: " +:+ show_item_id item_id))
    | Some item =>
        if negb (PurchaseOrderItem.purchase_order_id item =? po_id)
        then fail (err 400 ("Invalid item ID: " +:+ show_item_id item_id))
        else
          modify (upd_purchase_order_items <[default 0 item_id :=
            PurchaseOrderItem.mk (PurchaseOrderItem.purchase_order_id item)
              (PurchaseOrderItem.product_id item)
              (PurchaseOrderItem.ordered_quantity item)
              (PurchaseOrderItem.received_quantity item + received_quantity)
              (PurchaseOrderItem.unit_cost item)]>) ;;
          do inv <- get_or_create_inventory (PurchaseOrderItem.product_id item)
                      (PurchaseOrder.branch_id po);
          modify (upd_inventory
            <[(PurchaseOrderItem.product_id item, PurchaseOrder.branch_id po) :=
                set_current_stock (Inventory.current_stock inv + received_quantity) inv]>) ;;
          add_movement
            (StockMovement.mk (PurchaseOrderItem.product_id item)
               (PurchaseOrder.branch_id po) "IN" received_quantity
               (Some (PurchaseOrderItem.unit_cost item))
               (PurchaseOrder.po_number po)
               ("Received from PO " +:+ PurchaseOrder.po_number po)
               current_user_id)
    end.

(** [all(item.received_quantity >= item.ordered_quantity
         for item in purchase_order.items)]. *)
Definition all_received (po_id : Z) (s : Store) : bool :=
  bool_decide (map_Forall (λ _ item,
    PurchaseOrderItem.purchase_order_id item = po_id →
    PurchaseOrderItem.ordered_quantity item ≤ PurchaseOrderItem.received_quantity item)
    (purchase_order_items s)).

(** POST /purchases/<po_id>/receive; [items] is [data.get('items')]. *)
Definition receive_purchase_order_body (current_user_id po_id : Z)
    (items : option (list ReceivedItem)) : Session unit :=
  do allowed <- query (check_permission current_user_id ["Admin"; "InventoryManager"]);
  if negb allowed
  then fail (unauthorized "Unauthorized. Admin or Inventory Manager access required.")
  else
  do purchase_order <- query (λ s, purchase_orders s !! po_id);
  match purchase_order with
  | None => fail (err 404 "Purchase order not found")
  | Some po =>
      if negb (String.eqb (PurchaseOrder.status po) "Approved")
      then fail (err 400 "Purchase order must be approved before receiving")
      else
        let received_items := default [] items in
        match received_items with
        | [] => fail (err 400 "No items to receive")
        | _ :: _ =>
            for_each (receive_item current_user_id po_id po) received_items ;;
            do complete <- query (all_received po_id);
            if complete
            then modify (upd_purchase_orders (alter (set_status "Received") po_id))
            else ret tt
        end
  end.

Definition receive_purchase_order (current_user_id po_id : Z)
    (items : option (list ReceivedItem)) (s : Store) : (error + unit) * Store :=
  respond (receive_purchase_order_body current_user_id po_id items) s.

(** POST /purchases/<po_id>/approve. *)
Definition approve_purchase_order_body (current_user_id po_id : Z) : Session unit :=
  do allowed <- query (check_permission current_user_id ["Admin"]);
  if negb allowed
  then fail (unauthorized "Unauthorized. Admin access required.")
  else
  do purchase_order <- query (λ s, purchase_orders s !! po_id);
  match purchase_order with
  | None => fail (err 404 "Purchase order not found")
  | Some po =>
      if negb (String.eqb (PurchaseOrder.status po) "Pending")
      then fail (err 400 "Only pending purchase orders can be approved")
      else modify (upd_purchase_orders <[po_id := set_status "Approved" po]>)
  end.

Definition approve_purchase_order (current_user_id po_id : Z) (s : Store)
    : (error + unit) * Store :=
  respond (approve_purchase_order_body current_user_id po_id) s.

(** POST /purchases/<po_id>/cancel; [reason] is [data.get('reason')]. *)
Definition cancel_purchase_order_body (current_user_id po_id : Z)
    (reason : option string) : Session unit :=
  do allowed <- query (check_permission current_user_id ["Admin"; "InventoryManager"]);
  if negb allowed
  then fail (unauthorized "Unauthorized. Admin or Inventory Manager access required.")
  else
  do purchase_order <- query (λ s, purchase_orders s !! po_id);
  match purchase_order with
  | None => fail (err 404 "Purchase order not found")
  | Some po =>
      if received_or_cancelled (PurchaseOrder.status po)
      then fail (err 400 "Cannot cancel received or already cancelled purchase order")
      else
        let reason := default "Cancelled by user" reason in
        modify (upd_purchase_orders <[po_id :=
          set_notes (PurchaseOrder.notes po +:+ " | CANCELLED: " +:+ reason)
            (set_status "Cancelled" po)]>)
  end.

Definition cancel_purchase_order (current_user_id po_id : Z) (reason : option string)
    (s : Store) : (error + unit) * Store :=
  respond (cancel_purchase_order_body current_user_id po_id reason) s.

End Routes.

(** ** Error classes of the specification, read off the responses *)

(** InsufficientStock: a 400 whose message starts with "Insufficient stock". *)
Definition is_InsufficientStock (e : error) : bool :=
  (http_status e =? 400) && String.prefix "Insufficient stock" (message e).

(** A line of a sale request asks for more than the branch has available:
    the inventory row of its product is absent or holds less than the
    requested quantity. *)
Definition understocked (branch_id : Z) (item_data : SaleItemData) (s : Store) : bool :=
  match d_product_id item_data with
  | Some product_id =>
      match inventory s !! (product_id, branch_id) with
      | Some inv => Inventory.available_stock inv <? default 0 (d_quantity item_data)
      | None => true
      end
  | None => false
  end.

(** The request gets past the checks that precede the item loop of
    [create_sale]: permission, required fields, branch and customer. *)
Definition reaches_item_loop (uid : Z) (data : SaleData) (s : Store) : Prop :=
  check_permission uid ["Admin"; "Cashier"] s = true ∧
  is_Some (d_payment_method data) ∧
  is_Some (d_total_amount data) ∧
  (∃ b, d_branch_id data = Some b ∧ is_Some (branches s !! b)) ∧
  (truthy (d_customer_id data) = true →
   is_Some (customers s !! default 0 (d_customer_id data))).

(** Every line of [lines] passes the checks of the item loop. *)
Definition lines_valid (branch_id : Z) (lines : list SaleItemData) (s : Store) : bool :=
  match (validate_items branch_id lines [] 0%Q 0%Q s).1 with
  | inr _ => true
  | inl _ => false
  end.

(** Sum of a list of amounts. *)
Definition Qsum (l : list Q) : Q := foldr Qplus 0%Q l.

(** [unit_price*quantity - discount] of a validated line and of a stored one. *)
Definition v_line_subtotal (item : ValidatedItem) : Q :=
  (v_unit_price item * inject_Z (v_quantity item) - v_discount_amount item)%Q.

Definition line_subtotal (item : SaleItem.t) : Q :=
  (SaleItem.unit_price item * inject_Z (SaleItem.quantity item)
   - SaleItem.discount_amount item)%Q.

(** The foreign key of sale_items: every row references a stored sale. *)
Definition sale_items_reference_sales (s : Store) : bool :=
  forallb (λ item, bool_decide (is_Some (sales s !! SaleItem.sale_id item)))
    (sale_items s).

(** What the item loop guarantees of a line it accepts. *)
Definition line_checked (branch_id : Z) (s : Store) (item : ValidatedItem) : Prop :=
  ∃ p inv,
    products s !! v_product_id item = Some p ∧
    inventory s !! (v_product_id item, branch_id) = Some inv ∧
    0 < v_quantity item ∧
    v_quantity item ≤ Inventory.available_stock inv ∧
    v_tax_amount item = (v_line_subtotal item * (Product.tax_rate p / 100))%Q ∧
    v_line_total item = (v_line_subtotal item + v_tax_amount item)%Q.

(** The two stores agree on every table but inventory and stock_movements. *)
Definition same_but_stock (s s' : Store) : Prop :=
  s' = upd_stock_movements (λ _, stock_movements s') (upd_inventory (λ _, inventory s') s).

(** The sale row [create_sale] inserts, from the request and the loop totals. *)
Definition sale_header (sale_number : string) (current_user_id : Z) (data : SaleData)
    (branch_id : Z) (payment_method : string) (sub_total total_tax : Q) : Sale.t :=
  Sale.mk sale_number (d_customer_id data) branch_id current_user_id
    sub_total total_tax (default 0%Q (d_discount_amount data))
    (sub_total + total_tax - default 0%Q (d_discount_amount data))%Q
    payment_method "Completed" (default "" (d_notes data)).

(** The session state once the sale and its items are added. *)
Definition booked (sale_id : Z) (sale : Sale.t) (validated_items : list ValidatedItem)
    (s : Store) : Store :=
  upd_sale_items (λ rows, rows ++ map (sale_item_of sale_id) validated_items)
    (upd_sales <[sale_id := sale]> s).

(** The rate [create_sale] multiplies the total with: the text of the
    LOYALTY_POINTS_RATE setting through [float], 1.0 without the setting;
    [None] when [float] raises. *)
Definition loyalty_rate (py_float : string → option Q) (s : Store) : option Q :=
  match system_settings s !! "LOYALTY_POINTS_RATE" with
  | Some setting_value => py_float setting_value
  | None => Some 1%Q
  end.

(** The customer row and the EARNED transaction after an award of [points]. *)
Definition credit (points : Z) (amount : Q) (customer : Customer.t) : Customer.t :=
  Customer.mk (Customer.loyalty_points customer + points)
              (Customer.total_purchases customer + amount)%Q.

Definition earned (customer_id sale_id : Z) (sale_number : string) (points : Z)
    : LoyaltyTransaction.t :=
  LoyaltyTransaction.mk customer_id (Some sale_id) "EARNED" points
    ("Points earned from sale " +:+ sale_number).

(** The request with its 'total_amount' field replaced. *)
Definition set_total_amount (total_amount : option Q) (data : SaleData) : SaleData :=
  mkSaleData (d_branch_id data) (d_customer_id data) (d_items data)
    (d_payment_method data) total_amount (d_discount_amount data) (d_notes data).

(** ** Vocabulary for refunds *)

Definition add_stock (n : Z) (inv : Inventory.t) : Inventory.t :=
  set_current_stock (Inventory.current_stock inv + n) inv.

(** The quantity of a product over the lines of a sale. *)
Definition sold_quantity (items : list SaleItem.t) (product_id : Z) : Z :=
  foldr (λ item acc,
    if bool_decide (SaleItem.product_id item = product_id)
    then SaleItem.quantity item + acc else acc) 0 items.

(** The IN movement a refund books for a line. *)
Definition refund_movement (sale : Sale.t) (current_user_id : Z) (item : SaleItem.t)
    : StockMovement.t :=
  StockMovement.mk (SaleItem.product_id item) (Sale.branch_id sale) "IN"
    (SaleItem.quantity item) None
    ("REFUND-" +:+ Sale.sale_number sale)
    ("Refund for sale " +:+ Sale.sale_number sale) current_user_id.

(** An EARNED loyalty transaction of the sale. *)
Definition earned_for_sale (sale_id : Z) (t : LoyaltyTransaction.t) : bool :=
  bool_decide (LoyaltyTransaction.sale_id t = Some sale_id)
  && String.eqb (LoyaltyTransaction.transaction_type t) "EARNED".

(** Every line of the sale has an inventory row at the sale's branch. *)
Definition items_in_stock (sale_id : Z) (sale : Sale.t) (s : Store) : bool :=
  forallb (λ item,
    bool_decide (is_Some (inventory s !! (SaleItem.product_id item, Sale.branch_id sale))))
    (items_of_sale sale_id s).

(** The EARNED transactions of the sale belong to the sale's customer, who
    is a stored customer. *)
Definition earned_by_customer (sale_id : Z) (sale : Sale.t) (s : Store) : bool :=
  forallb (λ t,
    implb (earned_for_sale sale_id t)
      (truthy (Sale.customer_id sale)
       && (LoyaltyTransaction.customer_id t =? default 0 (Sale.customer_id sale))
       && bool_decide (is_Some (customers s !! default 0 (Sale.customer_id sale)))))
    (loyalty_transactions s).

(** The customer row and the ADJUSTED transaction after a refund. *)
Definition debit (points : Z) (amount : Q) (customer : Customer.t) : Customer.t :=
  Customer.mk (Customer.loyalty_points customer - points)
              (Customer.total_purchases customer - amount)%Q.

Definition adjusted (sale_id : Z) (sale : Sale.t) (earned : LoyaltyTransaction.t)
    : LoyaltyTransaction.t :=
  LoyaltyTransaction.mk (LoyaltyTransaction.customer_id earned) (Some sale_id) "ADJUSTED"
    (- LoyaltyTransaction.points earned)
    ("Points deducted for refunded sale " +:+ Sale.sale_number sale).

(** The foreign key of loyalty_transactions: a transaction that names a sale
    names a stored one. *)
Definition loyalty_references_sales (s : Store) : bool :=
  forallb (λ t,
    match LoyaltyTransaction.sale_id t with
    | Some k => bool_decide (is_Some (sales s !! k))
    | None => true
    end) (loyalty_transactions s).

(** ** Vocabulary for stock adjustments *)

(** The current_stock of the row of a product at a branch, 0 without a row
    (the level a freshly created row starts from). *)
Definition stock_level (product_id branch_id : Z) (s : Store) : Z :=
  from_option Inventory.current_stock 0 (inventory s !! (product_id, branch_id)).

(** ** Vocabulary for transfers *)

(** InvalidTransfer: the 400 of the same-branch check. *)
Definition is_InvalidTransfer (e : error) : bool :=
  (http_status e =? 400)
  && String.eqb (message e) "Source and destination branches cannot be the same".

(** A TRANSFER movement. *)
Definition is_transfer_of (product_id branch_id quantity : Z) (reference : string)
    (m : StockMovement.t) : Prop :=
  StockMovement.product_id m = product_id ∧
  StockMovement.branch_id m = branch_id ∧
  StockMovement.movement_type m = "TRANSFER" ∧
  StockMovement.quantity m = quantity ∧
  StockMovement.reference m = reference.

(** ** Vocabulary for purchase orders *)

(** InvalidStateTransition: the 400 answers of the status checks of approve,
    receive and cancel. *)
Definition is_InvalidStateTransition (e : error) : bool :=
  (http_status e =? 400)
  && (String.eqb (message e) "Only pending purchase orders can be approved"
      || String.eqb (message e) "Purchase order must be approved before receiving"
      || String.eqb (message e)
           "Cannot cancel received or already cancelled purchase order").

(** The status of a stored order. *)
Definition status_of (po_id : Z) (s : Store) : option string :=
  PurchaseOrder.status <$> purchase_orders s !! po_id.

(** The date of an update request is absent, or a text [strptime] accepts. *)
Definition date_accepted (strptime_date : string → option Z) (data : UpdateData) : bool :=
  match u_expected_delivery_date data with
  | Some text => negb (String.eqb text "") && bool_decide (is_Some (strptime_date text))
  | None => true
  end.

(** ** Vocabulary for receipts *)












(** The columns of an order item a receipt never changes. *)
Definition item_static (item : PurchaseOrderItem.t) : Z * Z * Q :=
  (PurchaseOrderItem.purchase_order_id item, PurchaseOrderItem.product_id item,
   PurchaseOrderItem.unit_cost item).

(** ** Vocabulary for the stock effect of a sale *)

(** The OUT movement a sale books for a line. *)
Definition sale_movement (branch_id cashier_id : Z) (item : SaleItem.t)
    : StockMovement.t :=
  StockMovement.mk (SaleItem.product_id item) branch_id "OUT" (- SaleItem.quantity item)
    None "SALE-" "Sale transaction" cashier_id.

(** Two customer rows with the same points and the same purchase total. *)
Definition same_balance (c c' : option Customer.t) : Prop :=
  match c, c' with
  | Some a, Some b =>
      Customer.loyalty_points a = Customer.loyalty_points b ∧
      (Customer.total_purchases a == Customer.total_purchases b)%Q
  | None, None => True
  | _, _ => False
  end.

(** What a successful refund of [sale] does to the store [s]. *)
Definition refund_effect (uid sale_id : Z) (sale : Sale.t) (s s' : Store) : Prop :=
  Sale.payment_status <$> sales s' !! sale_id = Some "Refunded" ∧
  (∀ p, inventory s' !! (p, Sale.branch_id sale)
        = add_stock (sold_quantity (items_of_sale sale_id s) p)
            <$> inventory s !! (p, Sale.branch_id sale)) ∧
  (∀ p b, b ≠ Sale.branch_id sale → inventory s' !! (p, b) = inventory s !! (p, b)) ∧
  stock_movements s' =
    stock_movements s ++ map (refund_movement sale uid) (items_of_sale sale_id s) ∧
  match find (earned_for_sale sale_id) (loyalty_transactions s) with
  | Some earned =>
      ∃ customer,
        customers s !! LoyaltyTransaction.customer_id earned = Some customer ∧
        customers s' =
          <[LoyaltyTransaction.customer_id earned :=
              debit (LoyaltyTransaction.points earned) (Sale.total_amount sale) customer]>
            (customers s) ∧
        loyalty_transactions s' = loyalty_transactions s ++ [adjusted sale_id sale earned]
  | None =>
      customers s' = customers s ∧ loyalty_transactions s' = loyalty_transactions s
  end.

(** ** Customer routes *)

(** POST /customers/<customer_id>/loyalty/adjust ([routes/customer.py]);
    [points] is [data['points']] when the key is present, [reason] is
    [data.get('reason')]. *)
Definition adjust_loyalty_points_body (current_user_id customer_id : Z)
    (points : option Z) (reason : option string) : Session unit :=
  do allowed <- query (check_permission current_user_id ["Admin"]);
  if negb allowed
  then fail (unauthorized "Unauthorized. Admin access required.")
  else
  do customer <- query (λ s, customers s !! customer_id);
  match customer with
  | None => fail (err 404 "Customer not found")
  | Some _ =>
      match points with
      | None => fail (err 400 "Points value is required")
      | Some points =>
          let reason := default "Manual adjustment" reason in
          modify (upd_customers (alter (λ customer,
            Customer.mk (Customer.loyalty_points customer + points)
                        (Customer.total_purchases customer)) customer_id)) ;;
          modify (upd_loyalty_transactions (λ ts, ts ++
            [LoyaltyTransaction.mk customer_id None "ADJUSTED" points reason]))
      end
  end.

Definition adjust_loyalty_points (current_user_id customer_id : Z)
    (points : option Z) (reason : option string) (s : Store) : (error + unit) * Store :=
  respond (adjust_loyalty_points_body current_user_id customer_id points reason) s.

(** ** Sequences of requests *)

(** A request to one of the modelled routes, with the identity of its token
    and the values the route draws from the clock or from uuid4. *)
Inductive request :=
  | CreateSale (uid : Z) (sale_number : string) (data : SaleData)
  | RefundSale (uid sale_id : Z) (reason : option string)
  | AdjustStock (uid : Z) (data : AdjustData)
  | TransferStock (uid : Z) (utcnow : string) (data : TransferData)
  | UpdatePurchaseOrder (uid po_id : Z) (data : UpdateData)
  | ReceivePurchaseOrder (uid po_id : Z) (items : option (list ReceivedItem))
  | ApprovePurchaseOrder (uid po_id : Z)
  | CancelPurchaseOrder (uid po_id : Z) (reason : option string)
  | AdjustLoyaltyPoints (uid customer_id : Z) (points : option Z) (reason : option string).

(** The stored state after a request. *)
Definition serve (py_float : string → option Q) (strptime_date : string → option Z)
    (r : request) (s : Store) : Store :=
  match r with
  | CreateSale uid sale_number data => (create_sale py_float uid sale_number data s).2
  | RefundSale uid sale_id reason => (refund_sale uid sale_id reason s).2
  | AdjustStock uid data => (adjust_stock uid data s).2
  | TransferStock uid utcnow data => (transfer_stock uid utcnow data s).2
  | UpdatePurchaseOrder uid po_id data =>
      (update_purchase_order strptime_date uid po_id data s).2
  | ReceivePurchaseOrder uid po_id items => (receive_purchase_order uid po_id items s).2
  | ApprovePurchaseOrder uid po_id => (approve_purchase_order uid po_id s).2
  | CancelPurchaseOrder uid po_id reason => (cancel_purchase_order uid po_id reason s).2
  | AdjustLoyaltyPoints uid customer_id points reason =>
      (adjust_loyalty_points uid customer_id points reason s).2
  end.

(** The stored state after a sequence of requests, served one after the other. *)
Definition run (py_float : string → option Q) (strptime_date : string → option Z)
    (trace : list request) (s : Store) : Store :=
  foldl (λ s r, serve py_float strptime_date r s) s trace.

(** A stock adjustment of type ADJUSTMENT. *)
Definition sets_stock_level (r : request) : bool :=
  match r with
  | AdjustStock _ data => bool_decide (a_movement_type data = Some "ADJUSTMENT")
  | _ => false
  end.

(** ** Ledgers *)

(** The sum of the movement quantities booked for a product at a branch. *)
Definition movement_sum (product_id branch_id : Z) (ms : list StockMovement.t) : Z :=
  foldr (λ m acc,
    if bool_decide (StockMovement.product_id m = product_id
                    ∧ StockMovement.branch_id m = branch_id)
    then StockMovement.quantity m + acc else acc) 0 ms.

(** The part of a stock level the movement log does not account for. *)
Definition ledger_gap (product_id branch_id : Z) (s : Store) : Z :=
  stock_level product_id branch_id s
  - movement_sum product_id branch_id (stock_movements s).

Definition stock_ledger_kept (s s' : Store) : Prop :=
  ∀ p b, ledger_gap p b s' = ledger_gap p b s.

(** The sum of the points of the loyalty transactions of a customer. *)
Definition points_sum (customer_id : Z) (ts : list LoyaltyTransaction.t) : Z :=
  foldr (λ t acc,
    if bool_decide (LoyaltyTransaction.customer_id t = customer_id)
    then LoyaltyTransaction.points t + acc else acc) 0 ts.

(** The part of a points balance the loyalty log does not account for. *)
Definition points_gap (customer_id : Z) (s : Store) : Z :=
  from_option Customer.loyalty_points 0 (customers s !! customer_id)
  - points_sum customer_id (loyalty_transactions s).

Definition points_ledger_kept (s s' : Store) : Prop :=
  ∀ c, points_gap c s' = points_gap c s.

(** ** What requests keep *)

Definition logs_kept (s s' : Store) : Prop :=
  stock_movements s `prefix_of` stock_movements s' ∧
  sale_items s `prefix_of` sale_items s' ∧
  loyalty_transactions s `prefix_of` loyalty_transactions s'.

(** Two rows of a sale that differ at most in payment_status and notes. *)
Definition same_sale_amounts (a b : Sale.t) : Prop :=
  Sale.sale_number a = Sale.sale_number b ∧
  Sale.customer_id a = Sale.customer_id b ∧
  Sale.branch_id a = Sale.branch_id b ∧
  Sale.cashier_id a = Sale.cashier_id b ∧
  Sale.sub_total a = Sale.sub_total b ∧
  Sale.tax_amount a = Sale.tax_amount b ∧
  Sale.discount_amount a = Sale.discount_amount b ∧
  Sale.total_amount a = Sale.total_amount b ∧
  Sale.payment_method a = Sale.payment_method b.

Definition sales_kept (s s' : Store) : Prop :=
  ∀ id sale,
    sales s !! id = Some sale →
    ∃ sale',
      sales s' !! id = Some sale' ∧
      same_sale_amounts sale sale' ∧
      (Sale.payment_status sale = "Refunded" → sale' = sale).

Definition orders_kept (s s' : Store) : Prop :=
  ∀ id po,
    purchase_orders s !! id = Some po →
    ∃ po',
      purchase_orders s' !! id = Some po' ∧
      PurchaseOrder.po_number po' = PurchaseOrder.po_number po ∧
      PurchaseOrder.branch_id po' = PurchaseOrder.branch_id po ∧
      (received_or_cancelled (PurchaseOrder.status po) = true → po' = po).

(** The order of the item is stored with status Received or Cancelled. *)
Definition order_closed (item : PurchaseOrderItem.t) (s : Store) : Prop :=
  ∃ po,
    purchase_orders s !! PurchaseOrderItem.purchase_order_id item = Some po ∧
    received_or_cancelled (PurchaseOrder.status po) = true.

Definition order_items_kept (s s' : Store) : Prop :=
  ∀ i item,
    purchase_order_items s !! i = Some item →
    ∃ item',
      purchase_order_items s' !! i = Some item' ∧
      item_static item' = item_static item ∧
      PurchaseOrderItem.ordered_quantity item' = PurchaseOrderItem.ordered_quantity item ∧
      PurchaseOrderItem.received_quantity item
      ≤ PurchaseOrderItem.received_quantity item' ∧
      (order_closed item s → item' = item).

Definition catalogue_kept (s s' : Store) : Prop :=
  users s' = users s ∧ branches s' = branches s ∧ products s' = products s ∧
  system_settings s' = system_settings s.

(** Everything a request keeps whatever it is and whoever sends it. *)
Definition legal (s s' : Store) : Prop :=
  points_ledger_kept s s' ∧ logs_kept s s' ∧ sales_kept s s' ∧
  orders_kept s s' ∧ order_items_kept s s' ∧ catalogue_kept s s'.

(** A step that touches the inventory table and the movement log only,
    extends the log, and keeps the stock ledger. *)
Definition stock_step (s s' : Store) : Prop :=
  same_but_stock s s' ∧
  stock_movements s `prefix_of` stock_movements s' ∧
  stock_ledger_kept s s'.

(** ** Vocabulary for the lines a sale accepts *)



(** ** Sample data *)

(** A small database: three users, two branches, three products (the third
    one inactive), one customer, stock for products 1 and 2 at branch 1. *)
Definition sample_store : Store :=
  mkStore
    (list_to_map [(1, User.mk "Admin"); (2, User.mk "Cashier");
                  (3, User.mk "InventoryManager")])
    (list_to_map [(1, Branch.mk "Main"); (2, Branch.mk "East")])
    (list_to_map [(1, Product.mk "Widget" 10%Q (17 # 2)%Q true);
                  (2, Product.mk "Gadget" (1 # 2)%Q 0%Q true);
                  (3, Product.mk "Retired" 5%Q 0%Q false)])
    (list_to_map [(1, Customer.mk 150 0%Q)])
    (list_to_map [("LOYALTY_POINTS_RATE", "1.00")])
    (list_to_map [((1, 1), Inventory.mk 50 0); ((2, 1), Inventory.mk 5 2)])
    [] ∅ [] [] ∅ ∅.

(** [float] on the setting texts that occur in the samples. *)
Definition sample_float (text : string) : option Q :=
  if String.eqb text "1.00" then Some 1%Q
  else if String.eqb text "0.5" then Some (1 # 2)%Q
  else None.

Definition sale_line (product_id quantity : Z) : SaleItemData :=
  mkSaleItemData (Some product_id) (Some quantity) None None.

Definition sale_request (customer_id : option Z) (lines : list SaleItemData)
    (discount : option Q) : SaleData :=
  mkSaleData (Some 1) customer_id (Some lines) (Some "Cash") (Some 0%Q) discount None.

(** The scenario of the specification: customer 1 buys 10 units of product 1
    (unit price 10.00, tax rate 8.5 %) at branch 1, where 50 are in stock. *)
Definition scenario_request : SaleData :=
  sale_request (Some 1) [sale_line 1 10] None.

Definition sample_sold : Store :=
  (create_sale sample_float 2 "SALE-20240101-AAAAAAAA" scenario_request sample_store).2.


(** The sale the scenario stores under id 1, and the store after its refund. *)
Definition sample_sale : Sale.t :=
  default (Sale.mk "" None 0 0 0%Q 0%Q 0%Q 0%Q "" "" "") (sales sample_sold !! 1).

Definition sample_refunded : Store := (refund_sale 2 1 None sample_sold).2.

(** An adjustment request for product 1 at branch 1. *)
Definition adjust_request (movement_type : string) (quantity : Z) : AdjustData :=
  mkAdjustData (Some 1) (Some 1) (Some quantity) (Some movement_type) None None None.

(** A transfer request for product 1. *)
Definition transfer_request (from_branch_id to_branch_id quantity : Z) : TransferData :=
  mkTransferData (Some 1) (Some from_branch_id) (Some to_branch_id) (Some quantity) None.

Definition sample_transferred : Store :=
  (transfer_stock 3 "20240101120000" (transfer_request 1 2 20) sample_store).2.

(** The sample database with three purchase orders: order 1 is Pending and
    order 2 Approved, each for 10 units of product 1 and 5 of product 2
    (order 1 for branch 1, order 2 for branch 2); order 3 is Received. *)
Definition po_store : Store :=
  upd_purchase_order_items (λ _,
    list_to_map [(1, PurchaseOrderItem.mk 1 1 10 0 4%Q);
                 (2, PurchaseOrderItem.mk 1 2 5 0 (1 # 4)%Q);
                 (3, PurchaseOrderItem.mk 2 1 10 0 4%Q);
                 (4, PurchaseOrderItem.mk 2 2 5 0 (1 # 4)%Q);
                 (5, PurchaseOrderItem.mk 3 1 1 1 4%Q)])
    (upd_purchase_orders (λ _,
       list_to_map [(1, PurchaseOrder.mk "PO-20240101-CCCCCCCC" 1 None "Pending" "");
                    (2, PurchaseOrder.mk "PO-20240102-DDDDDDDD" 2 None "Approved" "");
                    (3, PurchaseOrder.mk "PO-20240103-EEEEEEEE" 1 None "Received" "")])
       sample_store).

Definition sample_po : PurchaseOrder.t :=
  PurchaseOrder.mk "PO-20240101-CCCCCCCC" 1 None "Pending" "".

(** [strptime] on the date texts that occur in the samples. *)
Definition sample_strptime (text : string) : option Z :=
  if String.eqb text "2024-02-01" then Some 738917 else None.

(** Receipts for the Approved order 2: a partial one (with a skipped entry),
    a full one, and one whose entries are all skipped. *)
Definition partial_receipt : list ReceivedItem :=
  [mkReceivedItem (Some 3) (Some 10); mkReceivedItem (Some 4) (Some 2);
   mkReceivedItem (Some 4) (Some 0)].

Definition full_receipt : list ReceivedItem :=
  [mkReceivedItem (Some 3) (Some 10); mkReceivedItem (Some 4) (Some 2);
   mkReceivedItem (Some 4) (Some 3)].



(** A cart with two lines for product 2, each within the 3 units available. *)
Definition double_line_request : SaleData :=
  sale_request None [sale_line 2 2; sale_line 2 2] None.

Definition sample_oversold : Store :=
  (create_sale sample_float 2 "SALE-20240101-AAAAAAAA" double_line_request sample_store).2.

(** A sequence of requests over [po_store]: a sale to customer 1, a stock
    intake, a transfer, the approval of order 1, the full receipt of order
    2, the refund of the sale, a manual points adjustment, the cancellation
    of order 1 and an attempt to cancel the received order 3. *)
Definition sample_trace : list request :=
  [CreateSale 2 "SALE-20240101-AAAAAAAA" scenario_request;
   AdjustStock 3 (adjust_request "IN" 5);
   TransferStock 3 "20240101120000" (transfer_request 1 2 20);
   ApprovePurchaseOrder 1 1;
   ReceivePurchaseOrder 3 2 (Some full_receipt);
   RefundSale 2 1 None;
   AdjustLoyaltyPoints 1 1 (Some 25) None;
   CancelPurchaseOrder 1 1 None;
   CancelPurchaseOrder 1 3 None].


(** ** Generic facts about sessions *)

Ltac session_unfold :=
  unfold bind, ret, fail, query, modify, add_movement in *; simpl in *.

Lemma respond_error {A} (body : Session A) s e s' :
  body s = (inl e, s') → respond body s = (inl e, s).
Proof. intros H. unfold respond. by rewrite H. Qed.

Lemma respond_ok {A} (body : Session A) s a s' :
  body s = (inr a, s') → respond body s = (inr a, s').
Proof. intros H. unfold respond. by rewrite H. Qed.

Lemma respond_inv_ok {A} (body : Session A) s a s' :
  respond body s = (inr a, s') → body s = (inr a, s').
Proof.
  unfold respond. destruct (body s) as [[e|a'] s'']; intros H; by inversion H.
Qed.

Lemma respond_inv_error {A} (body : Session A) s e s' :
  respond body s = (inl e, s') → s' = s ∧ ∃ s'', body s = (inl e, s'').
Proof.
  unfold respond. destruct (body s) as [[e'|a'] s'']; intros H; inversion H; subst.
  split; [done | by exists s''].
Qed.

(** ** The validation loop *)

Lemma validate_items_readonly branch_id items_data :
  ∀ validated_items sub_total total_tax s,
    (validate_items branch_id items_data validated_items sub_total total_tax s).2 = s.
Proof.
  induction items_data as [|item_data rest IH]; intros v st tx s; simpl; [done|].
  destruct (d_product_id item_data) as [pid|]; [|done].
  destruct ((pid =? 0) || (default 0 (d_quantity item_data) <=? 0)); [done|].
  session_unfold.
  destruct (products s !! pid) as [p|]; [|done].
  destruct (negb (Product.is_active p)); [done|].
  destruct (inventory s !! (pid, branch_id)) as [inv|]; [|done].
  destruct (Inventory.available_stock inv <? default 0 (d_quantity item_data)); [done|].
  apply IH.
Qed.

Lemma validate_items_app branch_id pre rest :
  ∀ validated_items sub_total total_tax s,
    validate_items branch_id (pre ++ rest) validated_items sub_total total_tax s =
    match validate_items branch_id pre validated_items sub_total total_tax s with
    | (inr (v, st, tx), s') => validate_items branch_id rest v st tx s'
    | (inl e, s') => (inl e, s')
    end.
Proof.
  induction pre as [|item_data pre IH]; intros v st tx s; simpl; [done|].
  destruct (d_product_id item_data) as [pid|]; [|done].
  destruct ((pid =? 0) || (default 0 (d_quantity item_data) <=? 0)); [done|].
  session_unfold.
  destruct (products s !! pid) as [p|]; [|done].
  destruct (negb (Product.is_active p)); [done|].
  destruct (inventory s !! (pid, branch_id)) as [inv|]; [|done].
  destruct (Inventory.available_stock inv <? default 0 (d_quantity item_data)); [done|].
  apply IH.
Qed.

Lemma validate_items_understocked branch_id items_data item_data :
  item_data ∈ items_data →
  ∀ validated_items sub_total total_tax s,
    understocked branch_id item_data s = true →
    ∃ e, validate_items branch_id items_data validated_items sub_total total_tax s
         = (inl e, s).
Proof.
  induction 1 as [item_data rest|item_data other rest Hin IH];
    intros v st tx s Hu; simpl.
  - unfold understocked in Hu.
    destruct (d_product_id item_data) as [pid|]; [|done].
    destruct ((pid =? 0) || (default 0 (d_quantity item_data) <=? 0)); [by eexists|].
    session_unfold.
    destruct (products s !! pid) as [p|]; [|by eexists].
    destruct (negb (Product.is_active p)); [by eexists|].
    destruct (inventory s !! (pid, branch_id)) as [inv|]; [|by eexists].
    rewrite Hu. by eexists.
  - destruct (d_product_id other) as [pid|]; [|by eexists].
    destruct ((pid =? 0) || (default 0 (d_quantity other) <=? 0)); [by eexists|].
    session_unfold.
    destruct (products s !! pid) as [p|]; [|by eexists].
    destruct (negb (Product.is_active p)); [by eexists|].
    destruct (inventory s !! (pid, branch_id)) as [inv|]; [|by eexists].
    destruct (Inventory.available_stock inv <? default 0 (d_quantity other)); [by eexists|].
    by apply IH.
Qed.

Lemma require_fields_readonly has_field fields s :
  (require_fields has_field fields s).2 = s.
Proof.
  induction fields as [|f fields IH]; simpl; [done|].
  destruct (has_field f); [apply IH | done].
Qed.

Lemma create_sale_body_understocked py_float uid num data s branch items item_data :
  d_branch_id data = Some branch →
  d_items data = Some items →
  item_data ∈ items →
  understocked branch item_data s = true →
  ∃ e, create_sale_body py_float uid num data s = (inl e, s).
Proof.
  intros Hb Hi Hin Hu.
  unfold create_sale_body. session_unfold.
  destruct (check_permission uid ["Admin"; "Cashier"] s); simpl; [|by eexists].
  unfold sale_data_has; simpl. rewrite Hb, Hi. simpl.
  destruct (d_payment_method data) as [pm|]; simpl; [|by eexists].
  destruct (d_total_amount data) as [ta|]; simpl; [|by eexists].
  destruct items as [|first rest]; [by eexists|].
  destruct (branches s !! branch); [|by eexists].
  destruct (validate_items_understocked branch (first :: rest) item_data Hin [] 0%Q 0%Q s Hu)
    as [e He].
  destruct (truthy (d_customer_id data)).
  - destruct (customers s !! default 0 (d_customer_id data)); [|by eexists].
    rewrite He. by eexists.
  - rewrite He. by eexists.
Qed.

Lemma validate_items_stops_at_understocked branch_id item_data post pid p :
  ∀ validated_items sub_total total_tax s,
    d_product_id item_data = Some pid →
    pid ≠ 0 →
    0 < default 0 (d_quantity item_data) →
    products s !! pid = Some p →
    Product.is_active p = true →
    understocked branch_id item_data s = true →
    validate_items branch_id (item_data :: post) validated_items sub_total total_tax s
    = (inl (err 400 ("Insufficient stock for product " +:+ Product.product_name p)), s).
Proof.
  intros v st tx s Hpid Hnz Hq Hp Hact Hu. simpl.
  unfold understocked in Hu. rewrite Hpid in *.
  replace (pid =? 0) with false by (symmetry; by apply Z.eqb_neq).
  replace (default 0 (d_quantity item_data) <=? 0) with false
    by (symmetry; apply Z.leb_gt; lia).
  session_unfold. rewrite Hp, Hact. simpl.
  destruct (inventory s !! (pid, branch_id)) as [inv|]; [|done].
  by rewrite Hu.
Qed.

(** C1 (amended).  A sale request with a line whose product has no inventory
    row at the branch, or less available stock than the requested quantity,
    always fails, and nothing is written: the stored state, and even the
    pending session state, is the one the request started from.  The error
    is InsufficientStock (status 400, "Insufficient stock for product ...")
    when the request passes the permission, required-field, branch and
    customer checks, every earlier line passes the item checks, and the line
    itself names an active product with a positive quantity; otherwise the
    error is the one of the first failing check. *)
Theorem create_sale_understocked_fails py_float uid num data s branch items item_data :
  d_branch_id data = Some branch →
  d_items data = Some items →
  item_data ∈ items →
  understocked branch item_data s = true →
  ∃ e,
    create_sale py_float uid num data s = (inl e, s) ∧
    create_sale_body py_float uid num data s = (inl e, s) ∧
    (reaches_item_loop uid data s →
     ∀ pre post pid p,
       items = pre ++ item_data :: post →
       lines_valid branch pre s = true →
       d_product_id item_data = Some pid →
       pid ≠ 0 →
       0 < default 0 (d_quantity item_data) →
       products s !! pid = Some p →
       Product.is_active p = true →
       e = err 400 ("Insufficient stock for product " +:+ Product.product_name p) ∧
       is_InsufficientStock e = true).
Proof.
  intros Hb Hi Hin Hu.
  destruct (create_sale_body_understocked py_float uid num data s branch items item_data
              Hb Hi Hin Hu) as [e He].
  exists e. split; [by apply (respond_error _ _ _ _ He)|]. split; [done|].
  intros (Hperm & [pm Hpm] & [ta Hta] & (b & Hb' & [br Hbr]) & Hcust)
         pre post pid p -> Hpre Hpid Hnz Hq Hp Hact.
  rewrite Hb in Hb'. inversion Hb'; subst b. clear Hb'.
  assert (e = err 400 ("Insufficient stock for product " +:+ Product.product_name p))
    as ->; [|done].
  revert He. unfold create_sale_body. session_unfold.
  rewrite Hperm. simpl. unfold sale_data_has; simpl.
  rewrite Hb, Hi, Hpm, Hta. simpl.
  assert (validate_items branch (pre ++ item_data :: post) [] 0%Q 0%Q s
          = (inl (err 400 ("Insufficient stock for product " +:+ Product.product_name p)), s))
    as Hv.
  { rewrite validate_items_app. unfold lines_valid in Hpre.
    pose proof (validate_items_readonly branch pre [] 0%Q 0%Q s) as Hro.
    destruct (validate_items branch pre [] 0%Q 0%Q s) as [[e'|[[v st] tx]] s'];
      simpl in *; [done|]. subst s'.
    by apply validate_items_stops_at_understocked with (pid := pid). }
  destruct (pre ++ item_data :: post) as [|first rest] eqn:Hl.
  { by destruct pre. }
  rewrite Hbr.
  destruct (truthy (d_customer_id data)).
  - destruct (Hcust eq_refl) as [c Hc]. rewrite Hc. rewrite Hv. by intros [= <-].
  - rewrite Hv. by intros [= <-].
Qed.

Lemma create_sale_understocked_fails_witness :
  ∃ e,
    create_sale sample_float 2 "SALE-20240101-AAAAAAAA"
      (sale_request None [sale_line 1 2; sale_line 2 4] None) sample_store
    = (inl e, sample_store) ∧
    create_sale_body sample_float 2 "SALE-20240101-AAAAAAAA"
      (sale_request None [sale_line 1 2; sale_line 2 4] None) sample_store
    = (inl e, sample_store) ∧
    (reaches_item_loop 2 (sale_request None [sale_line 1 2; sale_line 2 4] None)
       sample_store →
     ∀ pre post pid p,
       [sale_line 1 2; sale_line 2 4] = pre ++ sale_line 2 4 :: post →
       lines_valid 1 pre sample_store = true →
       d_product_id (sale_line 2 4) = Some pid →
       pid ≠ 0 →
       0 < default 0 (d_quantity (sale_line 2 4)) →
       products sample_store !! pid = Some p →
       Product.is_active p = true →
       e = err 400 ("Insufficient stock for product " +:+ Product.product_name p) ∧
       is_InsufficientStock e = true).
Proof.
  apply (create_sale_understocked_fails sample_float 2 "SALE-20240101-AAAAAAAA"
           (sale_request None [sale_line 1 2; sale_line 2 4] None) sample_store 1
           [sale_line 1 2; sale_line 2 4] (sale_line 2 4)).
  - reflexivity.
  - reflexivity.
  - apply list_elem_of_further, list_elem_of_here.
  - vm_compute. reflexivity.
Defined.

(** Product 2 has 5 units at branch 1 of which 2 are reserved: a cart that
    asks for 4 is refused with InsufficientStock and nothing is stored. *)
Example understocked_sale_refused :
  create_sale sample_float 2 "SALE-20240101-AAAAAAAA"
    (sale_request None [sale_line 1 2; sale_line 2 4] None) sample_store
  = (inl (err 400 "Insufficient stock for product Gadget"), sample_store).
Proof. vm_compute. reflexivity. Qed.

(** C1 as stated fails: the only line of the request is for product 3, which
    has no inventory row at branch 1, yet the answer is the 404 of the
    inactive-product check, not InsufficientStock. *)
Lemma create_sale_understocked_not_always_insufficient :
  understocked 1 (sale_line 3 1) sample_store = true ∧
  create_sale sample_float 2 "SALE-20240101-AAAAAAAA"
    (sale_request None [sale_line 3 1] None) sample_store
  = (inl (err 404 "Product 3 not found or inactive"), sample_store) ∧
  is_InsufficientStock (err 404 "Product 3 not found or inactive") = false.
Proof. split; [|split]; vm_compute; reflexivity. Qed.

(** ** Successful validation *)

Lemma Qsum_app l1 l2 : (Qsum (l1 ++ l2) == Qsum l1 + Qsum l2)%Q.
Proof.
  induction l1 as [|x l1 IH]; simpl.
  - ring.
  - rewrite IH. ring.
Qed.

Lemma validate_items_ok branch_id items_data :
  ∀ validated_items sub_total total_tax s v st tx s',
    validate_items branch_id items_data validated_items sub_total total_tax s
    = (inr (v, st, tx), s') →
    ∃ new,
      v = validated_items ++ new ∧
      length new = length items_data ∧
      Forall (line_checked branch_id s) new ∧
      (st == sub_total + Qsum (map v_line_subtotal new))%Q ∧
      (tx == total_tax + Qsum (map v_tax_amount new))%Q.
Proof.
  induction items_data as [|item_data rest IH]; intros v0 st0 tx0 s v st tx s' H;
    simpl in H.
  - inversion H; subst. exists []. rewrite app_nil_r. simpl.
    repeat split; [constructor | ring | ring].
  - destruct (d_product_id item_data) as [pid|]; [|done].
    destruct ((pid =? 0) || (default 0 (d_quantity item_data) <=? 0)) eqn:Hq; [done|].
    session_unfold.
    destruct (products s !! pid) as [p|] eqn:Hp; [|done].
    destruct (negb (Product.is_active p)); [done|].
    destruct (inventory s !! (pid, branch_id)) as [inv|] eqn:Hinv; [|done].
    destruct (Inventory.available_stock inv <? default 0 (d_quantity item_data)) eqn:Hav;
      [done|].
    apply IH in H as (new & -> & Hlen & Hall & Hst & Htx).
    eexists (_ :: new). rewrite <- app_assoc. simpl.
    split; [reflexivity|]. split; [by rewrite Hlen|].
    apply orb_false_iff in Hq as [_ Hq]. apply Z.leb_gt in Hq. apply Z.ltb_ge in Hav.
    split; [|split].
    + constructor; [|done]. exists p, inv. simpl. by repeat split.
    + rewrite Hst. unfold v_line_subtotal at 2. simpl. ring.
    + rewrite Htx. simpl. ring.
Qed.

(** ** The write phase of [create_sale] *)

Lemma same_but_stock_refl s : same_but_stock s s.
Proof. by destruct s. Qed.

Lemma same_but_stock_trans s1 s2 s3 :
  same_but_stock s1 s2 → same_but_stock s2 s3 → same_but_stock s1 s3.
Proof.
  unfold same_but_stock. destruct s1, s2, s3; simpl. intros [=] [=]. by subst.
Qed.

Lemma update_inventory_after_sale_frame items branch_id cashier_id :
  ∀ s, ∃ s',
    update_inventory_after_sale items branch_id cashier_id s = (inr tt, s') ∧
    same_but_stock s s'.
Proof.
  unfold update_inventory_after_sale.
  induction items as [|item rest IH]; intros s; simpl.
  - exists s. split; [done | apply same_but_stock_refl].
  - session_unfold.
    destruct (inventory s !! (v_product_id item, branch_id)) as [inv|]; simpl.
    + match goal with |- ∃ s', for_each _ _ ?s1 = _ ∧ _ =>
        destruct (IH s1) as (s' & Hrun & Hsame) end.
      exists s'. split; [done|].
      eapply same_but_stock_trans; [|exact Hsame]. by destruct s.
    + apply IH.
Qed.

Lemma create_sale_body_inv py_float uid num data s sale_id s' :
  create_sale_body py_float uid num data s = (inr sale_id, s') →
  ∃ branch items_data pm v st tx s2,
    d_branch_id data = Some branch ∧
    d_items data = Some items_data ∧
    d_payment_method data = Some pm ∧
    validate_items branch items_data [] 0%Q 0%Q s = (inr (v, st, tx), s) ∧
    sale_id = next_id (sales s) ∧
    update_inventory_after_sale v branch uid
      (booked sale_id (sale_header num uid data branch pm st tx) v s) = (inr tt, s2) ∧
    if truthy (d_customer_id data)
    then is_Some (customers s !! default 0 (d_customer_id data)) ∧
         award_loyalty_points py_float (default 0 (d_customer_id data)) sale_id num
           (st + tx - default 0%Q (d_discount_amount data))%Q s2 = (inr tt, s')
    else s' = s2.
Proof.
  unfold create_sale_body. session_unfold.
  destruct (check_permission uid ["Admin"; "Cashier"] s); simpl; [|done].
  unfold sale_data_has; simpl.
  destruct (d_branch_id data) as [branch|]; simpl; [|done].
  destruct (d_items data) as [items_data|]; simpl; [|done].
  destruct (d_payment_method data) as [pm|]; simpl; [|done].
  destruct (d_total_amount data) as [ta|]; simpl; [|done].
  destruct items_data as [|first rest]; [done|].
  destruct (branches s !! branch); [|done].
  set (items_data := first :: rest).
  assert (∀ (k : list ValidatedItem * Q * Q → Session Z) s0,
    s0 = s →
    match validate_items branch items_data [] 0%Q 0%Q s0 with
    | (inr a, s1) => k a s1
    | (inl e, s1) => (inl e, s1)
    end = (inr sale_id, s') →
    ∃ v st tx, validate_items branch items_data [] 0%Q 0%Q s = (inr (v, st, tx), s)
               ∧ k (v, st, tx) s = (inr sale_id, s')) as Hval.
  { intros k s0 -> H.
    pose proof (validate_items_readonly branch items_data [] 0%Q 0%Q s) as Hro.
    destruct (validate_items branch items_data [] 0%Q 0%Q s) as [[e|[[v st] tx]] s1];
      simpl in *; [done|]. subst s1. by exists v, st, tx. }
  destruct (truthy (d_customer_id data)) eqn:Hc.
  - destruct (customers s !! default 0 (d_customer_id data)) as [c|] eqn:Hcust; [|done].
    intros H. apply Hval in H as (v & st & tx & Hv & H); [|done].
    destruct (update_inventory_after_sale_frame v branch uid
      (booked (next_id (sales s)) (sale_header num uid data branch pm st tx) v s))
      as (s2 & Hupd & _).
    unfold booked, sale_header in Hupd. rewrite Hupd in H.
    destruct (award_loyalty_points py_float (default 0 (d_customer_id data))
                (next_id (sales s)) num _ s2) as [[e|[]] s3] eqn:Haward; [done|].
    inversion H; subst.
    exists branch, items_data, pm, v, st, tx, s2. by repeat split.
  - intros H. apply Hval in H as (v & st & tx & Hv & H); [|done].
    destruct (update_inventory_after_sale_frame v branch uid
      (booked (next_id (sales s)) (sale_header num uid data branch pm st tx) v s))
      as (s2 & Hupd & _).
    unfold booked, sale_header in Hupd. rewrite Hupd in H.
    inversion H; subst.
    exists branch, items_data, pm, v, st, tx, s'. by repeat split.
Qed.

Lemma award_loyalty_points_inv py_float customer_id sale_id num total s s' :
  award_loyalty_points py_float customer_id sale_id num total s = (inr tt, s') →
  ∃ rate,
    loyalty_rate py_float s = Some rate ∧
    s' = if points_earned total rate >? 0
         then upd_loyalty_transactions
                (λ ts, ts ++ [earned customer_id sale_id num (points_earned total rate)])
                (upd_customers
                   (alter (credit (points_earned total rate) total) customer_id) s)
         else s.
Proof.
  unfold award_loyalty_points, loyalty_rate. session_unfold.
  destruct (system_settings s !! "LOYALTY_POINTS_RATE") as [text|].
  - destruct (py_float text) as [rate|]; [|done].
    intros H. exists rate. split; [done|].
    destruct (points_earned total rate >? 0); by inversion H.
  - intros H. exists 1%Q. split; [done|].
    destruct (points_earned total 1 >? 0); by inversion H.
Qed.

Lemma foldr_max_ge (l : list Z) k : k ∈ l → k ≤ foldr Z.max 0 l.
Proof.
  induction 1 as [k l|k x l Hin IH]; simpl; lia.
Qed.

Lemma next_id_fresh {A} (table : gmap Z A) : table !! next_id table = None.
Proof.
  destruct (table !! next_id table) as [x|] eqn:H; [|done].
  apply elem_of_map_to_list in H.
  assert (next_id table ∈ map fst (map_to_list table)) as Hin.
  { apply list_elem_of_In, in_map_iff. exists (next_id table, x).
    split; [done|]. by apply list_elem_of_In. }
  apply foldr_max_ge in Hin. unfold next_id in Hin at 1. lia.
Qed.

(** The tables a successful [create_sale] leaves behind. *)
Lemma create_sale_tables py_float uid num data s sale_id s' :
  create_sale py_float uid num data s = (inr sale_id, s') →
  ∃ branch items_data pm v st tx,
    d_branch_id data = Some branch ∧
    d_items data = Some items_data ∧
    d_payment_method data = Some pm ∧
    validate_items branch items_data [] 0%Q 0%Q s = (inr (v, st, tx), s) ∧
    sale_id = next_id (sales s) ∧
    products s' = products s ∧
    sales s' = <[sale_id := sale_header num uid data branch pm st tx]> (sales s) ∧
    sale_items s' = sale_items s ++ map (sale_item_of sale_id) v.
Proof.
  intros H. apply respond_inv_ok in H.
  apply create_sale_body_inv in H
    as (branch & items_data & pm & v & st & tx & s2 & Hb & Hi & Hpm & Hv & Hid & Hupd & Hl).
  exists branch, items_data, pm, v, st, tx.
  destruct (update_inventory_after_sale_frame v branch uid
    (booked sale_id (sale_header num uid data branch pm st tx) v s)) as (s2' & Hupd' & Hsame).
  rewrite Hupd in Hupd'. inversion Hupd'; subst s2'. clear Hupd'.
  assert (products s2 = products s ∧
          sales s2 = <[sale_id := sale_header num uid data branch pm st tx]> (sales s) ∧
          sale_items s2 = sale_items s ++ map (sale_item_of sale_id) v) as (Hp2 & Hs2 & Hi2).
  { unfold same_but_stock in Hsame. rewrite Hsame. by destruct s. }
  assert (products s' = products s2 ∧ sales s' = sales s2 ∧ sale_items s' = sale_items s2)
    as (Hp & Hs & Hit).
  { destruct (truthy (d_customer_id data)); [|by subst].
    destruct Hl as [_ Hl]. apply award_loyalty_points_inv in Hl as (rate & _ & ->).
    by destruct (points_earned _ _ >? 0). }
  rewrite Hp, Hs, Hit. by repeat split.
Qed.

(** ** Totals of a created sale *)

Lemma items_of_fresh_sale s sale_id :
  sale_items_reference_sales s = true →
  sales s !! sale_id = None →
  filter (λ item, SaleItem.sale_id item = sale_id) (sale_items s) = [].
Proof.
  unfold sale_items_reference_sales. intros Hfk Hfresh.
  induction (sale_items s) as [|item rows IH]; [done|].
  simpl in Hfk. apply andb_true_iff in Hfk as [Hitem Hrows].
  rewrite filter_cons. case_decide as Heq; [|by apply IH].
  apply bool_decide_eq_true in Hitem. rewrite Heq, Hfresh in Hitem.
  by destruct Hitem.
Qed.

Lemma items_of_new_sale sale_id (v : list ValidatedItem) :
  filter (λ item, SaleItem.sale_id item = sale_id) (map (sale_item_of sale_id) v)
  = map (sale_item_of sale_id) v.
Proof.
  induction v as [|x v IH]; [done|].
  simpl. rewrite filter_cons. simpl. case_decide; [|done]. by rewrite IH.
Qed.

Lemma Qsum_line_totals branch_id s (v : list ValidatedItem) :
  Forall (line_checked branch_id s) v →
  (Qsum (map v_line_total v)
   == Qsum (map v_line_subtotal v) + Qsum (map v_tax_amount v))%Q.
Proof.
  induction 1 as [|x v (p & inv & _ & _ & _ & _ & _ & Hx) _ IH]; simpl.
  - ring.
  - rewrite IH, Hx. ring.
Qed.

(** The sale and the items a successful [create_sale] leaves. *)
Lemma create_sale_itemised py_float uid num data s sale_id s' :
  sale_items_reference_sales s = true →
  create_sale py_float uid num data s = (inr sale_id, s') →
  ∃ branch pm v st tx,
    sales s' !! sale_id = Some (sale_header num uid data branch pm st tx) ∧
    items_of_sale sale_id s' = map (sale_item_of sale_id) v ∧
    v ≠ [] ∧
    Forall (line_checked branch s) v ∧
    products s' = products s ∧
    (st + tx - default 0 (d_discount_amount data)
     == Qsum (map SaleItem.line_total (map (sale_item_of sale_id) v))
        - default 0 (d_discount_amount data))%Q.
Proof.
  intros Hfk H.
  pose proof H as Hok. apply respond_inv_ok in Hok.
  assert (d_items data ≠ Some []) as Hne.
  { intros Hnil. revert Hok. unfold create_sale_body. session_unfold.
    destruct (check_permission uid ["Admin"; "Cashier"] s); simpl; [|done].
    unfold sale_data_has; simpl. rewrite Hnil.
    destruct (d_branch_id data); simpl; [|done].
    destruct (d_payment_method data); simpl; [|done].
    by destruct (d_total_amount data). }
  apply create_sale_tables in H
    as (branch & items_data & pm & v & st & tx & Hb & Hi & Hpm & Hv & Hid & Hp & Hs & Hit).
  apply validate_items_ok in Hv as (new & Hnew & Hlen & Hall & Hst & Htx).
  simpl in Hnew. subst new.
  exists branch, pm, v, st, tx.
  split; [by rewrite Hs, lookup_insert_eq|]. split; [|split; [|split; [|split]]].
  - unfold items_of_sale. rewrite Hit, filter_app, items_of_new_sale.
    rewrite items_of_fresh_sale; [done | done |]. subst sale_id. apply next_id_fresh.
  - destruct v; [|done]. destruct items_data; [by rewrite Hi in Hne | done].
  - done.
  - done.
  - rewrite map_map. simpl.
    change (λ x, v_line_total x) with v_line_total.
    rewrite (Qsum_line_totals branch s v Hall), Hst, Htx. ring.
Qed.



(** The scenario of the specification: the line total is 108.50, the stock
    of product 1 at branch 1 goes from 50 to 40, and one OUT movement of
    quantity -10 is recorded. *)
Example scenario_sale :
  (∃ item, items_of_sale 1 sample_sold = [item] ∧
           (SaleItem.line_total item == 217 # 2)%Q) ∧
  Inventory.current_stock <$> inventory sample_sold !! (1, 1) = Some 40 ∧
  stock_movements sample_sold
  = [StockMovement.mk 1 1 "OUT" (-10) None "SALE-" "Sale transaction" 2].
Proof.
  split; [|split].
  - eexists. split; [vm_compute; reflexivity | vm_compute; reflexivity].
  - vm_compute. reflexivity.
  - vm_compute. reflexivity.
Qed.

(** ** Loyalty points of a created sale *)



Lemma alter_present {A} (f : A → A) (k : Z) (x : A) (m : gmap Z A) :
  m !! k = Some x → alter f k m = <[k := f x]> m.
Proof.
  intros H. apply map_eq. intros j. destruct (decide (j = k)) as [->|Hne].
  - by rewrite lookup_alter_eq, lookup_insert_eq, H.
  - by rewrite lookup_alter_ne, lookup_insert_ne.
Qed.

(** The customer and loyalty tables a successful [create_sale] leaves when a
    customer is attached. *)
Lemma created_sale_loyalty_tables py_float uid num data s sale_id s' :
  create_sale py_float uid num data s = (inr sale_id, s') →
  truthy (d_customer_id data) = true →
  ∃ sale rate customer,
    sales s' !! sale_id = Some sale ∧
    customers s !! default 0 (d_customer_id data) = Some customer ∧
    loyalty_rate py_float s = Some rate ∧
    if points_earned (Sale.total_amount sale) rate >? 0
    then
      customers s' =
        <[default 0 (d_customer_id data) :=
            credit (points_earned (Sale.total_amount sale) rate)
              (Sale.total_amount sale) customer]> (customers s) ∧
      loyalty_transactions s' =
        loyalty_transactions s ++
          [earned (default 0 (d_customer_id data)) sale_id num
             (points_earned (Sale.total_amount sale) rate)]
    else
      customers s' = customers s ∧
      loyalty_transactions s' = loyalty_transactions s.
Proof.
  intros H Hc.
  destruct (create_sale_tables _ _ _ _ _ _ _ H)
    as (branch & items_data & pm & v & st & tx & Hb & Hi & Hpm & Hv & Hid & Hp & Hs & Hit).
  apply respond_inv_ok in H.
  apply create_sale_body_inv in H
    as (branch' & items' & pm' & v' & st' & tx' & s2 & Hb' & Hi' & Hpm' & Hv' & _ & Hupd & Hl).
  rewrite Hb in Hb'. rewrite Hi in Hi'. rewrite Hpm in Hpm'.
  inversion Hb'; inversion Hi'; inversion Hpm'; subst branch' items' pm'.
  rewrite Hv in Hv'. inversion Hv'; subst v' st' tx'. clear Hb' Hi' Hpm' Hv'.
  rewrite Hc in Hl. destruct Hl as [[customer Hcust] Haward].
  destruct (update_inventory_after_sale_frame v branch uid
    (booked sale_id (sale_header num uid data branch pm st tx) v s)) as (s2' & Hupd' & Hsame).
  rewrite Hupd in Hupd'. inversion Hupd'; subst s2'. clear Hupd'.
  assert (customers s2 = customers s ∧
          loyalty_transactions s2 = loyalty_transactions s ∧
          system_settings s2 = system_settings s) as (Hc2 & Hl2 & Hset2).
  { unfold same_but_stock in Hsame. rewrite Hsame. by destruct s. }
  apply award_loyalty_points_inv in Haward as (rate & Hrate & Hs').
  exists (sale_header num uid data branch pm st tx), rate, customer.
  split; [by rewrite Hs, lookup_insert_eq|]. split; [done|].
  split; [unfold loyalty_rate in *; by rewrite <- Hset2|].
  simpl. destruct (points_earned _ rate >? 0); subst s'; simpl.
  - rewrite Hc2, Hl2. split; [|done]. by apply alter_present.
  - done.
Qed.



(** The scenario sale is worth 108.50: customer 1 earns 108 points. *)
Example scenario_points :
  Customer.loyalty_points <$> customers sample_sold !! 1 = Some 258 ∧
  map LoyaltyTransaction.points (loyalty_transactions sample_sold) = [108].
Proof. split; vm_compute; reflexivity. Qed.


(** ** The total_amount field of a sale request *)



(** A request that claims a total of 1.00 for the scenario cart is booked at
    108.50 all the same, and the request without the field is refused. *)
Example supplied_total_ignored :
  (Sale.total_amount <$>
     sales (create_sale sample_float 2 "SALE-20240101-AAAAAAAA"
              (set_total_amount (Some 1%Q) scenario_request) sample_store).2 !! 1)
  = Sale.total_amount <$> sales sample_sold !! 1 ∧
  create_sale sample_float 2 "SALE-20240101-AAAAAAAA"
    (set_total_amount None scenario_request) sample_store
  = (inl (err 400 "total_amount is required"), sample_store).
Proof. split; vm_compute; reflexivity. Qed.

(** ** Refunds *)

Lemma add_stock_0 inv : add_stock 0 inv = inv.
Proof. destruct inv. unfold add_stock, set_current_stock. simpl. f_equal. lia. Qed.

Lemma add_stock_add n m inv : add_stock n (add_stock m inv) = add_stock (m + n) inv.
Proof. destruct inv. unfold add_stock, set_current_stock. simpl. f_equal. lia. Qed.

Lemma restore_items_spec sale uid items :
  ∀ s,
    Forall (λ item,
      is_Some (inventory s !! (SaleItem.product_id item, Sale.branch_id sale))) items →
    ∃ s',
      for_each (restore_item sale uid) items s = (inr tt, s') ∧
      same_but_stock s s' ∧
      (∀ p, inventory s' !! (p, Sale.branch_id sale)
            = add_stock (sold_quantity items p) <$> inventory s !! (p, Sale.branch_id sale)) ∧
      (∀ p b, b ≠ Sale.branch_id sale → inventory s' !! (p, b) = inventory s !! (p, b)) ∧
      stock_movements s' = stock_movements s ++ map (refund_movement sale uid) items.
Proof.
  induction items as [|item rest IH]; intros s Hrows; simpl.
  - exists s. split; [done|]. split; [apply same_but_stock_refl|].
    split; [|split].
    + intros p. destruct (inventory s !! (p, Sale.branch_id sale)); simpl; [|done].
      by rewrite add_stock_0.
    + done.
    + by rewrite app_nil_r.
  - inversion Hrows as [|? ? [inv Hinv] Hrest]; subst.
    unfold restore_item at 1. session_unfold. rewrite Hinv. simpl.
    match goal with |- ∃ s', for_each _ _ ?st = _ ∧ _ => set (s1 := st) end.
    assert (inventory s1 =
            <[(SaleItem.product_id item, Sale.branch_id sale) :=
                add_stock (SaleItem.quantity item) inv]> (inventory s)) as Hinv1 by done.
    destruct (IH s1) as (s' & Hrun & Hsame & Hbranch & Hother & Hmov).
    { eapply Forall_impl; [exact Hrest|]. intros x [i Hi]. simpl in Hi. rewrite Hinv1.
      destruct (decide ((SaleItem.product_id item, Sale.branch_id sale)
                        = (SaleItem.product_id x, Sale.branch_id sale))) as [<-|Hne].
      - rewrite lookup_insert_eq. by eexists.
      - rewrite lookup_insert_ne by done. by eexists. }
    exists s'. split; [done|]. split; [|split; [|split]].
    + eapply same_but_stock_trans; [|exact Hsame]. by destruct s.
    + intros p. rewrite Hbranch, Hinv1.
      destruct (decide (SaleItem.product_id item = p)) as [<-|Hne].
      * rewrite lookup_insert_eq, Hinv. simpl.
        rewrite bool_decide_eq_true_2 by done. by rewrite add_stock_add.
      * rewrite lookup_insert_ne by congruence.
        by rewrite bool_decide_eq_false_2 by done.
    + intros p b Hb. rewrite Hother by done. rewrite Hinv1.
      by rewrite lookup_insert_ne by congruence.
    + rewrite Hmov. subst s1. simpl. by rewrite <- app_assoc.
Qed.

Lemma find_ext {A} (f g : A → bool) (l : list A) :
  Forall (λ x, f x = g x) l → find f l = find g l.
Proof.
  induction 1 as [|x l Hx _ IH]; simpl; [done|]. by rewrite Hx, IH.
Qed.

Lemma find_none_all {A} (f : A → bool) (l : list A) :
  Forall (λ x, f x = false) l → find f l = None.
Proof.
  induction 1 as [|x l Hx _ IH]; simpl; [done|]. by rewrite Hx.
Qed.

Lemma forallb_Forall {A} (f : A → bool) (l : list A) :
  forallb f l = true → Forall (λ x, f x = true) l.
Proof.
  induction l as [|x l IH]; simpl; intros H; [constructor|].
  apply andb_true_iff in H as [Hx Hl]. constructor; [done | by apply IH].
Qed.

Lemma refund_loyalty_spec sale_id sale s :
  earned_by_customer sale_id sale s = true →
  ∃ s',
    refund_loyalty sale_id sale s = (inr tt, s') ∧
    sales s' = sales s ∧
    inventory s' = inventory s ∧
    stock_movements s' = stock_movements s ∧
    match find (earned_for_sale sale_id) (loyalty_transactions s) with
    | Some earned =>
        ∃ customer,
          customers s !! LoyaltyTransaction.customer_id earned = Some customer ∧
          customers s' =
            <[LoyaltyTransaction.customer_id earned :=
                debit (LoyaltyTransaction.points earned) (Sale.total_amount sale) customer]>
              (customers s) ∧
          loyalty_transactions s' =
            loyalty_transactions s ++ [adjusted sale_id sale earned]
    | None =>
        customers s' = customers s ∧ loyalty_transactions s' = loyalty_transactions s
    end.
Proof.
  unfold earned_by_customer. intros H. apply forallb_Forall in H.
  unfold refund_loyalty. session_unfold.
  destruct (truthy (Sale.customer_id sale)) eqn:Hc; simpl in H.
  - destruct (customers s !! default 0 (Sale.customer_id sale)) as [customer|] eqn:Hcust.
    + assert (find (is_earned_for (default 0 (Sale.customer_id sale)) sale_id)
                (loyalty_transactions s)
              = find (earned_for_sale sale_id) (loyalty_transactions s)) as ->.
      { apply find_ext. eapply Forall_impl; [exact H|]. intros t Ht. simpl in Ht.
        unfold is_earned_for, earned_for_sale in *.
        destruct (bool_decide (LoyaltyTransaction.sale_id t = Some sale_id)); simpl in *;
          [|by rewrite andb_false_r].
        destruct (String.eqb (LoyaltyTransaction.transaction_type t) "EARNED"); simpl in *;
          [|by rewrite andb_false_r].
        apply andb_true_iff in Ht as [Ht _]. by rewrite Ht. }
      destruct (find (earned_for_sale sale_id) (loyalty_transactions s)) as [t|] eqn:Hfind.
      * apply find_some in Hfind as [Hin Hearned].
        rewrite Forall_forall in H. apply list_elem_of_In, H in Hin.
        rewrite Hearned in Hin. simpl in Hin.
        apply andb_true_iff in Hin as [Hcid _]. apply Z.eqb_eq in Hcid.
        eexists. split; [done|]. simpl. repeat split.
        exists customer. rewrite Hcid. split; [done|].
        split; [|by unfold adjusted; rewrite Hcid].
        by apply (alter_present (debit _ _)).
      * eexists. by repeat split.
    + rewrite find_none_all; [eexists; by repeat split|].
      eapply Forall_impl; [exact H|]. intros t Ht. simpl in Ht.
      destruct (earned_for_sale sale_id t); [|done]. simpl in Ht.
      by rewrite andb_false_r in Ht.
  - rewrite find_none_all; [eexists; by repeat split|].
    eapply Forall_impl; [exact H|]. intros t Ht. simpl in Ht.
    by destruct (earned_for_sale sale_id t).
Qed.

(** C3.  For an authorized caller and a sale in status Completed whose lines
    have inventory rows at the sale's branch and whose EARNED transactions
    belong to the sale's stored customer, [refund_sale] succeeds and marks
    the sale Refunded; at the sale's branch the current_stock of every
    product grows by exactly the quantity sold of it over the lines (other
    branches are untouched), one IN movement of the line's quantity is
    appended per line, and, if an EARNED loyalty transaction of the sale
    exists, its points are subtracted from the customer's loyalty_points,
    the sale total from total_purchases, and one ADJUSTED transaction with
    the negated points is appended (nothing changes for the customer
    otherwise).  On a sale that is already Refunded the call is refused
    with 400 and the store is unchanged. *)
Theorem refund_sale_spec uid sale_id reason s sale :
  check_permission uid ["Admin"; "Cashier"] s = true →
  sales s !! sale_id = Some sale →
  (Sale.payment_status sale = "Completed" →
   items_in_stock sale_id sale s = true →
   earned_by_customer sale_id sale s = true →
   ∃ s',
     refund_sale uid sale_id reason s = (inr tt, s') ∧
     Sale.payment_status <$> sales s' !! sale_id = Some "Refunded" ∧
     (∀ p, inventory s' !! (p, Sale.branch_id sale)
           = add_stock (sold_quantity (items_of_sale sale_id s) p)
               <$> inventory s !! (p, Sale.branch_id sale)) ∧
     (∀ p b, b ≠ Sale.branch_id sale → inventory s' !! (p, b) = inventory s !! (p, b)) ∧
     stock_movements s' =
       stock_movements s ++ map (refund_movement sale uid) (items_of_sale sale_id s) ∧
     match find (earned_for_sale sale_id) (loyalty_transactions s) with
     | Some earned =>
         ∃ customer,
           customers s !! LoyaltyTransaction.customer_id earned = Some customer ∧
           customers s' =
             <[LoyaltyTransaction.customer_id earned :=
                 Customer.mk
                   (Customer.loyalty_points customer - LoyaltyTransaction.points earned)
                   (Customer.total_purchases customer - Sale.total_amount sale)%Q]>
               (customers s) ∧
           loyalty_transactions s' =
             loyalty_transactions s ++
               [LoyaltyTransaction.mk (LoyaltyTransaction.customer_id earned)
                  (Some sale_id) "ADJUSTED" (- LoyaltyTransaction.points earned)
                  ("Points deducted for refunded sale " +:+ Sale.sale_number sale)]
     | None =>
         customers s' = customers s ∧ loyalty_transactions s' = loyalty_transactions s
     end) ∧
  (Sale.payment_status sale = "Refunded" →
   refund_sale uid sale_id reason s = (inl (err 400 "Sale already refunded"), s)).
Proof.
  intros Hperm Hsale. split.
  - intros Hstatus Hrows Hearned.
    unfold refund_sale, respond, refund_sale_body. session_unfold.
    rewrite Hperm. simpl. rewrite Hsale. simpl. rewrite Hstatus. simpl.
    match goal with |- context [for_each _ _ ?st] => set (s1 := st) end.
    change (items_of_sale sale_id s1) with (items_of_sale sale_id s).
    destruct (restore_items_spec sale uid (items_of_sale sale_id s) s1)
      as (s2 & Hrun & Hsame & Hbranch & Hother & Hmov).
    { apply forallb_Forall in Hrows. eapply Forall_impl; [exact Hrows|].
      intros item Hitem. by apply bool_decide_eq_true in Hitem. }
    rewrite Hrun.
    assert (customers s2 = customers s ∧
            loyalty_transactions s2 = loyalty_transactions s ∧
            sales s2 = sales s1) as (Hc2 & Hl2 & Hs2).
    { unfold same_but_stock in Hsame. rewrite Hsame. by destruct s. }
    destruct (refund_loyalty_spec sale_id sale s2) as (s' & Hloy & Hs' & Hi' & Hm' & Heff).
    { unfold earned_by_customer in *. by rewrite Hc2, Hl2. }
    rewrite Hloy. exists s'. split; [done|].
    rewrite Hs', Hs2, Hi', Hm'. rewrite Hl2, Hc2 in Heff.
    split; [subst s1; simpl; by rewrite lookup_insert_eq|].
    by repeat split.
  - intros Hstatus. unfold refund_sale, respond, refund_sale_body. session_unfold.
    rewrite Hperm. simpl. rewrite Hsale. simpl. by rewrite Hstatus.
Qed.

Lemma refund_sale_spec_witness :
  ∃ s',
    refund_sale 2 1 None sample_sold = (inr tt, s') ∧
    Sale.payment_status <$> sales s' !! 1 = Some "Refunded" ∧
    (∀ p, inventory s' !! (p, Sale.branch_id sample_sale)
          = add_stock (sold_quantity (items_of_sale 1 sample_sold) p)
              <$> inventory sample_sold !! (p, Sale.branch_id sample_sale)) ∧
    (∀ p b, b ≠ Sale.branch_id sample_sale →
            inventory s' !! (p, b) = inventory sample_sold !! (p, b)) ∧
    stock_movements s' =
      stock_movements sample_sold
      ++ map (refund_movement sample_sale 2) (items_of_sale 1 sample_sold) ∧
    match find (earned_for_sale 1) (loyalty_transactions sample_sold) with
    | Some earned =>
        ∃ customer,
          customers sample_sold !! LoyaltyTransaction.customer_id earned = Some customer ∧
          customers s' =
            <[LoyaltyTransaction.customer_id earned :=
                Customer.mk
                  (Customer.loyalty_points customer - LoyaltyTransaction.points earned)
                  (Customer.total_purchases customer - Sale.total_amount sample_sale)%Q]>
              (customers sample_sold) ∧
          loyalty_transactions s' =
            loyalty_transactions sample_sold ++
              [LoyaltyTransaction.mk (LoyaltyTransaction.customer_id earned)
                 (Some 1) "ADJUSTED" (- LoyaltyTransaction.points earned)
                 ("Points deducted for refunded sale " +:+ Sale.sale_number sample_sale)]
    | None =>
        customers s' = customers sample_sold ∧
        loyalty_transactions s' = loyalty_transactions sample_sold
    end.
Proof.
  apply (proj1 (refund_sale_spec 2 1 None sample_sold sample_sale
                  ltac:(vm_compute; reflexivity) ltac:(vm_compute; reflexivity))).
  - reflexivity.
  - vm_compute. reflexivity.
  - vm_compute. reflexivity.
Defined.

(** Refunding the scenario sale puts the 10 units back (stock 50 again, one
    IN movement of 10), takes the 108 points back, and a second refund is
    refused without any change. *)
Example scenario_refund :
  Inventory.current_stock <$> inventory sample_refunded !! (1, 1) = Some 50 ∧
  map (λ m, (StockMovement.movement_type m, StockMovement.quantity m))
    (stock_movements sample_refunded) = [("OUT", -10); ("IN", 10)] ∧
  Customer.loyalty_points <$> customers sample_refunded !! 1 = Some 150 ∧
  map (λ t, (LoyaltyTransaction.transaction_type t, LoyaltyTransaction.points t))
    (loyalty_transactions sample_refunded) = [("EARNED", 108); ("ADJUSTED", -108)] ∧
  refund_sale 2 1 None sample_refunded
  = (inl (err 400 "Sale already refunded"), sample_refunded).
Proof. repeat split; vm_compute; reflexivity. Qed.

(** ** Stock adjustments *)




(** ** Transfers *)

(** C5.  For an authorized caller and a request with its four required
    fields: if source and destination are the same branch, the transfer is
    refused with InvalidTransfer and nothing changes.  If they differ and
    product and branches exist: when the source row has available_stock of
    at least q, the source's current_stock goes down by q, the destination's
    goes up by q (its row being created from stock 0 when absent), every
    other row and table is untouched, and exactly two TRANSFER movements,
    -q at the source and +q at the destination with the same reference, are
    appended; when the source row is absent or has available_stock < q, the
    transfer is refused with InsufficientStock and nothing changes. *)
Theorem transfer_stock_spec uid utcnow data s p a b q :
  check_permission uid ["Admin"; "InventoryManager"] s = true →
  t_product_id data = Some p →
  t_from_branch_id data = Some a →
  t_to_branch_id data = Some b →
  t_quantity data = Some q →
  (a = b →
   ∃ e, transfer_stock uid utcnow data s = (inl e, s) ∧ is_InvalidTransfer e = true) ∧
  (a ≠ b →
   is_Some (products s !! p) → is_Some (branches s !! a) → is_Some (branches s !! b) →
   (∀ from_inv,
      inventory s !! (p, a) = Some from_inv →
      q ≤ Inventory.available_stock from_inv →
      ∃ s' out_movement in_movement reference,
        transfer_stock uid utcnow data s = (inr tt, s') ∧
        same_but_stock s s' ∧
        stock_level p a s' = stock_level p a s - q ∧
        stock_level p b s' = stock_level p b s + q ∧
        is_Some (inventory s' !! (p, b)) ∧
        (∀ k, k ≠ (p, a) → k ≠ (p, b) → inventory s' !! k = inventory s !! k) ∧
        stock_movements s' = stock_movements s ++ [out_movement; in_movement] ∧
        is_transfer_of p a (- q) reference out_movement ∧
        is_transfer_of p b q reference in_movement) ∧
   (match inventory s !! (p, a) with
    | Some from_inv => Inventory.available_stock from_inv < q
    | None => True
    end →
    ∃ e, transfer_stock uid utcnow data s = (inl e, s) ∧ is_InsufficientStock e = true)).
Proof.
  intros Hperm Hp Ha Hb Hq. split.
  - intros <-. unfold transfer_stock, respond, transfer_stock_body. session_unfold.
    rewrite Hperm. simpl. unfold transfer_data_has; simpl.
    rewrite Hp, Ha, Hb, Hq. simpl. rewrite Z.eqb_refl. by eexists.
  - intros Hne [product Hprod] [from_branch Hfrom] [to_branch Hto].
    assert ((a =? b) = false) as Hab by (by apply Z.eqb_neq).
    split.
    + intros from_inv Hinv Havail.
      unfold transfer_stock, respond, transfer_stock_body. session_unfold.
      rewrite Hperm. simpl. unfold transfer_data_has; simpl.
      rewrite Hp, Ha, Hb, Hq. simpl. rewrite Hab, Hprod, Hfrom, Hto, Hinv.
      replace (Inventory.available_stock from_inv <? q) with false
        by (symmetry; apply Z.ltb_ge; lia).
      unfold get_or_create_inventory, stock_level. session_unfold.
      assert ((p, a) ≠ (p, b)) as Hk by congruence.
      assert ((p, b) ≠ (p, a)) as Hk' by congruence.
      destruct (inventory s !! (p, b)) as [to_inv|] eqn:Hinvb; simpl.
      * eexists _, _, _, _. split; [reflexivity|]. simpl.
        split; [by destruct s|].
        rewrite lookup_insert_ne, lookup_insert_eq, lookup_insert_eq, Hinv by done.
        simpl. split; [done|]. split; [done|]. split; [by eexists|].
        split; [intros k Hka Hkb; by rewrite !lookup_insert_ne by done|].
        split; [by rewrite <- app_assoc|]. by repeat split.
      * eexists _, _, _, _. split; [reflexivity|]. simpl.
        split; [by destruct s|].
        rewrite lookup_insert_ne, lookup_insert_eq, lookup_insert_eq, Hinv by done.
        simpl. split; [done|]. split; [done|]. split; [by eexists|].
        split; [intros k Hka Hkb; by rewrite !lookup_insert_ne by done|].
        split; [by rewrite <- app_assoc|]. by repeat split.
    + intros Hshort.
      unfold transfer_stock, respond, transfer_stock_body. session_unfold.
      rewrite Hperm. simpl. unfold transfer_data_has; simpl.
      rewrite Hp, Ha, Hb, Hq. simpl. rewrite Hab, Hprod, Hfrom, Hto.
      destruct (inventory s !! (p, a)) as [from_inv|]; [|by eexists].
      replace (Inventory.available_stock from_inv <? q) with true
        by (symmetry; apply Z.ltb_lt; lia).
      by eexists.
Qed.

Lemma transfer_stock_spec_witness :
  ∃ s' out_movement in_movement reference,
    transfer_stock 3 "20240101120000" (transfer_request 1 2 20) sample_store
    = (inr tt, s') ∧
    same_but_stock sample_store s' ∧
    stock_level 1 1 s' = stock_level 1 1 sample_store - 20 ∧
    stock_level 1 2 s' = stock_level 1 2 sample_store + 20 ∧
    is_Some (inventory s' !! (1, 2)) ∧
    (∀ k, k ≠ (1, 1) → k ≠ (1, 2) → inventory s' !! k = inventory sample_store !! k) ∧
    stock_movements s' = stock_movements sample_store ++ [out_movement; in_movement] ∧
    is_transfer_of 1 1 (- 20) reference out_movement ∧
    is_transfer_of 1 2 20 reference in_movement.
Proof.
  apply (proj1 (proj2 (transfer_stock_spec 3 "20240101120000" (transfer_request 1 2 20)
                         sample_store 1 1 2 20
                         ltac:(vm_compute; reflexivity) eq_refl eq_refl eq_refl eq_refl)
                  ltac:(lia)
                  ltac:(vm_compute; eexists; reflexivity)
                  ltac:(vm_compute; eexists; reflexivity)
                  ltac:(vm_compute; eexists; reflexivity))
           (Inventory.mk 50 0)).
  - vm_compute. reflexivity.
  - vm_compute. discriminate.
Defined.

(** Moving 20 units of product 1 from branch 1 (stock 50) to branch 2 (no
    row yet); moving to the same branch, or more than is available, is
    refused without any change. *)
Example sample_transfer :
  Inventory.current_stock <$> inventory sample_transferred !! (1, 1) = Some 30 ∧
  Inventory.current_stock <$> inventory sample_transferred !! (1, 2) = Some 20 ∧
  map (λ m, (StockMovement.branch_id m, StockMovement.quantity m,
             StockMovement.reference m))
    (stock_movements sample_transferred)
  = [(1, -20, "TRANSFER-20240101120000"); (2, 20, "TRANSFER-20240101120000")] ∧
  transfer_stock 3 "20240101120000" (transfer_request 1 1 20) sample_store
  = (inl (err 400 "Source and destination branches cannot be the same"), sample_store) ∧
  transfer_stock 3 "20240101120000" (transfer_request 1 2 51) sample_store
  = (inl (err 400 "Insufficient stock in source branch"), sample_store).
Proof. repeat split; vm_compute; reflexivity. Qed.

(** ** Purchase-order status *)

Lemma received_or_cancelled_true status :
  received_or_cancelled status = true ↔ status = "Received" ∨ status = "Cancelled".
Proof.
  unfold received_or_cancelled. rewrite orb_true_iff, !String.eqb_eq. tauto.
Qed.

(** C7.  For a stored purchase order and a caller whose role passes the
    permission checks: approve succeeds on status Pending and makes it
    Approved, and on any other status fails with InvalidStateTransition;
    receive fails with InvalidStateTransition on any status but Approved;
    cancel fails with InvalidStateTransition on status Received or Cancelled
    and makes a Pending or Approved order Cancelled.  Every refused
    transition leaves the whole store, the order's status included,
    unchanged. *)
Theorem purchase_order_transitions uid po_id s po :
  check_permission uid ["Admin"] s = true →
  check_permission uid ["Admin"; "InventoryManager"] s = true →
  purchase_orders s !! po_id = Some po →
  (PurchaseOrder.status po = "Pending" →
   ∃ s', approve_purchase_order uid po_id s = (inr tt, s') ∧
         status_of po_id s' = Some "Approved") ∧
  (PurchaseOrder.status po ≠ "Pending" →
   ∃ e, approve_purchase_order uid po_id s = (inl e, s) ∧
        is_InvalidStateTransition e = true) ∧
  (PurchaseOrder.status po ≠ "Approved" →
   ∀ items, ∃ e, receive_purchase_order uid po_id items s = (inl e, s) ∧
                 is_InvalidStateTransition e = true) ∧
  (PurchaseOrder.status po = "Received" ∨ PurchaseOrder.status po = "Cancelled" →
   ∀ reason, ∃ e, cancel_purchase_order uid po_id reason s = (inl e, s) ∧
                  is_InvalidStateTransition e = true) ∧
  (PurchaseOrder.status po = "Pending" ∨ PurchaseOrder.status po = "Approved" →
   ∀ reason, ∃ s', cancel_purchase_order uid po_id reason s = (inr tt, s') ∧
                   status_of po_id s' = Some "Cancelled").
Proof.
  intros Hadmin Hmanager Hpo. split; [|split; [|split; [|split]]].
  - intros Hst. unfold approve_purchase_order, respond, approve_purchase_order_body.
    session_unfold. rewrite Hadmin. simpl. rewrite Hpo, Hst. simpl.
    eexists. split; [done|]. unfold status_of. simpl. by rewrite lookup_insert_eq.
  - intros Hst. unfold approve_purchase_order, respond, approve_purchase_order_body.
    session_unfold. rewrite Hadmin. simpl. rewrite Hpo.
    apply String.eqb_neq in Hst. rewrite Hst. simpl. by eexists.
  - intros Hst items.
    unfold receive_purchase_order, respond, receive_purchase_order_body.
    session_unfold. rewrite Hmanager. simpl. rewrite Hpo.
    apply String.eqb_neq in Hst. rewrite Hst. simpl. by eexists.
  - intros Hst reason. apply received_or_cancelled_true in Hst.
    unfold cancel_purchase_order, respond, cancel_purchase_order_body.
    session_unfold. rewrite Hmanager. simpl. rewrite Hpo, Hst. by eexists.
  - intros Hst reason.
    assert (received_or_cancelled (PurchaseOrder.status po) = false) as Hrc
      by (by destruct Hst as [-> | ->]).
    unfold cancel_purchase_order, respond, cancel_purchase_order_body.
    session_unfold. rewrite Hmanager. simpl. rewrite Hpo, Hrc. simpl.
    eexists. split; [done|]. unfold status_of. simpl. by rewrite lookup_insert_eq.
Qed.

(** C10.  For an authorized caller, a stored order whose status is neither
    Received nor Cancelled, and an update request whose date (if any) is
    accepted, [update_purchase_order] succeeds and the order's status is the
    status text of the request, whatever that text is. *)
Theorem update_purchase_order_writes_status strptime_date uid po_id data s po new_status :
  check_permission uid ["Admin"; "InventoryManager"] s = true →
  purchase_orders s !! po_id = Some po →
  PurchaseOrder.status po ≠ "Received" →
  PurchaseOrder.status po ≠ "Cancelled" →
  date_accepted strptime_date data = true →
  u_status data = Some new_status →
  ∃ s', update_purchase_order strptime_date uid po_id data s = (inr tt, s') ∧
        status_of po_id s' = Some new_status.
Proof.
  intros Hperm Hpo Hr Hc Hdate Hstatus.
  assert (received_or_cancelled (PurchaseOrder.status po) = false) as Hrc.
  { apply not_true_is_false. rewrite received_or_cancelled_true. tauto. }
  unfold update_purchase_order, respond, update_purchase_order_body.
  session_unfold. rewrite Hperm. simpl. rewrite Hpo, Hrc. simpl.
  unfold date_accepted in Hdate. rewrite Hstatus.
  destruct (u_expected_delivery_date data) as [text|].
  - apply andb_true_iff in Hdate as [Hne Hparse].
    apply negb_true_iff in Hne. rewrite Hne.
    apply bool_decide_eq_true in Hparse as [d Hd]. rewrite Hd. simpl.
    eexists. split; [done|]. unfold status_of. simpl. rewrite lookup_insert_eq.
    by destruct (u_notes data).
  - simpl. eexists. split; [done|]. unfold status_of. simpl. rewrite lookup_insert_eq.
    by destruct (u_notes data).
Qed.

Lemma purchase_order_transitions_witness :
  (∃ s', approve_purchase_order 1 1 po_store = (inr tt, s') ∧
         status_of 1 s' = Some "Approved") ∧
  (∀ items, ∃ e, receive_purchase_order 1 1 items po_store = (inl e, po_store) ∧
                 is_InvalidStateTransition e = true) ∧
  (∀ reason, ∃ s', cancel_purchase_order 1 1 reason po_store = (inr tt, s') ∧
                   status_of 1 s' = Some "Cancelled").
Proof.
  destruct (purchase_order_transitions 1 1 po_store sample_po
              ltac:(vm_compute; reflexivity) ltac:(vm_compute; reflexivity)
              ltac:(vm_compute; reflexivity))
    as (Happrove & _ & Hreceive & _ & Hcancel).
  split; [|split].
  - apply Happrove. reflexivity.
  - apply Hreceive. simpl. discriminate.
  - apply Hcancel. left. reflexivity.
Defined.

(** Refused transitions on the sample orders: approving the Approved order
    2, receiving the Pending order 1, cancelling the Received order 3. *)
Example refused_transitions :
  approve_purchase_order 1 2 po_store
  = (inl (err 400 "Only pending purchase orders can be approved"), po_store) ∧
  receive_purchase_order 1 1 (Some [mkReceivedItem (Some 1) (Some 10)]) po_store
  = (inl (err 400 "Purchase order must be approved before receiving"), po_store) ∧
  cancel_purchase_order 1 3 None po_store
  = (inl (err 400 "Cannot cancel received or already cancelled purchase order"), po_store).
Proof. repeat split; vm_compute; reflexivity. Qed.

Lemma update_purchase_order_writes_status_witness :
  ∃ s', update_purchase_order sample_strptime 3 1
          (mkUpdateData (Some "2024-02-01") (Some "Received") None) po_store
        = (inr tt, s') ∧
        status_of 1 s' = Some "Received".
Proof.
  apply (update_purchase_order_writes_status sample_strptime 3 1
           (mkUpdateData (Some "2024-02-01") (Some "Received") None) po_store sample_po
           "Received").
  - vm_compute. reflexivity.
  - vm_compute. reflexivity.
  - simpl. discriminate.
  - simpl. discriminate.
  - vm_compute. reflexivity.
  - reflexivity.
Defined.

(** The update route moves the Pending order 1 to a status that is no state
    of the life cycle at all. *)
Example update_to_arbitrary_status :
  status_of 1
    (update_purchase_order sample_strptime 3 1
       (mkUpdateData None (Some "Lost") None) po_store).2
  = Some "Lost".
Proof. vm_compute. reflexivity. Qed.

(** ** Receipts *)












(** The partial receipt leaves order 2 Approved with 10 of 10 and 2 of 5
    units received and creates the stock rows of branch 2; the full receipt
    makes it Received. *)
Example sample_receipts :
  status_of 2 (receive_purchase_order 3 2 (Some partial_receipt) po_store).2
  = Some "Approved" ∧
  PurchaseOrderItem.received_quantity <$>
    purchase_order_items (receive_purchase_order 3 2 (Some partial_receipt) po_store).2 !! 4
  = Some 2 ∧
  Inventory.current_stock <$>
    inventory (receive_purchase_order 3 2 (Some partial_receipt) po_store).2 !! (1, 2)
  = Some 10 ∧
  map (λ m, (StockMovement.movement_type m, StockMovement.quantity m,
             StockMovement.reference m))
    (stock_movements (receive_purchase_order 3 2 (Some partial_receipt) po_store).2)
  = [("IN", 10, "PO-20240102-DDDDDDDD"); ("IN", 2, "PO-20240102-DDDDDDDD")] ∧
  status_of 2 (receive_purchase_order 3 2 (Some full_receipt) po_store).2
  = Some "Received".
Proof. repeat split; vm_compute; reflexivity. Qed.


(** ** Sales are created refundable *)

Lemma update_inventory_after_sale_rows items branch_id cashier_id :
  ∀ s s',
    update_inventory_after_sale items branch_id cashier_id s = (inr tt, s') →
    ∀ k, is_Some (inventory s !! k) → is_Some (inventory s' !! k).
Proof.
  unfold update_inventory_after_sale.
  induction items as [|item rest IH]; intros s s' H k Hk; simpl in H.
  - by inversion H; subst.
  - session_unfold.
    destruct (inventory s !! (v_product_id item, branch_id)) as [inv|] eqn:Hinv;
      simpl in H.
    + eapply IH; [exact H|]. simpl.
      destruct (decide ((v_product_id item, branch_id) = k)) as [<-|Hne].
      * rewrite lookup_insert_eq. by eexists.
      * by rewrite lookup_insert_ne.
    + by eapply IH.
Qed.

Lemma create_sale_keeps py_float uid num data s sale_id s' :
  create_sale py_float uid num data s = (inr sale_id, s') →
  sale_id = next_id (sales s) ∧
  (∀ k, is_Some (inventory s !! k) → is_Some (inventory s' !! k)) ∧
  (truthy (d_customer_id data) = false →
   loyalty_transactions s' = loyalty_transactions s).
Proof.
  intros H. apply respond_inv_ok in H.
  apply create_sale_body_inv in H
    as (branch & items_data & pm & v & st & tx & s2 & _ & _ & _ & _ & Hid & Hupd & Hl).
  split; [done|].
  destruct (update_inventory_after_sale_frame v branch uid
    (booked sale_id (sale_header num uid data branch pm st tx) v s)) as (s2' & Hupd' & Hsame).
  rewrite Hupd in Hupd'. inversion Hupd'; subst s2'. clear Hupd'.
  assert (loyalty_transactions s2 = loyalty_transactions s) as Hl2.
  { unfold same_but_stock in Hsame. rewrite Hsame. by destruct s. }
  pose proof (update_inventory_after_sale_rows _ _ _ _ _ Hupd) as Hrows.
  destruct (truthy (d_customer_id data)).
  - split; [|done]. destruct Hl as [_ Hl].
    apply award_loyalty_points_inv in Hl as (rate & _ & ->).
    intros k Hk. apply Hrows in Hk. by destruct (points_earned _ _ >? 0).
  - subst s'. split; [|done]. intros k Hk. by apply Hrows.
Qed.

Lemma no_earned_for_fresh_sale s :
  loyalty_references_sales s = true →
  forallb (λ t, negb (earned_for_sale (next_id (sales s)) t)) (loyalty_transactions s)
  = true.
Proof.
  unfold loyalty_references_sales.
  induction (loyalty_transactions s) as [|t ts IH]; simpl; [done|].
  intros Hlfk. apply andb_true_iff in Hlfk as [Ht Hts]. rewrite IH by done.
  rewrite andb_true_r. unfold earned_for_sale.
  destruct (bool_decide (LoyaltyTransaction.sale_id t = Some (next_id (sales s))))
    eqn:Hsid; [|done].
  apply bool_decide_eq_true in Hsid. rewrite Hsid in Ht.
  apply bool_decide_eq_true in Ht as [x Hx]. by rewrite next_id_fresh in Hx.
Qed.

Lemma forallb_implb_vacuous {A} (f g : A → bool) (l : list A) :
  forallb (λ x, negb (f x)) l = true →
  forallb (λ x, implb (f x) (g x)) l = true.
Proof.
  induction l as [|x l IH]; simpl; [done|].
  intros H. apply andb_true_iff in H as [Hx Hl]. rewrite IH by done.
  apply negb_true_iff in Hx. by rewrite Hx.
Qed.

(** A sale [create_sale] has stored can be refunded: it is Completed, each
    of its lines has an inventory row at its branch, and its EARNED
    transaction, if any, belongs to its stored customer. *)
Lemma create_sale_refundable py_float uid num data s sale_id s' :
  sale_items_reference_sales s = true →
  loyalty_references_sales s = true →
  create_sale py_float uid num data s = (inr sale_id, s') →
  ∃ sale,
    sales s' !! sale_id = Some sale ∧
    Sale.payment_status sale = "Completed" ∧
    items_in_stock sale_id sale s' = true ∧
    earned_by_customer sale_id sale s' = true.
Proof.
  intros Hfk Hlfk H.
  destruct (create_sale_itemised _ _ _ _ _ _ _ Hfk H)
    as (branch & pm & v & st & tx & Hsale & Hitems & _ & Hall & _ & _).
  destruct (create_sale_keeps _ _ _ _ _ _ _ H) as (Hid & Hrows & Hnocust).
  exists (sale_header num uid data branch pm st tx).
  split; [done|]. split; [done|]. split.
  - unfold items_in_stock. rewrite Hitems. simpl. clear Hitems.
    induction Hall as [|x v (p & inv & _ & Hinv & _) _ IH]; simpl; [done|].
    rewrite IH, andb_true_r. apply bool_decide_eq_true, Hrows. by eexists.
  - apply no_earned_for_fresh_sale in Hlfk. rewrite <- Hid in Hlfk.
    unfold earned_by_customer. simpl.
    destruct (truthy (d_customer_id data)) eqn:Hc.
    + destruct (created_sale_loyalty_tables _ _ _ _ _ _ _ H Hc)
        as (sale' & rate & customer & Hsale' & Hcust & _ & Heff).
      rewrite Hsale in Hsale'. inversion Hsale'; subst sale'. clear Hsale'.
      destruct (points_earned _ rate >? 0).
      * destruct Heff as [-> ->]. rewrite forallb_app.
        rewrite forallb_implb_vacuous by done. simpl.
        rewrite Z.eqb_refl, lookup_insert_eq. simpl.
        unfold earned_for_sale. simpl. by rewrite bool_decide_eq_true_2.
      * destruct Heff as [-> ->]. by apply forallb_implb_vacuous.
    + rewrite Hnocust by done. by apply forallb_implb_vacuous.
Qed.

(** The scenario sale satisfies the conditions under which refunds are
    specified. *)
Example scenario_sale_refundable :
  items_in_stock 1 sample_sale sample_sold = true ∧
  earned_by_customer 1 sample_sale sample_sold = true.
Proof. split; vm_compute; reflexivity. Qed.

(** ** The stock effect of a sale *)

Lemma update_inventory_after_sale_spec sale_id branch_id cashier_id items :
  ∀ s,
    Forall (λ item, is_Some (inventory s !! (v_product_id item, branch_id))) items →
    ∃ s',
      update_inventory_after_sale items branch_id cashier_id s = (inr tt, s') ∧
      (∀ p, inventory s' !! (p, branch_id)
            = add_stock (- sold_quantity (map (sale_item_of sale_id) items) p)
                <$> inventory s !! (p, branch_id)) ∧
      (∀ p b, b ≠ branch_id → inventory s' !! (p, b) = inventory s !! (p, b)) ∧
      stock_movements s' =
        stock_movements s
        ++ map (sale_movement branch_id cashier_id) (map (sale_item_of sale_id) items).
Proof.
  unfold update_inventory_after_sale.
  induction items as [|item rest IH]; intros s Hrows; simpl.
  - exists s. split; [done|]. split; [|split; [done | by rewrite app_nil_r]].
    intros p. destruct (inventory s !! (p, branch_id)); simpl; [|done].
    by rewrite add_stock_0.
  - inversion Hrows as [|? ? [inv Hinv] Hrest]; subst.
    session_unfold. rewrite Hinv. simpl.
    match goal with |- ∃ s', for_each _ _ ?st = _ ∧ _ => set (s1 := st) end.
    assert (inventory s1 =
            <[(v_product_id item, branch_id) := add_stock (- v_quantity item) inv]>
              (inventory s)) as Hinv1.
    { subst s1. simpl. unfold add_stock.
      by replace (Inventory.current_stock inv + - v_quantity item)
        with (Inventory.current_stock inv - v_quantity item) by lia. }
    destruct (IH s1) as (s' & Hrun & Hbranch & Hother & Hmov).
    { eapply Forall_impl; [exact Hrest|]. intros x [i Hi]. simpl in Hi. rewrite Hinv1.
      destruct (decide ((v_product_id item, branch_id) = (v_product_id x, branch_id)))
        as [<-|Hne].
      - rewrite lookup_insert_eq. by eexists.
      - rewrite lookup_insert_ne by done. by eexists. }
    exists s'. split; [done|]. split; [|split].
    + intros p. rewrite Hbranch, Hinv1.
      destruct (decide (v_product_id item = p)) as [<-|Hne].
      * rewrite lookup_insert_eq, Hinv. simpl.
        rewrite bool_decide_eq_true_2 by done. rewrite add_stock_add. f_equal. f_equal. lia.
      * rewrite lookup_insert_ne by congruence.
        by rewrite bool_decide_eq_false_2 by done.
    + intros p b Hb. rewrite Hother by done. rewrite Hinv1.
      by rewrite lookup_insert_ne by congruence.
    + rewrite Hmov. subst s1. simpl. by rewrite <- app_assoc.
Qed.

(** The inventory and the movement log a successful [create_sale] leaves. *)
Lemma create_sale_stock py_float uid num data s sale_id s' :
  sale_items_reference_sales s = true →
  create_sale py_float uid num data s = (inr sale_id, s') →
  ∃ sale,
    sales s' !! sale_id = Some sale ∧
    Sale.payment_status sale = "Completed" ∧
    users s' = users s ∧
    Forall (λ item,
      ∃ inv, inventory s !! (SaleItem.product_id item, Sale.branch_id sale) = Some inv ∧
             SaleItem.quantity item ≤ Inventory.available_stock inv)
      (items_of_sale sale_id s') ∧
    (∀ p, inventory s' !! (p, Sale.branch_id sale)
          = add_stock (- sold_quantity (items_of_sale sale_id s') p)
              <$> inventory s !! (p, Sale.branch_id sale)) ∧
    (∀ p b, b ≠ Sale.branch_id sale → inventory s' !! (p, b) = inventory s !! (p, b)) ∧
    stock_movements s' =
      stock_movements s
      ++ map (sale_movement (Sale.branch_id sale) uid) (items_of_sale sale_id s').
Proof.
  intros Hfk H. apply respond_inv_ok in H.
  apply create_sale_body_inv in H
    as (branch & items & pm & v & st & tx & s2 & Hb & Hi & Hpm & Hv & Hid & Hupd & Hl).
  apply validate_items_ok in Hv as (new & Hnew & _ & Hall & _). simpl in Hnew. subst new.
  set (s1 := booked sale_id (sale_header num uid data branch pm st tx) v s) in *.
  destruct (update_inventory_after_sale_spec sale_id branch uid v s1)
    as (s2' & Hupd' & Hbranch & Hother & Hmov).
  { eapply Forall_impl; [exact Hall|]. intros x (p & inv & _ & Hinv & _). by eexists. }
  rewrite Hupd in Hupd'. inversion Hupd'; subst s2'. clear Hupd'.
  destruct (update_inventory_after_sale_frame v branch uid s1) as (s2' & Hupd' & Hsame).
  rewrite Hupd in Hupd'. inversion Hupd'; subst s2'. clear Hupd'.
  assert (users s2 = users s ∧
          sales s2 = <[sale_id := sale_header num uid data branch pm st tx]> (sales s) ∧
          sale_items s2 = sale_items s ++ map (sale_item_of sale_id) v)
    as (Hu2 & Hs2 & Hi2).
  { unfold same_but_stock in Hsame. rewrite Hsame. by destruct s. }
  assert (inventory s' = inventory s2 ∧ stock_movements s' = stock_movements s2 ∧
          users s' = users s2 ∧ sales s' = sales s2 ∧ sale_items s' = sale_items s2)
    as (Hinv' & Hmov' & Hu' & Hs' & Hi').
  { destruct (truthy (d_customer_id data)); [|by subst].
    destruct Hl as [_ Hl]. apply award_loyalty_points_inv in Hl as (rate & _ & ->).
    by destruct (points_earned _ _ >? 0). }
  assert (items_of_sale sale_id s' = map (sale_item_of sale_id) v) as Hitems.
  { unfold items_of_sale. rewrite Hi', Hi2, filter_app, items_of_new_sale.
    rewrite items_of_fresh_sale; [done | done |]. subst sale_id. apply next_id_fresh. }
  exists (sale_header num uid data branch pm st tx).
  rewrite Hitems, Hinv', Hmov', Hu', Hs', Hs2, Hu2. simpl.
  split; [by rewrite lookup_insert_eq|]. split; [done|]. split; [done|].
  split; [|done].
  apply Forall_map. eapply Forall_impl; [exact Hall|].
  intros x (p & inv & _ & Hinv & _ & Hq & _). simpl. by exists inv.
Qed.

(** ** A sale followed by its refund *)

Lemma refund_sale_effect uid sale_id reason s sale :
  check_permission uid ["Admin"; "Cashier"] s = true →
  sales s !! sale_id = Some sale →
  Sale.payment_status sale = "Completed" →
  items_in_stock sale_id sale s = true →
  earned_by_customer sale_id sale s = true →
  ∃ s', refund_sale uid sale_id reason s = (inr tt, s') ∧
        refund_effect uid sale_id sale s s'.
Proof.
  intros Hperm Hsale Hstatus Hrows Hearned.
  unfold refund_sale, respond, refund_sale_body. session_unfold.
  rewrite Hperm. simpl. rewrite Hsale. simpl. rewrite Hstatus. simpl.
  match goal with |- context [for_each _ _ ?st] => set (s1 := st) end.
  change (items_of_sale sale_id s1) with (items_of_sale sale_id s).
  destruct (restore_items_spec sale uid (items_of_sale sale_id s) s1)
    as (s2 & Hrun & Hsame & Hbranch & Hother & Hmov).
  { apply forallb_Forall in Hrows. eapply Forall_impl; [exact Hrows|].
    intros item Hitem. by apply bool_decide_eq_true in Hitem. }
  rewrite Hrun.
  assert (customers s2 = customers s ∧
          loyalty_transactions s2 = loyalty_transactions s ∧
          sales s2 = sales s1) as (Hc2 & Hl2 & Hs2).
  { unfold same_but_stock in Hsame. rewrite Hsame. by destruct s. }
  destruct (refund_loyalty_spec sale_id sale s2) as (s' & Hloy & Hs' & Hi' & Hm' & Heff).
  { unfold earned_by_customer in *. by rewrite Hc2, Hl2. }
  rewrite Hloy. exists s'. split; [done|]. unfold refund_effect.
  rewrite Hs', Hs2, Hi', Hm'. rewrite Hl2, Hc2 in Heff.
  split; [subst s1; simpl; by rewrite lookup_insert_eq|].
  by repeat split.
Qed.

Lemma create_sale_without_customer py_float uid num data s sale_id s' :
  create_sale py_float uid num data s = (inr sale_id, s') →
  truthy (d_customer_id data) = false →
  customers s' = customers s ∧ loyalty_transactions s' = loyalty_transactions s.
Proof.
  intros H Hc. apply respond_inv_ok in H.
  apply create_sale_body_inv in H
    as (branch & items_data & pm & v & st & tx & s2 & _ & _ & _ & _ & Hid & Hupd & Hl).
  rewrite Hc in Hl. subst s2.
  destruct (update_inventory_after_sale_frame v branch uid
    (booked sale_id (sale_header num uid data branch pm st tx) v s)) as (s2' & Hupd' & Hsame).
  rewrite Hupd in Hupd'. inversion Hupd'; subst s2'.
  unfold same_but_stock in Hsame. rewrite Hsame. by destruct s.
Qed.

Lemma find_none_negb {A} (f : A → bool) (l : list A) :
  forallb (λ x, negb (f x)) l = true → find f l = None.
Proof.
  induction l as [|x l IH]; simpl; [done|]. intros H.
  apply andb_true_iff in H as [Hx Hl]. apply negb_true_iff in Hx. rewrite Hx. by apply IH.
Qed.

Lemma find_app_last {A} (f : A → bool) (l : list A) x :
  forallb (λ x, negb (f x)) l = true → f x = true → find f (l ++ [x]) = Some x.
Proof.
  induction l as [|y l IH]; simpl; intros H Hx; [by rewrite Hx|].
  apply andb_true_iff in H as [Hy Hl]. apply negb_true_iff in Hy. rewrite Hy. by apply IH.
Qed.

Lemma same_balance_refl c : same_balance c c.
Proof. destruct c; simpl; [|done]. split; [done | reflexivity]. Qed.

Lemma check_permission_users uid roles s s' :
  users s' = users s → check_permission uid roles s' = check_permission uid roles s.
Proof. unfold check_permission. by intros ->. Qed.

(** X1.  A successful [create_sale] lowers, at the sale's branch, the
    current_stock of every product by the quantity sold of it over the lines
    of the sale, leaves the rows of other branches alone, and appends one
    OUT movement with the negated quantity per line, in line order. *)
Theorem sale_decrements_stock py_float uid num data s sale_id s' :
  sale_items_reference_sales s = true →
  create_sale py_float uid num data s = (inr sale_id, s') →
  ∃ sale,
    sales s' !! sale_id = Some sale ∧
    (∀ p, inventory s' !! (p, Sale.branch_id sale)
          = (λ inv, Inventory.mk
               (Inventory.current_stock inv - sold_quantity (items_of_sale sale_id s') p)
               (Inventory.reserved_stock inv))
              <$> inventory s !! (p, Sale.branch_id sale)) ∧
    (∀ p b, b ≠ Sale.branch_id sale → inventory s' !! (p, b) = inventory s !! (p, b)) ∧
    stock_movements s' =
      stock_movements s
      ++ map (λ item,
                StockMovement.mk (SaleItem.product_id item) (Sale.branch_id sale) "OUT"
                  (- SaleItem.quantity item) None "SALE-" "Sale transaction" uid)
           (items_of_sale sale_id s').
Proof.
  intros Hfk H.
  destruct (create_sale_stock _ _ _ _ _ _ _ Hfk H)
    as (sale & Hsale & _ & _ & _ & Hbranch & Hother & Hmov).
  exists sale. split; [done|]. split; [|done].
  intros p. rewrite Hbranch.
  destruct (inventory s !! (p, Sale.branch_id sale)) as [inv|]; simpl; [|done].
  unfold add_stock, set_current_stock.
  by replace (Inventory.current_stock inv + - sold_quantity (items_of_sale sale_id s') p)
    with (Inventory.current_stock inv - sold_quantity (items_of_sale sale_id s') p) by lia.
Qed.

Lemma sale_decrements_stock_witness :
  ∃ sale,
    sales sample_sold !! 1 = Some sale ∧
    (∀ p, inventory sample_sold !! (p, Sale.branch_id sale)
          = (λ inv, Inventory.mk
               (Inventory.current_stock inv - sold_quantity (items_of_sale 1 sample_sold) p)
               (Inventory.reserved_stock inv))
              <$> inventory sample_store !! (p, Sale.branch_id sale)) ∧
    (∀ p b, b ≠ Sale.branch_id sale →
            inventory sample_sold !! (p, b) = inventory sample_store !! (p, b)) ∧
    stock_movements sample_sold =
      stock_movements sample_store
      ++ map (λ item,
                StockMovement.mk (SaleItem.product_id item) (Sale.branch_id sale) "OUT"
                  (- SaleItem.quantity item) None "SALE-" "Sale transaction" 2)
           (items_of_sale 1 sample_sold).
Proof.
  apply (sale_decrements_stock sample_float 2 "SALE-20240101-AAAAAAAA" scenario_request
           sample_store 1 sample_sold).
  - reflexivity.
  - vm_compute. reflexivity.
Defined.

Lemma sold_quantity_notin items p :
  p ∉ map SaleItem.product_id items → sold_quantity items p = 0.
Proof.
  induction items as [|x items IH]; simpl; [done|].
  intros Hnot. apply not_elem_of_cons in Hnot as [Hne Hnot].
  rewrite bool_decide_eq_false_2 by done. by apply IH.
Qed.

Lemma sold_quantity_nodup items item :
  NoDup (map SaleItem.product_id items) →
  item ∈ items →
  sold_quantity items (SaleItem.product_id item) = SaleItem.quantity item.
Proof.
  induction items as [|x items IH]; simpl; intros Hnd Hin; [by inversion Hin|].
  apply NoDup_cons in Hnd as [Hx Hnd].
  apply elem_of_cons in Hin as [->|Hin].
  - rewrite bool_decide_eq_true_2 by done. rewrite sold_quantity_notin by done. lia.
  - rewrite bool_decide_eq_false_2; [by apply IH|].
    intros Heq. apply Hx. rewrite Heq. apply list_elem_of_fmap. by exists item.
Qed.

(** X2.  When the lines of a successful sale name pairwise different
    products, no sold row is left with negative available stock: the stock
    check of each line is then a check against what the whole sale takes. *)
Theorem distinct_lines_never_oversell py_float uid num data s sale_id s' :
  sale_items_reference_sales s = true →
  create_sale py_float uid num data s = (inr sale_id, s') →
  NoDup (map SaleItem.product_id (items_of_sale sale_id s')) →
  ∃ sale,
    sales s' !! sale_id = Some sale ∧
    Forall (λ item,
      ∃ inv inv',
        inventory s !! (SaleItem.product_id item, Sale.branch_id sale) = Some inv ∧
        inventory s' !! (SaleItem.product_id item, Sale.branch_id sale) = Some inv' ∧
        Inventory.available_stock inv'
        = Inventory.available_stock inv - SaleItem.quantity item ∧
        0 ≤ Inventory.available_stock inv')
      (items_of_sale sale_id s').
Proof.
  intros Hfk H Hnd.
  destruct (create_sale_stock _ _ _ _ _ _ _ Hfk H)
    as (sale & Hsale & _ & _ & Hall & Hbranch & _ & _).
  exists sale. split; [done|].
  apply Forall_forall. intros item Hin.
  rewrite Forall_forall in Hall. destruct (Hall item Hin) as (inv & Hinv & Hq).
  exists inv, (add_stock (- SaleItem.quantity item) inv).
  split; [done|]. split.
  - rewrite Hbranch, Hinv. simpl. by rewrite sold_quantity_nodup.
  - unfold Inventory.available_stock in *. simpl. lia.
Qed.

Lemma distinct_lines_never_oversell_witness :
  ∃ sale,
    sales sample_sold !! 1 = Some sale ∧
    Forall (λ item,
      ∃ inv inv',
        inventory sample_store !! (SaleItem.product_id item, Sale.branch_id sale)
        = Some inv ∧
        inventory sample_sold !! (SaleItem.product_id item, Sale.branch_id sale)
        = Some inv' ∧
        Inventory.available_stock inv'
        = Inventory.available_stock inv - SaleItem.quantity item ∧
        0 ≤ Inventory.available_stock inv')
      (items_of_sale 1 sample_sold).
Proof.
  apply (distinct_lines_never_oversell sample_float 2 "SALE-20240101-AAAAAAAA"
           scenario_request sample_store 1 sample_sold).
  - reflexivity.
  - vm_compute. reflexivity.
  - vm_compute. apply NoDup_cons. split; [apply not_elem_of_nil | apply NoDup_nil_2].
Defined.

(** Two lines for the same product are each checked against the stock the
    request started from: with 3 units available, two lines of 2 are both
    accepted and the row ends with -1 available. *)
Example repeated_product_oversells :
  (create_sale sample_float 2 "SALE-20240101-AAAAAAAA" double_line_request
     sample_store).1 = inr 1 ∧
  Inventory.available_stock <$> inventory sample_store !! (2, 1) = Some 3 ∧
  Inventory.available_stock <$> inventory sample_oversold !! (2, 1) = Some (-1).
Proof. repeat split; vm_compute; reflexivity. Qed.

(** X3.  Refunding a sale right after it was created undoes its effect on
    the balances: the call succeeds for any Admin or Cashier, the inventory
    table is again exactly the one before the sale, every customer has the
    loyalty_points and the total_purchases from before the sale, and the
    sale is marked Refunded. *)
Theorem sale_refund_round_trip py_float uid num data s sale_id s1 cashier reason :
  sale_items_reference_sales s = true →
  loyalty_references_sales s = true →
  create_sale py_float uid num data s = (inr sale_id, s1) →
  check_permission cashier ["Admin"; "Cashier"] s = true →
  ∃ s2,
    refund_sale cashier sale_id reason s1 = (inr tt, s2) ∧
    inventory s2 = inventory s ∧
    (∀ c, same_balance (customers s2 !! c) (customers s !! c)) ∧
    Sale.payment_status <$> sales s2 !! sale_id = Some "Refunded".
Proof.
  intros Hfk Hlfk H Hperm.
  destruct (create_sale_stock _ _ _ _ _ _ _ Hfk H)
    as (sale & Hsale & Hstatus & Husers & _ & Hbranch & Hother & _).
  destruct (create_sale_refundable _ _ _ _ _ _ _ Hfk Hlfk H)
    as (sale' & Hsale' & _ & Hrows & Hearned).
  rewrite Hsale in Hsale'. inversion Hsale'; subst sale'. clear Hsale'.
  destruct (refund_sale_effect cashier sale_id reason s1 sale)
    as (s2 & Hrefund & Hmark & Hbranch2 & Hother2 & _ & Hloyalty); try done.
  { by rewrite (check_permission_users _ _ _ _ Husers). }
  exists s2. split; [done|]. split; [|split; [|done]].
  - apply map_eq. intros [p b].
    destruct (decide (b = Sale.branch_id sale)) as [->|Hb].
    + rewrite Hbranch2, Hbranch.
      destruct (inventory s !! (p, Sale.branch_id sale)) as [inv|]; simpl; [|done].
      rewrite add_stock_add.
      replace (- sold_quantity (items_of_sale sale_id s1) p
               + sold_quantity (items_of_sale sale_id s1) p) with 0 by lia.
      by rewrite add_stock_0.
    + by rewrite Hother2, Hother.
  - destruct (create_sale_keeps _ _ _ _ _ _ _ H) as (Hid & _ & _).
    pose proof (no_earned_for_fresh_sale s Hlfk) as Hold. rewrite <- Hid in Hold.
    assert (∀ points, earned_for_sale sale_id
              (earned (default 0 (d_customer_id data)) sale_id num points) = true)
      as Hnew.
    { intros points. unfold earned_for_sale. simpl. by rewrite bool_decide_eq_true_2. }
    destruct (truthy (d_customer_id data)) eqn:Hc.
    + destruct (created_sale_loyalty_tables _ _ _ _ _ _ _ H Hc)
        as (sale' & rate & customer & Hsale' & Hcust & _ & Heff).
      rewrite Hsale in Hsale'. inversion Hsale'; subst sale'. clear Hsale'.
      destruct (points_earned (Sale.total_amount sale) rate >? 0).
      * destruct Heff as [Hc1 Hl1]. rewrite Hl1 in Hloyalty.
        rewrite (find_app_last _ _ _ Hold (Hnew _)) in Hloyalty.
        destruct Hloyalty as (c1 & Hc1' & Hc2 & _). simpl in Hc1', Hc2.
        rewrite Hc1, lookup_insert_eq in Hc1'. inversion Hc1'; subst c1.
        intros c. rewrite Hc2, Hc1.
        destruct (decide (c = default 0 (d_customer_id data))) as [->|Hne].
        -- rewrite lookup_insert_eq, Hcust. simpl. split; [lia | ring].
        -- rewrite !lookup_insert_ne by done. apply same_balance_refl.
      * destruct Heff as [Hc1 Hl1]. rewrite Hl1 in Hloyalty.
        rewrite (find_none_negb _ _ Hold) in Hloyalty. destruct Hloyalty as [-> _].
        intros c. rewrite Hc1. apply same_balance_refl.
    + destruct (create_sale_without_customer _ _ _ _ _ _ _ H Hc) as [Hc1 Hl1].
      rewrite Hl1 in Hloyalty.
      rewrite (find_none_negb _ _ Hold) in Hloyalty. destruct Hloyalty as [-> _].
      intros c. rewrite Hc1. apply same_balance_refl.
Qed.

Lemma sale_refund_round_trip_witness :
  ∃ s2,
    refund_sale 1 1 None sample_sold = (inr tt, s2) ∧
    inventory s2 = inventory sample_store ∧
    (∀ c, same_balance (customers s2 !! c) (customers sample_store !! c)) ∧
    Sale.payment_status <$> sales s2 !! 1 = Some "Refunded".
Proof.
  apply (sale_refund_round_trip sample_float 2 "SALE-20240101-AAAAAAAA" scenario_request
           sample_store 1 sample_sold 1 None).
  - reflexivity.
  - reflexivity.
  - vm_compute. reflexivity.
  - vm_compute. reflexivity.
Defined.

(** ** What every request keeps *)

Lemma movement_sum_app p b l1 l2 :
  movement_sum p b (l1 ++ l2) = movement_sum p b l1 + movement_sum p b l2.
Proof.
  induction l1 as [|m l1 IH]; simpl; [done|]. case_bool_decide; lia.
Qed.

Lemma points_sum_app c l1 l2 :
  points_sum c (l1 ++ l2) = points_sum c l1 + points_sum c l2.
Proof.
  induction l1 as [|t l1 IH]; simpl; [done|]. case_bool_decide; lia.
Qed.

Lemma stock_ledger_kept_refl s : stock_ledger_kept s s.
Proof. by intros p b. Qed.

Lemma stock_ledger_kept_trans s1 s2 s3 :
  stock_ledger_kept s1 s2 → stock_ledger_kept s2 s3 → stock_ledger_kept s1 s3.
Proof. intros H12 H23 p b. by rewrite H23, H12. Qed.

Lemma stock_ledger_kept_frame s s' :
  inventory s' = inventory s → stock_movements s' = stock_movements s →
  stock_ledger_kept s s'.
Proof. intros Hi Hm p b. unfold ledger_gap, stock_level. by rewrite Hi, Hm. Qed.

(** Changing a row by [q] and booking a movement of [q] for it. *)
Lemma stock_ledger_kept_booking s p0 b0 q inv' m :
  Inventory.current_stock inv' = stock_level p0 b0 s + q →
  StockMovement.product_id m = p0 →
  StockMovement.branch_id m = b0 →
  StockMovement.quantity m = q →
  stock_ledger_kept s
    (upd_stock_movements (λ ms, ms ++ [m]) (upd_inventory <[(p0, b0) := inv']> s)).
Proof.
  intros Hstock Hp Hb Hq p b. unfold ledger_gap, stock_level in *. simpl.
  rewrite movement_sum_app. simpl.
  destruct (decide ((p0, b0) = (p, b))) as [Heq|Hne].
  - injection Heq as <- <-. rewrite lookup_insert_eq. simpl.
    rewrite bool_decide_eq_true_2 by done. lia.
  - rewrite lookup_insert_ne by done.
    rewrite bool_decide_eq_false_2; [lia|]. intros [? ?]. congruence.
Qed.

(** Creating the row of a product at a branch with stock 0. *)
Lemma stock_ledger_kept_creation s k :
  inventory s !! k = None →
  stock_ledger_kept s (upd_inventory <[k := Inventory.mk 0 0]> s).
Proof.
  intros Hnone p b. unfold ledger_gap, stock_level. simpl.
  destruct (decide (k = (p, b))) as [->|Hne].
  - by rewrite lookup_insert_eq, Hnone.
  - by rewrite lookup_insert_ne.
Qed.

Lemma points_ledger_kept_frame s s' :
  customers s' = customers s → loyalty_transactions s' = loyalty_transactions s →
  points_ledger_kept s s'.
Proof. intros Hc Hl c. unfold points_gap. by rewrite Hc, Hl. Qed.

(** Changing the points of a stored customer by [d] and logging [d] for it. *)
Lemma points_ledger_kept_booking s s' c0 d f t :
  (∀ customer, Customer.loyalty_points (f customer)
               = Customer.loyalty_points customer + d) →
  is_Some (customers s !! c0) →
  customers s' = alter f c0 (customers s) →
  loyalty_transactions s' = loyalty_transactions s ++ [t] →
  LoyaltyTransaction.customer_id t = c0 →
  LoyaltyTransaction.points t = d →
  points_ledger_kept s s'.
Proof.
  intros Hf [customer Hcust] Hc Hl Hid Hd c. unfold points_gap.
  rewrite Hc, Hl, points_sum_app. simpl.
  destruct (decide (c0 = c)) as [<-|Hne].
  - rewrite lookup_alter_eq, Hcust. simpl.
    rewrite bool_decide_eq_true_2 by done. rewrite Hf. lia.
  - rewrite lookup_alter_ne by done.
    rewrite bool_decide_eq_false_2 by congruence. lia.
Qed.

Lemma logs_kept_refl s : logs_kept s s.
Proof. by repeat split. Qed.

Lemma sales_kept_frame s s' : sales s' = sales s → sales_kept s s'.
Proof. intros Heq id sale Hs. exists sale. rewrite Heq. by repeat split. Qed.

Lemma orders_kept_frame s s' : purchase_orders s' = purchase_orders s → orders_kept s s'.
Proof. intros Heq id po Hpo. exists po. rewrite Heq. by repeat split. Qed.

Lemma order_items_kept_frame s s' :
  purchase_order_items s' = purchase_order_items s → order_items_kept s s'.
Proof. intros Heq i item Hi. exists item. rewrite Heq. by repeat split. Qed.

Lemma legal_refl s : legal s s.
Proof.
  split; [by apply points_ledger_kept_frame|]. split; [apply logs_kept_refl|].
  split; [by apply sales_kept_frame|]. split; [by apply orders_kept_frame|].
  split; [by apply order_items_kept_frame | by repeat split].
Qed.

Lemma legal_trans s1 s2 s3 : legal s1 s2 → legal s2 s3 → legal s1 s3.
Proof.
  intros (Hp12 & (Hm12 & Hi12 & Hl12) & Hs12 & Ho12 & Hoi12 & Hu12 & Hb12 & Hpr12 & Hss12)
         (Hp23 & (Hm23 & Hi23 & Hl23) & Hs23 & Ho23 & Hoi23 & Hu23 & Hb23 & Hpr23 & Hss23).
  split; [|split; [|split; [|split; [|split]]]].
  - intros c. by rewrite Hp23, Hp12.
  - split; [by etrans|]. split; by etrans.
  - intros id sale Hs. destruct (Hs12 id sale Hs) as (sale2 & Hs2 & Ha12 & Hr12).
    destruct (Hs23 id sale2 Hs2) as (sale3 & Hs3 & Ha23 & Hr23).
    exists sale3. split; [done|]. split.
    + unfold same_sale_amounts in *.
      destruct Ha12 as (?&?&?&?&?&?&?&?&?), Ha23 as (?&?&?&?&?&?&?&?&?).
      repeat split; congruence.
    + intros Href. rewrite <- (Hr12 Href). apply Hr23. by rewrite (Hr12 Href).
  - intros id po Hpo. destruct (Ho12 id po Hpo) as (po2 & Hpo2 & Hn12 & Hbr12 & Hc12).
    destruct (Ho23 id po2 Hpo2) as (po3 & Hpo3 & Hn23 & Hbr23 & Hc23).
    exists po3. split; [done|]. split; [congruence|]. split; [congruence|].
    intros Hclosed. rewrite <- (Hc12 Hclosed). apply Hc23. by rewrite (Hc12 Hclosed).
  - intros i item Hi. destruct (Hoi12 i item Hi) as (item2 & Hi2 & Hst12 & Hq12 & Hr12 & Hc12).
    destruct (Hoi23 i item2 Hi2) as (item3 & Hi3 & Hst23 & Hq23 & Hr23 & Hc23).
    exists item3. split; [done|]. split; [congruence|]. split; [congruence|].
    split; [lia|].
    intros Hclosed. pose proof (Hc12 Hclosed) as ->. apply Hc23.
    destruct Hclosed as (po & Hpo & Hrc).
    destruct (Ho12 _ po Hpo) as (po2 & Hpo2 & _ & _ & Hsame).
    exists po2. split; [done|]. by rewrite (Hsame Hrc).
  - repeat split; congruence.
Qed.

(** A change confined to the inventory table and an extension of the
    movement log. *)
Lemma legal_stock s s' :
  same_but_stock s s' → stock_movements s `prefix_of` stock_movements s' → legal s s'.
Proof.
  unfold same_but_stock. intros Hsame Hm.
  assert (customers s' = customers s ∧ loyalty_transactions s' = loyalty_transactions s ∧
          sale_items s' = sale_items s ∧ sales s' = sales s ∧
          purchase_orders s' = purchase_orders s ∧
          purchase_order_items s' = purchase_order_items s ∧
          catalogue_kept s s') as (Hc & Hl & Hi & Hs & Ho & Hoi & Hcat).
  { rewrite Hsame. by destruct s. }
  split; [by apply points_ledger_kept_frame|].
  split; [split; [done|]; by rewrite Hi, Hl|].
  split; [by apply sales_kept_frame|]. split; [by apply orders_kept_frame|].
  split; [by apply order_items_kept_frame | done].
Qed.

Lemma respond_rel {A} (R : Store → Store → Prop) (body : Session A) s :
  R s s →
  (∀ a s', body s = (inr a, s') → R s s') →
  R s (respond body s).2.
Proof.
  intros Hrefl Hok. unfold respond.
  destruct (body s) as [[e|a] s'] eqn:Hbody; simpl; [done | by eapply Hok].
Qed.

(** The row [get_or_create_inventory] answers is the stored one afterwards,
    and creating it changes no stock level. *)
Lemma get_or_create_inventory_spec p b s :
  ∃ inv s0,
    get_or_create_inventory p b s = (inr inv, s0) ∧
    inventory s0 !! (p, b) = Some inv ∧
    Inventory.current_stock inv = stock_level p b s ∧
    stock_ledger_kept s s0 ∧
    same_but_stock s s0 ∧
    stock_movements s0 = stock_movements s ∧
    (∀ k, k ≠ (p, b) → inventory s0 !! k = inventory s !! k).
Proof.
  unfold get_or_create_inventory, stock_level. session_unfold.
  destruct (inventory s !! (p, b)) as [inv|] eqn:Hinv; simpl.
  - exists inv, s. split; [done|]. split; [done|]. split; [done|].
    split; [apply stock_ledger_kept_refl|]. split; [apply same_but_stock_refl|]. done.
  - eexists _, _. split; [reflexivity|]. simpl.
    split; [by rewrite lookup_insert_eq|]. split; [done|].
    split; [by apply stock_ledger_kept_creation|]. split; [by destruct s|].
    split; [done|]. intros k Hk. by rewrite lookup_insert_ne.
Qed.

Lemma adjust_stock_body_inv uid data s s' :
  adjust_stock_body uid data s = (inr tt, s') →
  ∃ p b q mt inv s0 new,
    a_movement_type data = Some mt ∧
    get_or_create_inventory p b s = (inr inv, s0) ∧
    (mt = "IN" ∧ new = Inventory.current_stock inv + q ∨
     mt = "OUT" ∧ new = Inventory.current_stock inv - q ∨
     mt = "ADJUSTMENT" ∧ new = q) ∧
    s' = upd_stock_movements (λ ms, ms ++
           [StockMovement.mk p b mt (if negb (String.eqb mt "OUT") then q else - q)
              (a_unit_cost data) (default "" (a_reference data))
              (default "" (a_notes data)) uid])
           (upd_inventory <[(p, b) := set_current_stock new inv]> s0).
Proof.
  unfold adjust_stock_body. session_unfold.
  destruct (check_permission uid ["Admin"; "InventoryManager"] s); simpl; [|done].
  unfold adjust_data_has; simpl.
  destruct (a_product_id data) as [p|]; simpl; [|done].
  destruct (a_branch_id data) as [b|]; simpl; [|done].
  destruct (a_quantity data) as [q|]; simpl; [|done].
  destruct (a_movement_type data) as [mt|]; simpl; [|done].
  destruct (products s !! p); [|done].
  destruct (branches s !! b); [|done].
  destruct (get_or_create_inventory p b s) as [[e|inv] s0] eqn:Hget; [done|].
  destruct (String.eqb mt "IN") eqn:HIN; simpl.
  { apply String.eqb_eq in HIN. subst mt. intros [= <-].
    eexists p, b, q, "IN", inv, s0, _. split; [done|]. split; [done|].
    split; [left; done | done]. }
  destruct (String.eqb mt "OUT") eqn:HOUT; simpl.
  { apply String.eqb_eq in HOUT. subst mt.
    destruct (Inventory.current_stock inv <? q); [done|]. intros [= <-].
    eexists p, b, q, "OUT", inv, s0, _. split; [done|]. split; [done|].
    split; [right; left; done | done]. }
  destruct (String.eqb mt "ADJUSTMENT") eqn:HADJ; simpl; [|done].
  apply String.eqb_eq in HADJ. subst mt. intros [= <-].
  eexists p, b, q, "ADJUSTMENT", inv, s0, _. split; [done|]. split; [done|].
  split; [right; right; done | done].
Qed.

Lemma adjust_stock_legal uid data s : legal s (adjust_stock uid data s).2.
Proof.
  unfold adjust_stock. apply respond_rel; [apply legal_refl|]. intros [] s' H.
  apply adjust_stock_body_inv in H as (p & b & q & mt & inv & s0 & new & _ & Hget & _ & ->).
  destruct (get_or_create_inventory_spec p b s)
    as (inv' & s0' & Hget' & _ & _ & _ & Hsame & Hmov & _).
  rewrite Hget in Hget'. inversion Hget'; subst inv' s0'.
  apply legal_stock.
  - eapply same_but_stock_trans; [exact Hsame|]. by destruct s0.
  - simpl. rewrite Hmov. by apply prefix_app_r.
Qed.

Lemma adjust_stock_ledger uid data s :
  a_movement_type data ≠ Some "ADJUSTMENT" →
  stock_ledger_kept s (adjust_stock uid data s).2.
Proof.
  intros Hmt. unfold adjust_stock.
  apply respond_rel; [apply stock_ledger_kept_refl|]. intros [] s' H.
  apply adjust_stock_body_inv in H
    as (p & b & q & mt & inv & s0 & new & Hmt' & Hget & Hnew & ->).
  destruct (get_or_create_inventory_spec p b s)
    as (inv' & s0' & Hget' & Hrow & Hcur & Hkept & _).
  rewrite Hget in Hget'. inversion Hget'; subst inv' s0'.
  eapply stock_ledger_kept_trans; [exact Hkept|].
  assert (stock_level p b s0 = Inventory.current_stock inv) as Hlevel
    by (unfold stock_level; by rewrite Hrow).
  destruct Hnew as [[-> ->]|[[-> ->]|[-> ->]]].
  - apply stock_ledger_kept_booking with (q := q); simpl; try done. lia.
  - apply stock_ledger_kept_booking with (q := - q); simpl; try done. lia.
  - by rewrite Hmt' in Hmt.
Qed.

Lemma transfer_stock_body_inv uid utcnow data s s' :
  transfer_stock_body uid utcnow data s = (inr tt, s') →
  ∃ p a b q from_inv to_inv s0 out_movement in_movement,
    a ≠ b ∧
    inventory s !! (p, a) = Some from_inv ∧
    get_or_create_inventory p b s = (inr to_inv, s0) ∧
    s' = upd_stock_movements (λ ms, ms ++ [in_movement])
           (upd_inventory
              <[(p, b) := set_current_stock (Inventory.current_stock to_inv + q) to_inv]>
              (upd_stock_movements (λ ms, ms ++ [out_movement])
                 (upd_inventory
                    <[(p, a) :=
                        set_current_stock (Inventory.current_stock from_inv - q) from_inv]>
                    s0))) ∧
    StockMovement.product_id out_movement = p ∧
    StockMovement.branch_id out_movement = a ∧
    StockMovement.quantity out_movement = - q ∧
    StockMovement.product_id in_movement = p ∧
    StockMovement.branch_id in_movement = b ∧
    StockMovement.quantity in_movement = q.
Proof.
  unfold transfer_stock_body. session_unfold.
  destruct (check_permission uid ["Admin"; "InventoryManager"] s); simpl; [|done].
  unfold transfer_data_has; simpl.
  destruct (t_product_id data) as [p|]; simpl; [|done].
  destruct (t_from_branch_id data) as [a|]; simpl; [|done].
  destruct (t_to_branch_id data) as [b|]; simpl; [|done].
  destruct (t_quantity data) as [q|]; simpl; [|done].
  destruct (a =? b) eqn:Hab; [done|]. apply Z.eqb_neq in Hab.
  destruct (products s !! p); [|done].
  destruct (branches s !! a) as [from_branch|]; [|done].
  destruct (branches s !! b) as [to_branch|]; [|done].
  destruct (inventory s !! (p, a)) as [from_inv|] eqn:Hfrom; [|done].
  destruct (Inventory.available_stock from_inv <? q); [done|].
  destruct (get_or_create_inventory p b s) as [[e|to_inv] s0] eqn:Hget; [done|].
  intros [= <-].
  eexists p, a, b, q, from_inv, to_inv, s0, _, _.
  split; [done|]. split; [done|]. split; [done|].
  split; [reflexivity|]. by repeat split.
Qed.

Lemma transfer_stock_legal uid utcnow data s :
  legal s (transfer_stock uid utcnow data s).2.
Proof.
  unfold transfer_stock. apply respond_rel; [apply legal_refl|]. intros [] s' H.
  apply transfer_stock_body_inv in H
    as (p & a & b & q & from_inv & to_inv & s0 & mo & mi
        & _ & _ & Hget & -> & _).
  destruct (get_or_create_inventory_spec p b s)
    as (inv' & s0' & Hget' & _ & _ & _ & Hsame & Hmov & _).
  rewrite Hget in Hget'. inversion Hget'; subst inv' s0'.
  apply legal_stock.
  - eapply same_but_stock_trans; [exact Hsame|]. by destruct s0.
  - simpl. rewrite Hmov. by do 2 apply prefix_app_r.
Qed.

Lemma transfer_stock_ledger uid utcnow data s :
  stock_ledger_kept s (transfer_stock uid utcnow data s).2.
Proof.
  unfold transfer_stock. apply respond_rel; [apply stock_ledger_kept_refl|].
  intros [] s' H.
  apply transfer_stock_body_inv in H
    as (p & a & b & q & from_inv & to_inv & s0 & mo & mi
        & Hab & Hfrom & Hget & -> & Hop & Hob & Hoq & Hip & Hib & Hiq).
  destruct (get_or_create_inventory_spec p b s)
    as (inv' & s0' & Hget' & Hrow & _ & Hkept & _ & _ & Hother).
  rewrite Hget in Hget'. inversion Hget'; subst inv' s0'.
  eapply stock_ledger_kept_trans; [exact Hkept|].
  set (from_inv' := set_current_stock (Inventory.current_stock from_inv - q) from_inv).
  set (to_inv' := set_current_stock (Inventory.current_stock to_inv + q) to_inv).
  set (s1 := upd_stock_movements (λ ms, ms ++ [mo])
               (upd_inventory <[(p, a) := from_inv']> s0)).
  assert (Inventory.current_stock from_inv' = stock_level p a s0 + - q) as H1.
  { unfold stock_level. rewrite Hother by congruence. rewrite Hfrom. simpl. lia. }
  assert (Inventory.current_stock to_inv' = stock_level p b s1 + q) as H2.
  { unfold stock_level. simpl. rewrite lookup_insert_ne by congruence. by rewrite Hrow. }
  exact (stock_ledger_kept_trans _ _ _
           (stock_ledger_kept_booking s0 p a (- q) from_inv' mo H1 Hop Hob Hoq)
           (stock_ledger_kept_booking s1 p b q to_inv' mi H2 Hip Hib Hiq)).
Qed.

Lemma for_each_rel {A} (R : Store → Store → Prop) (body : A → Session unit) :
  (∀ s, R s s) →
  (∀ s1 s2 s3, R s1 s2 → R s2 s3 → R s1 s3) →
  (∀ x s r s', body x s = (r, s') → R s s') →
  ∀ l s r s', for_each body l s = (r, s') → R s s'.
Proof.
  intros Hrefl Htrans Hbody. induction l as [|x l IH]; intros s r s' H; simpl in H.
  - inversion H; subst. apply Hrefl.
  - unfold bind in H. destruct (body x s) as [[e|[]] s1] eqn:Hx.
    + inversion H; subst. by eapply Hbody.
    + eapply Htrans; [by eapply Hbody | by eapply IH].
Qed.

Lemma stock_step_refl s : stock_step s s.
Proof.
  split; [apply same_but_stock_refl|]. split; [done | apply stock_ledger_kept_refl].
Qed.

Lemma stock_step_trans s1 s2 s3 : stock_step s1 s2 → stock_step s2 s3 → stock_step s1 s3.
Proof.
  intros (Hs12 & Hm12 & Hl12) (Hs23 & Hm23 & Hl23).
  split; [by eapply same_but_stock_trans|].
  split; [by etrans | by eapply stock_ledger_kept_trans].
Qed.

Lemma stock_step_booking s p b q inv' m :
  Inventory.current_stock inv' = stock_level p b s + q →
  StockMovement.product_id m = p →
  StockMovement.branch_id m = b →
  StockMovement.quantity m = q →
  stock_step s (upd_stock_movements (λ ms, ms ++ [m]) (upd_inventory <[(p, b) := inv']> s)).
Proof.
  intros Hc Hp Hb Hq. split; [by destruct s|]. split; [by apply prefix_app_r|].
  by apply stock_ledger_kept_booking with (q := q).
Qed.

Lemma update_inventory_after_sale_step items branch_id cashier_id s r s' :
  update_inventory_after_sale items branch_id cashier_id s = (r, s') → stock_step s s'.
Proof.
  unfold update_inventory_after_sale.
  apply for_each_rel; [apply stock_step_refl | apply stock_step_trans|].
  clear. intros item s r s'. session_unfold.
  destruct (inventory s !! (v_product_id item, branch_id)) as [inv|] eqn:Hinv; simpl.
  - intros [= <- <-]. apply stock_step_booking with (q := - v_quantity item); try done.
    unfold stock_level. rewrite Hinv. simpl. lia.
  - intros [= <- <-]. apply stock_step_refl.
Qed.

Lemma restore_item_step sale uid item s r s' :
  restore_item sale uid item s = (r, s') → stock_step s s'.
Proof.
  unfold restore_item. session_unfold.
  destruct (inventory s !! (SaleItem.product_id item, Sale.branch_id sale))
    as [inv|] eqn:Hinv; simpl.
  - intros [= <- <-]. apply stock_step_booking with (q := SaleItem.quantity item);
      try done.
    unfold stock_level. by rewrite Hinv.
  - intros [= <- <-]. apply stock_step_refl.
Qed.

Lemma legal_stock_step s s' : stock_step s s' → legal s s'.
Proof. intros (Hsame & Hm & _). by apply legal_stock. Qed.

Lemma prefix_of_app_self {A} (l k : list A) : l `prefix_of` l ++ k.
Proof. by apply prefix_app_r. Qed.

(** Adding a sale under an unused id, with its items. *)
Lemma legal_booked sale_id sale v s :
  sales s !! sale_id = None → legal s (booked sale_id sale v s).
Proof.
  intros Hfresh. unfold booked.
  split; [by apply points_ledger_kept_frame|].
  split; [split; [done|]; split; [apply prefix_of_app_self | done]|].
  split; [|split; [by apply orders_kept_frame|
                   split; [by apply order_items_kept_frame | by repeat split]]].
  intros id old Hold. exists old. simpl.
  rewrite lookup_insert_ne by (intros ->; by rewrite Hfresh in Hold).
  by repeat split.
Qed.

(** Changing the points of a stored customer and logging the change. *)
Lemma legal_points_booking s c0 d f t :
  (∀ customer, Customer.loyalty_points (f customer)
               = Customer.loyalty_points customer + d) →
  is_Some (customers s !! c0) →
  LoyaltyTransaction.customer_id t = c0 →
  LoyaltyTransaction.points t = d →
  legal s (upd_loyalty_transactions (λ ts, ts ++ [t]) (upd_customers (alter f c0) s)).
Proof.
  intros Hf Hcust Hid Hd.
  split; [by eapply points_ledger_kept_booking|].
  split; [split; [done|]; split; [done | apply prefix_of_app_self]|].
  split; [by apply sales_kept_frame|]. split; [by apply orders_kept_frame|].
  split; [by apply order_items_kept_frame | by repeat split].
Qed.

Lemma award_loyalty_points_legal py_float customer_id sale_id num total s s' :
  is_Some (customers s !! customer_id) →
  award_loyalty_points py_float customer_id sale_id num total s = (inr tt, s') →
  legal s s' ∧ inventory s' = inventory s ∧ stock_movements s' = stock_movements s.
Proof.
  intros Hcust H. apply award_loyalty_points_inv in H as (rate & _ & ->).
  destruct (points_earned total rate >? 0).
  - split; [|done].
    by apply legal_points_booking with (d := points_earned total rate).
  - split; [apply legal_refl | done].
Qed.

Lemma create_sale_legal py_float uid num data s :
  legal s (create_sale py_float uid num data s).2 ∧
  stock_ledger_kept s (create_sale py_float uid num data s).2.
Proof.
  unfold create_sale.
  apply (respond_rel (λ s s', legal s s' ∧ stock_ledger_kept s s'));
    [split; [apply legal_refl | apply stock_ledger_kept_refl]|].
  intros sale_id s' H.
  apply create_sale_body_inv in H
    as (branch & items & pm & v & st & tx & s2 & _ & _ & _ & _ & Hid & Hupd & Hl).
  set (s1 := booked sale_id (sale_header num uid data branch pm st tx) v s) in *.
  assert (legal s s1) as H01 by (apply legal_booked; subst sale_id; apply next_id_fresh).
  assert (stock_ledger_kept s s1) as L01 by (by apply stock_ledger_kept_frame).
  apply update_inventory_after_sale_step in Hupd as Hstep.
  destruct Hstep as (Hsame & Hm & L12).
  assert (legal s1 s2) as H12 by (by apply legal_stock).
  assert (customers s2 = customers s) as Hc2.
  { unfold same_but_stock in Hsame. rewrite Hsame. by destruct s. }
  destruct (truthy (d_customer_id data)).
  - destruct Hl as [Hcust Haward].
    apply award_loyalty_points_legal in Haward as (H23 & Hi3 & Hm3);
      [|by rewrite Hc2].
    split; [eapply legal_trans; [|exact H23]; by eapply legal_trans|].
    eapply stock_ledger_kept_trans; [|by apply stock_ledger_kept_frame].
    by eapply stock_ledger_kept_trans.
  - subst s'. split; [by eapply legal_trans | by eapply stock_ledger_kept_trans].
Qed.

(** Rewriting a stored sale that is not refunded, amounts unchanged. *)
Lemma legal_sale_update sale_id sale sale' s :
  sales s !! sale_id = Some sale →
  Sale.payment_status sale ≠ "Refunded" →
  same_sale_amounts sale sale' →
  legal s (upd_sales <[sale_id := sale']> s).
Proof.
  intros Hsale Hstatus Hsame.
  split; [by apply points_ledger_kept_frame|].
  split; [by repeat split|].
  split; [|split; [by apply orders_kept_frame|
                   split; [by apply order_items_kept_frame | by repeat split]]].
  intros id old Hold. simpl.
  destruct (decide (id = sale_id)) as [->|Hne].
  - rewrite Hsale in Hold. injection Hold as <-.
    exists sale'. rewrite lookup_insert_eq. split; [done|]. by split.
  - exists old. rewrite lookup_insert_ne by done. by repeat split.
Qed.

Lemma refund_loyalty_legal sale_id sale s r s' :
  refund_loyalty sale_id sale s = (r, s') →
  legal s s' ∧ inventory s' = inventory s ∧ stock_movements s' = stock_movements s.
Proof.
  unfold refund_loyalty. session_unfold.
  destruct (truthy (Sale.customer_id sale));
    [|intros [= <- <-]; split; [apply legal_refl | done]].
  destruct (customers s !! default 0 (Sale.customer_id sale)) as [customer|] eqn:Hc;
    [|intros [= <- <-]; split; [apply legal_refl | done]].
  destruct (find (is_earned_for (default 0 (Sale.customer_id sale)) sale_id)
              (loyalty_transactions s)) as [t|];
    [|intros [= <- <-]; split; [apply legal_refl | done]].
  intros [= <- <-]. split; [|done].
  apply legal_points_booking with (d := - LoyaltyTransaction.points t);
    [intros c; simpl; lia | by rewrite Hc | done | done].
Qed.

Lemma refund_sale_legal uid sale_id reason s :
  legal s (refund_sale uid sale_id reason s).2 ∧
  stock_ledger_kept s (refund_sale uid sale_id reason s).2.
Proof.
  unfold refund_sale.
  apply (respond_rel (λ s s', legal s s' ∧ stock_ledger_kept s s'));
    [split; [apply legal_refl | apply stock_ledger_kept_refl]|].
  intros [] s'. unfold refund_sale_body. session_unfold.
  destruct (check_permission uid ["Admin"; "Cashier"] s); simpl; [|done].
  destruct (sales s !! sale_id) as [sale|] eqn:Hsale; [|done].
  destruct (String.eqb (Sale.payment_status sale) "Refunded") eqn:Hstatus; [done|].
  apply String.eqb_neq in Hstatus.
  match goal with
  | |- context [for_each _ _ ?st] => set (s1 := st)
  end.
  destruct (for_each (restore_item sale uid) (items_of_sale sale_id s1) s1)
    as [[e|[]] s2] eqn:Hloop; [done|].
  intros Hloyal.
  assert (legal s s1) as H01 by (by eapply legal_sale_update).
  assert (stock_step s1 s2) as H12.
  { revert Hloop. apply for_each_rel;
      [apply stock_step_refl | apply stock_step_trans | apply restore_item_step]. }
  apply refund_loyalty_legal in Hloyal as (H23 & Hi & Hm).
  split.
  - eapply legal_trans; [|exact H23].
    eapply legal_trans; [exact H01 | by apply legal_stock_step].
  - eapply stock_ledger_kept_trans; [|by apply stock_ledger_kept_frame].
    eapply stock_ledger_kept_trans; [by apply stock_ledger_kept_frame | apply H12].
Qed.

(** Rewriting a stored purchase order that is neither received nor
    cancelled, number and branch unchanged. *)
Lemma legal_order_update po_id po po' s :
  purchase_orders s !! po_id = Some po →
  received_or_cancelled (PurchaseOrder.status po) = false →
  PurchaseOrder.po_number po' = PurchaseOrder.po_number po →
  PurchaseOrder.branch_id po' = PurchaseOrder.branch_id po →
  legal s (upd_purchase_orders <[po_id := po']> s).
Proof.
  intros Hpo Hopen Hnum Hbranch.
  split; [by apply points_ledger_kept_frame|].
  split; [by repeat split|].
  split; [by apply sales_kept_frame|].
  split; [|split; [by apply order_items_kept_frame | by repeat split]].
  intros id old Hold. simpl.
  destruct (decide (id = po_id)) as [->|Hne].
  - rewrite Hpo in Hold. injection Hold as <-.
    exists po'. rewrite lookup_insert_eq. repeat split; [done..|].
    intros Hclosed. by rewrite Hopen in Hclosed.
  - exists old. rewrite lookup_insert_ne by done. by repeat split.
Qed.

Lemma approve_purchase_order_legal uid po_id s :
  legal s (approve_purchase_order uid po_id s).2 ∧
  stock_ledger_kept s (approve_purchase_order uid po_id s).2.
Proof.
  unfold approve_purchase_order.
  apply (respond_rel (λ s s', legal s s' ∧ stock_ledger_kept s s'));
    [split; [apply legal_refl | apply stock_ledger_kept_refl]|].
  intros [] s'. unfold approve_purchase_order_body. session_unfold.
  destruct (check_permission uid ["Admin"] s); simpl; [|done].
  destruct (purchase_orders s !! po_id) as [po|] eqn:Hpo; [|done].
  destruct (String.eqb (PurchaseOrder.status po) "Pending") eqn:Hstatus; [|done].
  apply String.eqb_eq in Hstatus. intros [= <-].
  split; [|by apply stock_ledger_kept_frame].
  apply legal_order_update with (po := po); [done| |done..].
  by rewrite Hstatus.
Qed.

Lemma cancel_purchase_order_legal uid po_id reason s :
  legal s (cancel_purchase_order uid po_id reason s).2 ∧
  stock_ledger_kept s (cancel_purchase_order uid po_id reason s).2.
Proof.
  unfold cancel_purchase_order.
  apply (respond_rel (λ s s', legal s s' ∧ stock_ledger_kept s s'));
    [split; [apply legal_refl | apply stock_ledger_kept_refl]|].
  intros [] s'. unfold cancel_purchase_order_body. session_unfold.
  destruct (check_permission uid ["Admin"; "InventoryManager"] s); simpl; [|done].
  destruct (purchase_orders s !! po_id) as [po|] eqn:Hpo; [|done].
  destruct (received_or_cancelled (PurchaseOrder.status po)) eqn:Hstatus; [done|].
  intros [= <-].
  split; [|by apply stock_ledger_kept_frame].
  by apply legal_order_update with (po := po).
Qed.

Lemma update_purchase_order_legal strptime_date uid po_id data s :
  legal s (update_purchase_order strptime_date uid po_id data s).2 ∧
  stock_ledger_kept s (update_purchase_order strptime_date uid po_id data s).2.
Proof.
  unfold update_purchase_order.
  apply (respond_rel (λ s s', legal s s' ∧ stock_ledger_kept s s'));
    [split; [apply legal_refl | apply stock_ledger_kept_refl]|].
  intros [] s'. unfold update_purchase_order_body. session_unfold.
  destruct (check_permission uid ["Admin"; "InventoryManager"] s); simpl; [|done].
  destruct (purchase_orders s !! po_id) as [po|] eqn:Hpo; [|done].
  destruct (received_or_cancelled (PurchaseOrder.status po)) eqn:Hstatus; [done|].
  assert (∀ date, legal s (upd_purchase_orders <[po_id :=
      match u_notes data with
      | Some v =>
          set_notes v
            match u_status data with
            | Some v0 => set_status v0 (set_expected_delivery_date date po)
            | None => set_expected_delivery_date date po
            end
      | None =>
          match u_status data with
          | Some v => set_status v (set_expected_delivery_date date po)
          | None => set_expected_delivery_date date po
          end
      end]> s)) as Hlegal.
  { intros date. apply legal_order_update with (po := po); [done..| |];
      by destruct (u_notes data), (u_status data). }
  destruct (u_expected_delivery_date data) as [text|].
  - destruct (String.eqb text ""); [done|].
    destruct (strptime_date text) as [d|]; [|done].
    intros [= <-]. split; [apply Hlegal | by apply stock_ledger_kept_frame].
  - intros [= <-]. split; [apply Hlegal | by apply stock_ledger_kept_frame].
Qed.

Lemma adjust_loyalty_points_legal uid customer_id points reason s :
  legal s (adjust_loyalty_points uid customer_id points reason s).2 ∧
  stock_ledger_kept s (adjust_loyalty_points uid customer_id points reason s).2.
Proof.
  unfold adjust_loyalty_points.
  apply (respond_rel (λ s s', legal s s' ∧ stock_ledger_kept s s'));
    [split; [apply legal_refl | apply stock_ledger_kept_refl]|].
  intros [] s'. unfold adjust_loyalty_points_body. session_unfold.
  destruct (check_permission uid ["Admin"] s); simpl; [|done].
  destruct (customers s !! customer_id) as [customer|] eqn:Hc; [|done].
  destruct points as [points|]; [|done].
  intros [= <-]. split; [|by apply stock_ledger_kept_frame].
  apply legal_points_booking with (d := points); by rewrite ?Hc.
Qed.

(** Raising the received quantity of an item of an open order. *)
Lemma legal_item_receipt i item q s :
  purchase_order_items s !! i = Some item →
  ¬ order_closed item s →
  0 ≤ q →
  legal s (upd_purchase_order_items <[i :=
    PurchaseOrderItem.mk (PurchaseOrderItem.purchase_order_id item)
      (PurchaseOrderItem.product_id item) (PurchaseOrderItem.ordered_quantity item)
      (PurchaseOrderItem.received_quantity item + q)
      (PurchaseOrderItem.unit_cost item)]> s).
Proof.
  intros Hitem Hopen Hq.
  split; [by apply points_ledger_kept_frame|].
  split; [by repeat split|].
  split; [by apply sales_kept_frame|].
  split; [by apply orders_kept_frame|].
  split; [|by repeat split].
  intros j old Hold. simpl.
  destruct (decide (j = i)) as [->|Hne].
  - rewrite Hitem in Hold. injection Hold as <-.
    eexists. rewrite lookup_insert_eq. split; [done|]. simpl.
    repeat split; [lia|]. intros Hclosed. by destruct Hopen.
  - exists old. rewrite lookup_insert_ne by done. by repeat split.
Qed.

Lemma receive_item_kept uid po_id po stored e s r s' :
  purchase_orders s !! po_id = Some stored →
  received_or_cancelled (PurchaseOrder.status stored) = false →
  receive_item uid po_id po e s = (r, s') →
  legal s s' ∧ stock_ledger_kept s s' ∧ purchase_orders s' = purchase_orders s.
Proof.
  intros Hstored Hopen. unfold receive_item.
  assert (legal s s ∧ stock_ledger_kept s s ∧ purchase_orders s = purchase_orders s)
    as Hrefl by (split; [apply legal_refl | split; [apply stock_ledger_kept_refl | done]]).
  destruct (default 0 (r_received_quantity e) <=? 0) eqn:Hq;
    [by intros [= <- <-]|].
  apply Z.leb_gt in Hq. session_unfold.
  destruct (r_item_id e ≫= λ i, purchase_order_items s !! i) as [item|] eqn:Hitem;
    [|by intros [= <- <-]].
  destruct (r_item_id e) as [i|]; [|done]. simpl in Hitem.
  destruct (PurchaseOrderItem.purchase_order_id item =? po_id) eqn:Hid; simpl;
    [|by intros [= <- <-]].
  apply Z.eqb_eq in Hid.
  match goal with
  | |- context [get_or_create_inventory _ _ ?st] => set (s1 := st)
  end.
  destruct (get_or_create_inventory_spec (PurchaseOrderItem.product_id item)
              (PurchaseOrder.branch_id po) s1)
    as (inv & s2 & Hget & Hrow & Hcur & L12 & Hsame & Hmov & Hother).
  rewrite Hget. intros [= <- <-].
  assert (legal s s1) as H01.
  { apply legal_item_receipt; [done| |lia].
    intros (closed & Hclosed & Hstatus). rewrite Hid, Hstored in Hclosed.
    injection Hclosed as <-. by rewrite Hopen in Hstatus. }
  assert (stock_step s2
    (upd_stock_movements (λ ms, ms ++
       [StockMovement.mk (PurchaseOrderItem.product_id item) (PurchaseOrder.branch_id po)
          "IN" (default 0 (r_received_quantity e))
          (Some (PurchaseOrderItem.unit_cost item)) (PurchaseOrder.po_number po)
          ("Received from PO " +:+ PurchaseOrder.po_number po) uid])
       (upd_inventory
          <[(PurchaseOrderItem.product_id item, PurchaseOrder.branch_id po) :=
              set_current_stock
                (Inventory.current_stock inv + default 0 (r_received_quantity e)) inv]>
          s2))) as H23.
  { apply stock_step_booking with (q := default 0 (r_received_quantity e)); [|done..].
    simpl. f_equal. rewrite Hcur. unfold stock_level. by rewrite Hrow. }
  assert (legal s1 s2) as H12.
  { apply legal_stock; [done|]. by rewrite Hmov. }
  split; [|split].
  - eapply legal_trans; [exact H01|].
    eapply legal_trans; [exact H12 | by apply legal_stock_step].
  - eapply stock_ledger_kept_trans; [by apply (stock_ledger_kept_frame s s1)|].
    eapply stock_ledger_kept_trans; [exact L12 | apply H23].
  - simpl. unfold same_but_stock in Hsame. rewrite Hsame. by destruct s.
Qed.

Lemma receive_items_kept uid po_id po stored items :
  received_or_cancelled (PurchaseOrder.status stored) = false →
  ∀ s r s',
    purchase_orders s !! po_id = Some stored →
    for_each (receive_item uid po_id po) items s = (r, s') →
    legal s s' ∧ stock_ledger_kept s s' ∧ purchase_orders s' = purchase_orders s.
Proof.
  intros Hopen. induction items as [|e items IH]; intros s r s' Hstored; simpl.
  - intros [= <- <-].
    split; [apply legal_refl | split; [apply stock_ledger_kept_refl | done]].
  - session_unfold.
    destruct (receive_item uid po_id po e s) as [[err|[]] s1] eqn:Hitem.
    + intros [= <- <-]. by eapply receive_item_kept.
    + intros Hrest.
      eapply receive_item_kept in Hitem as (H01 & L01 & Hpo1); [|done..].
      apply IH in Hrest as (H12 & L12 & Hpo2); [|by rewrite Hpo1].
      split; [by eapply legal_trans|].
      split; [by eapply stock_ledger_kept_trans | by rewrite Hpo2].
Qed.

Lemma receive_purchase_order_legal uid po_id items s :
  legal s (receive_purchase_order uid po_id items s).2 ∧
  stock_ledger_kept s (receive_purchase_order uid po_id items s).2.
Proof.
  unfold receive_purchase_order.
  apply (respond_rel (λ s s', legal s s' ∧ stock_ledger_kept s s'));
    [split; [apply legal_refl | apply stock_ledger_kept_refl]|].
  intros [] s'. unfold receive_purchase_order_body. session_unfold.
  destruct (check_permission uid ["Admin"; "InventoryManager"] s); simpl; [|done].
  destruct (purchase_orders s !! po_id) as [po|] eqn:Hpo; [|done].
  destruct (String.eqb (PurchaseOrder.status po) "Approved") eqn:Hstatus; simpl; [|done].
  apply String.eqb_eq in Hstatus.
  assert (received_or_cancelled (PurchaseOrder.status po) = false) as Hopen
    by (by rewrite Hstatus).
  destruct (default [] items) as [|first rest]; [done|].
  destruct (for_each (receive_item uid po_id po) (first :: rest) s)
    as [[e|[]] s1] eqn:Hloop; [done|].
  eapply receive_items_kept in Hloop as (H01 & L01 & Hpo1); [|done..].
  destruct (all_received po_id s1); intros [= <-]; [|done].
  split.
  - eapply legal_trans; [exact H01|].
    rewrite <- Hpo1 in Hpo.
    replace (upd_purchase_orders (alter (set_status "Received") po_id) s1)
      with (upd_purchase_orders <[po_id := set_status "Received" po]> s1)
      by (unfold upd_purchase_orders; by rewrite (alter_present _ _ po)).
    by apply legal_order_update with (po := po).
  - eapply stock_ledger_kept_trans; [exact L01 | by apply stock_ledger_kept_frame].
Qed.

(** Whatever the request, the state after it is a legal successor. *)
Lemma serve_legal py_float strptime_date r s :
  legal s (serve py_float strptime_date r s).
Proof.
  destruct r; simpl.
  - apply create_sale_legal.
  - apply refund_sale_legal.
  - apply adjust_stock_legal.
  - apply transfer_stock_legal.
  - apply update_purchase_order_legal.
  - apply receive_purchase_order_legal.
  - apply approve_purchase_order_legal.
  - apply cancel_purchase_order_legal.
  - apply adjust_loyalty_points_legal.
Qed.

Lemma serve_ledger py_float strptime_date r s :
  sets_stock_level r = false →
  stock_ledger_kept s (serve py_float strptime_date r s).
Proof.
  destruct r; simpl; intros Hr.
  - apply create_sale_legal.
  - apply refund_sale_legal.
  - apply adjust_stock_ledger. by apply bool_decide_eq_false in Hr.
  - apply transfer_stock_ledger.
  - apply update_purchase_order_legal.
  - apply receive_purchase_order_legal.
  - apply approve_purchase_order_legal.
  - apply cancel_purchase_order_legal.
  - apply adjust_loyalty_points_legal.
Qed.

Lemma run_legal py_float strptime_date trace :
  ∀ s, legal s (run py_float strptime_date trace s).
Proof.
  induction trace as [|r trace IH]; intros s; simpl.
  - apply legal_refl.
  - eapply legal_trans; [apply serve_legal | apply IH].
Qed.

Lemma run_app py_float strptime_date t1 t2 s :
  run py_float strptime_date (t1 ++ t2) s
  = run py_float strptime_date t2 (run py_float strptime_date t1 s).
Proof. unfold run. by rewrite foldl_app. Qed.

Lemma run_ledger py_float strptime_date trace :
  Forall (λ r, sets_stock_level r = false) trace →
  ∀ s, stock_ledger_kept s (run py_float strptime_date trace s).
Proof.
  induction 1 as [|r trace Hr _ IH]; intros s; simpl.
  - apply stock_ledger_kept_refl.
  - eapply stock_ledger_kept_trans; [by apply serve_ledger | apply IH].
Qed.

(** ** Invariants of sequences of requests *)

(** X4.  Over any sequence of requests to the modelled routes that contains
    no stock adjustment of type ADJUSTMENT, the current_stock of every
    product at every branch moves exactly with the stock-movement log: the
    difference between the stock level and the sum of the movement
    quantities booked for that product and branch is the same after the
    sequence as before it.  Failed requests, refused ones and requests by
    callers without the role are included. *)
Theorem stock_follows_movements py_float strptime_date trace s product_id branch_id :
  Forall (λ r, sets_stock_level r = false) trace →
  stock_level product_id branch_id (run py_float strptime_date trace s)
  - movement_sum product_id branch_id
      (stock_movements (run py_float strptime_date trace s))
  = stock_level product_id branch_id s
    - movement_sum product_id branch_id (stock_movements s).
Proof. intros Htrace. by apply run_ledger. Qed.

Lemma stock_follows_movements_witness :
  stock_level 1 1 (run sample_float sample_strptime sample_trace po_store)
  - movement_sum 1 1
      (stock_movements (run sample_float sample_strptime sample_trace po_store))
  = stock_level 1 1 po_store - movement_sum 1 1 (stock_movements po_store).
Proof.
  apply (stock_follows_movements sample_float sample_strptime sample_trace po_store 1 1).
  repeat constructor.
Defined.

(** An adjustment of type ADJUSTMENT does not keep that difference: it sets
    the level to 7 and books a movement of +7. *)
Example adjustment_moves_ledger :
  ledger_gap 1 1 sample_store = 50 ∧
  ledger_gap 1 1 (run sample_float sample_strptime
                    [AdjustStock 3 (adjust_request "ADJUSTMENT" 7)] sample_store) = 0.
Proof. split; vm_compute; reflexivity. Qed.

(** X5.  Over any sequence of requests to the modelled routes, the
    loyalty_points of every customer move exactly with the loyalty
    transaction log: the difference between the balance and the sum of the
    points of the customer's transactions never changes. *)
Theorem points_follow_transactions py_float strptime_date trace s customer_id :
  from_option Customer.loyalty_points 0
    (customers (run py_float strptime_date trace s) !! customer_id)
  - points_sum customer_id
      (loyalty_transactions (run py_float strptime_date trace s))
  = from_option Customer.loyalty_points 0 (customers s !! customer_id)
    - points_sum customer_id (loyalty_transactions s).
Proof. apply (run_legal py_float strptime_date trace s). Qed.

(** X6.  The stock-movement log, the sale-item table and the loyalty
    transaction log are append-only: after any sequence of requests each of
    them starts with what it held before. *)
Theorem logs_append_only py_float strptime_date trace s :
  stock_movements s `prefix_of` stock_movements (run py_float strptime_date trace s) ∧
  sale_items s `prefix_of` sale_items (run py_float strptime_date trace s) ∧
  loyalty_transactions s
    `prefix_of` loyalty_transactions (run py_float strptime_date trace s).
Proof. apply (run_legal py_float strptime_date trace s). Qed.

(** X7.  A stored sale is never deleted and its number, customer, branch,
    cashier, amounts and payment method never change, whatever requests
    follow; only payment_status and notes can.  Once its payment_status is
    Refunded the whole row is final. *)
Theorem sale_amounts_final py_float strptime_date trace s sale_id sale :
  sales s !! sale_id = Some sale →
  ∃ sale',
    sales (run py_float strptime_date trace s) !! sale_id = Some sale' ∧
    same_sale_amounts sale sale' ∧
    (Sale.payment_status sale = "Refunded" → sale' = sale).
Proof. intros Hsale. by apply (run_legal py_float strptime_date trace s). Qed.

Lemma sale_amounts_final_witness :
  ∃ sale',
    sales (run sample_float sample_strptime sample_trace sample_sold) !! 1 = Some sale' ∧
    same_sale_amounts sample_sale sale' ∧
    (Sale.payment_status sample_sale = "Refunded" → sale' = sample_sale).
Proof.
  apply (sale_amounts_final sample_float sample_strptime sample_trace sample_sold 1).
  vm_compute. reflexivity.
Defined.

(** X8.  A purchase order with status Received or Cancelled is final: after
    any sequence of requests its row is the same, and so is every item row
    of the order. *)
Theorem closed_order_final py_float strptime_date trace s po_id po :
  purchase_orders s !! po_id = Some po →
  received_or_cancelled (PurchaseOrder.status po) = true →
  purchase_orders (run py_float strptime_date trace s) !! po_id = Some po ∧
  ∀ i item,
    purchase_order_items s !! i = Some item →
    PurchaseOrderItem.purchase_order_id item = po_id →
    purchase_order_items (run py_float strptime_date trace s) !! i = Some item.
Proof.
  intros Hpo Hclosed.
  destruct (run_legal py_float strptime_date trace s)
    as (_ & _ & _ & Horders & Hitems & _).
  split.
  - destruct (Horders po_id po Hpo) as (po' & Hpo' & _ & _ & Hsame).
    by rewrite Hpo', (Hsame Hclosed).
  - intros i item Hitem Hid.
    destruct (Hitems i item Hitem) as (item' & Hitem' & _ & _ & _ & Hsame).
    rewrite Hitem', Hsame; [done|]. exists po. by rewrite Hid.
Qed.

Lemma closed_order_final_witness :
  purchase_orders (run sample_float sample_strptime sample_trace po_store) !! 3
  = Some (PurchaseOrder.mk "PO-20240103-EEEEEEEE" 1 None "Received" "") ∧
  ∀ i item,
    purchase_order_items po_store !! i = Some item →
    PurchaseOrderItem.purchase_order_id item = 3 →
    purchase_order_items (run sample_float sample_strptime sample_trace po_store) !! i
    = Some item.
Proof.
  apply (closed_order_final sample_float sample_strptime sample_trace po_store 3);
    vm_compute; reflexivity.
Defined.

(** X9.  A purchase-order item is never deleted, it keeps its order, product,
    unit cost and ordered quantity, and its received_quantity never goes
    down, whatever requests follow. *)
Theorem received_quantity_monotone py_float strptime_date trace s i item :
  purchase_order_items s !! i = Some item →
  ∃ item',
    purchase_order_items (run py_float strptime_date trace s) !! i = Some item' ∧
    PurchaseOrderItem.purchase_order_id item' = PurchaseOrderItem.purchase_order_id item ∧
    PurchaseOrderItem.product_id item' = PurchaseOrderItem.product_id item ∧
    PurchaseOrderItem.unit_cost item' = PurchaseOrderItem.unit_cost item ∧
    PurchaseOrderItem.ordered_quantity item' = PurchaseOrderItem.ordered_quantity item ∧
    PurchaseOrderItem.received_quantity item ≤ PurchaseOrderItem.received_quantity item'.
Proof.
  intros Hitem.
  destruct (run_legal py_float strptime_date trace s) as (_ & _ & _ & _ & Hitems & _).
  destruct (Hitems i item Hitem) as (item' & Hitem' & Hstatic & Hordered & Hmono & _).
  exists item'. unfold item_static in Hstatic. injection Hstatic as Ho Hp Hc.
  by repeat split.
Qed.

Lemma received_quantity_monotone_witness :
  ∃ item',
    purchase_order_items (run sample_float sample_strptime sample_trace po_store) !! 3
    = Some item' ∧
    PurchaseOrderItem.purchase_order_id item' = 2 ∧
    PurchaseOrderItem.product_id item' = 1 ∧
    PurchaseOrderItem.unit_cost item' = 4%Q ∧
    PurchaseOrderItem.ordered_quantity item' = 10 ∧
    0 ≤ PurchaseOrderItem.received_quantity item'.
Proof.
  apply (received_quantity_monotone sample_float sample_strptime sample_trace po_store 3
           (PurchaseOrderItem.mk 2 1 10 0 4%Q)).
  vm_compute. reflexivity.
Defined.

(** X10.  No request to the modelled routes changes the users, the
    branches, the products or the system settings. *)
Theorem catalogue_untouched py_float strptime_date trace s :
  users (run py_float strptime_date trace s) = users s ∧
  branches (run py_float strptime_date trace s) = branches s ∧
  products (run py_float strptime_date trace s) = products s ∧
  system_settings (run py_float strptime_date trace s) = system_settings s.
Proof. apply (run_legal py_float strptime_date trace s). Qed.

(** ** Refunds are final *)

(** A successful refund leaves the sale stored with status Refunded. *)
Lemma refund_sale_marks uid sale_id reason s s' :
  refund_sale uid sale_id reason s = (inr tt, s') →
  ∃ sale, sales s' !! sale_id = Some sale ∧ Sale.payment_status sale = "Refunded".
Proof.
  unfold refund_sale. intros H. apply respond_inv_ok in H. revert H.
  unfold refund_sale_body. session_unfold.
  destruct (check_permission uid ["Admin"; "Cashier"] s); simpl; [|done].
  destruct (sales s !! sale_id) as [sale|] eqn:Hsale; [|done].
  destruct (String.eqb (Sale.payment_status sale) "Refunded") eqn:Hstatus; [done|].
  match goal with
  | |- context [for_each _ _ ?st] => set (s1 := st)
  end.
  destruct (for_each (restore_item sale uid) (items_of_sale sale_id s1) s1)
    as [[e|[]] s2] eqn:Hloop; [done|].
  intros Hloyal.
  assert (legal s1 s') as (_ & _ & Hsales & _).
  { eapply legal_trans; [|eapply refund_loyalty_legal, Hloyal].
    apply legal_stock_step. revert Hloop. apply for_each_rel;
      [apply stock_step_refl | apply stock_step_trans | apply restore_item_step]. }
  edestruct (Hsales sale_id) as (sale' & Hsale' & _ & Hsame).
  { subst s1. simpl. apply lookup_insert_eq. }
  rewrite Hsame in Hsale' by done. by eexists.
Qed.

(** X11.  A sale that was refunded cannot be refunded again, whatever
    requests were served in between and whoever asks: the second refund is
    answered 403 to a caller who is neither Admin nor Cashier and 400 'Sale
    already refunded' to the others, and leaves the database as it is. *)
Theorem refund_only_once py_float strptime_date uid sale_id reason s s' trace
    uid' reason' :
  refund_sale uid sale_id reason s = (inr tt, s') →
  ∃ e,
    refund_sale uid' sale_id reason' (run py_float strptime_date trace s')
    = (inl e, run py_float strptime_date trace s') ∧
    e = if check_permission uid' ["Admin"; "Cashier"]
             (run py_float strptime_date trace s')
        then err 400 "Sale already refunded"
        else unauthorized "Unauthorized. Admin or Cashier access required.".
Proof.
  intros H. apply refund_sale_marks in H as (sale & Hsale & Hstatus).
  destruct (run_legal py_float strptime_date trace s') as (_ & _ & Hsales & _).
  destruct (Hsales sale_id sale Hsale) as (sale' & Hsale' & _ & Hsame).
  rewrite (Hsame Hstatus) in Hsale'.
  set (s2 := run py_float strptime_date trace s') in *.
  unfold refund_sale, respond, refund_sale_body. session_unfold.
  destruct (check_permission uid' ["Admin"; "Cashier"] s2); simpl; [|by eexists].
  rewrite Hsale'. simpl. rewrite Hstatus. simpl. by eexists.
Qed.

Lemma refund_only_once_witness :
  ∃ e,
    refund_sale 1 1 (Some "again")
      (run sample_float sample_strptime sample_trace sample_refunded)
    = (inl e, run sample_float sample_strptime sample_trace sample_refunded) ∧
    e = if check_permission 1 ["Admin"; "Cashier"]
             (run sample_float sample_strptime sample_trace sample_refunded)
        then err 400 "Sale already refunded"
        else unauthorized "Unauthorized. Admin or Cashier access required.".
Proof.
  apply (refund_only_once sample_float sample_strptime 2 1 None sample_sold
           sample_refunded sample_trace 1 (Some "again")).
  vm_compute. reflexivity.
Defined.

(** ** Transfers there and back *)

(** What a successful transfer went through. *)
Lemma transfer_stock_inv uid utcnow p a b q notes s s' :
  transfer_stock uid utcnow (mkTransferData (Some p) (Some a) (Some b) (Some q) notes) s
  = (inr tt, s') →
  (a =? b) = false ∧
  ∃ product from_branch to_branch from_inv,
    products s !! p = Some product ∧
    branches s !! a = Some from_branch ∧
    branches s !! b = Some to_branch ∧
    inventory s !! (p, a) = Some from_inv ∧
    q ≤ Inventory.available_stock from_inv.
Proof.
  unfold transfer_stock. intros H. apply respond_inv_ok in H. revert H.
  unfold transfer_stock_body. session_unfold.
  destruct (check_permission uid ["Admin"; "InventoryManager"] s); simpl; [|done].
  destruct (a =? b) eqn:Hab; [done|].
  destruct (products s !! p) as [product|] eqn:Hproduct; [|done].
  destruct (branches s !! a) as [from_branch|] eqn:Hfrom; [|done].
  destruct (branches s !! b) as [to_branch|] eqn:Hto; [|done].
  destruct (inventory s !! (p, a)) as [from_inv|] eqn:Hrow; [|done].
  destruct (Inventory.available_stock from_inv <? q) eqn:Havail; [done|].
  apply Z.ltb_ge in Havail. intros _. split; [done|]. by eexists _, _, _, _.
Qed.

(** The inventory after a transfer that passes the checks. *)
Lemma transfer_stock_ok uid utcnow p a b q notes s product from_branch to_branch from_inv :
  check_permission uid ["Admin"; "InventoryManager"] s = true →
  (a =? b) = false →
  products s !! p = Some product →
  branches s !! a = Some from_branch →
  branches s !! b = Some to_branch →
  inventory s !! (p, a) = Some from_inv →
  q ≤ Inventory.available_stock from_inv →
  ∃ s',
    transfer_stock uid utcnow (mkTransferData (Some p) (Some a) (Some b) (Some q) notes) s
    = (inr tt, s') ∧
    users s' = users s ∧ products s' = products s ∧ branches s' = branches s ∧
    inventory s' !! (p, a)
    = Some (set_current_stock (Inventory.current_stock from_inv - q) from_inv) ∧
    inventory s' !! (p, b)
    = Some (add_stock q (default (Inventory.mk 0 0) (inventory s !! (p, b)))) ∧
    ∀ k, k ≠ (p, a) → k ≠ (p, b) → inventory s' !! k = inventory s !! k.
Proof.
  intros Hperm Hab Hproduct Hfrom Hto Hrow Havail.
  unfold transfer_stock, respond, transfer_stock_body. session_unfold.
  rewrite Hperm. simpl. rewrite Hab, Hproduct, Hfrom, Hto, Hrow.
  replace (Inventory.available_stock from_inv <? q) with false
    by (symmetry; apply Z.ltb_ge; lia).
  unfold get_or_create_inventory. session_unfold.
  assert ((p, a) ≠ (p, b)) as Hk by (apply Z.eqb_neq in Hab; congruence).
  destruct (inventory s !! (p, b)) as [to_inv|] eqn:Hdest; simpl;
    (eexists; split; [reflexivity|]; simpl;
     rewrite lookup_insert_ne, lookup_insert_eq, lookup_insert_eq by done;
     repeat split; intros k Hka Hkb; by rewrite !lookup_insert_ne by done).
Qed.

(** X12.  Transferring a quantity back undoes a transfer.  After a
    successful transfer of q units of a product from branch a to branch b,
    the transfer of q units from b to a succeeds for any Admin or Inventory
    Manager, provided the destination row did not have more reserved than in
    stock before, and afterwards every inventory row is what it was before
    the first transfer; the only trace in the inventory table is the row of
    the destination, which stays (with stock 0 and nothing reserved) when
    the first transfer created it. *)
Theorem transfer_round_trip uid utcnow p a b q notes s s1 uid' utcnow' notes' :
  transfer_stock uid utcnow (mkTransferData (Some p) (Some a) (Some b) (Some q) notes) s
  = (inr tt, s1) →
  check_permission uid' ["Admin"; "InventoryManager"] s = true →
  0 ≤ from_option Inventory.available_stock 0 (inventory s !! (p, b)) →
  ∃ s2,
    transfer_stock uid' utcnow'
      (mkTransferData (Some p) (Some b) (Some a) (Some q) notes') s1 = (inr tt, s2) ∧
    ∀ k, inventory s2 !! k = inventory s !! k
         ∨ (k = (p, b) ∧ inventory s !! k = None
            ∧ inventory s2 !! k = Some (Inventory.mk 0 0)).
Proof.
  intros H Hperm Hdest.
  destruct (transfer_stock_inv _ _ _ _ _ _ _ _ _ H)
    as (Hab & product & from_branch & to_branch & from_inv
        & Hproduct & Hfrom & Hto & Hrow & Havail).
  assert (check_permission uid ["Admin"; "InventoryManager"] s = true) as Hperm0.
  { revert H. unfold transfer_stock, respond, transfer_stock_body. session_unfold.
    by destruct (check_permission uid ["Admin"; "InventoryManager"] s). }
  destruct (transfer_stock_ok uid utcnow p a b q notes s _ _ _ _
              Hperm0 Hab Hproduct Hfrom Hto Hrow Havail)
    as (s1' & H' & Husers & Hproducts & Hbranches & Ha1 & Hb1 & Hother1).
  rewrite H in H'. injection H' as <-.
  assert ((b =? a) = false) as Hba by (apply Z.eqb_neq; apply Z.eqb_neq in Hab; lia).
  destruct (transfer_stock_ok uid' utcnow' p b a q notes' s1 product to_branch from_branch
              (add_stock q (default (Inventory.mk 0 0) (inventory s !! (p, b)))))
    as (s2 & H2 & _ & _ & _ & Hb2 & Ha2 & Hother2).
  { by rewrite (check_permission_users _ _ _ _ Husers). }
  { done. }
  { by rewrite Hproducts. }
  { by rewrite Hbranches. }
  { by rewrite Hbranches. }
  { done. }
  { destruct (inventory s !! (p, b)) as [to_inv|];
      unfold Inventory.available_stock in *; simpl in *; lia. }
  exists s2. split; [done|]. intros k.
  destruct (decide (k = (p, a))) as [->|Hka].
  { left. rewrite Ha2, Ha1, Hrow. simpl. f_equal. destruct from_inv.
    unfold add_stock, set_current_stock. simpl. f_equal. lia. }
  destruct (decide (k = (p, b))) as [->|Hkb].
  - rewrite Hb2. destruct (inventory s !! (p, b)) as [to_inv|] eqn:Hrowb.
    + left. f_equal. destruct to_inv. unfold add_stock, set_current_stock. simpl.
      f_equal. lia.
    + right. repeat split. f_equal. unfold add_stock, set_current_stock. simpl.
      f_equal. lia.
  - left. by rewrite Hother2, Hother1.
Qed.

Lemma transfer_round_trip_witness :
  ∃ s2,
    transfer_stock 1 "20240102090000"
      (mkTransferData (Some 1) (Some 2) (Some 1) (Some 20) None) sample_transferred
    = (inr tt, s2) ∧
    ∀ k, inventory s2 !! k = inventory sample_store !! k
         ∨ (k = (1, 2) ∧ inventory sample_store !! k = None
            ∧ inventory s2 !! k = Some (Inventory.mk 0 0)).
Proof.
  apply (transfer_round_trip 3 "20240101120000" 1 1 2 20 None sample_store
           sample_transferred 1 "20240102090000" None);
    vm_compute; [reflexivity | reflexivity | discriminate].
Defined.

(** ** Sales of active products only *)




(** A line for the deactivated product 3 is refused. *)
Example inactive_product_refused :
  create_sale sample_float 2 "SALE-20240101-AAAAAAAA"
    (sale_request None [sale_line 1 1; sale_line 3 1] None) sample_store
  = (inl (err 404 "Product 3 not found or inactive"), sample_store).
Proof. vm_compute. reflexivity. Qed.

(** ** Stock adjustments of type OUT *)

(** X14.  An OUT adjustment by an authorized caller for a stored product
    and branch is decided by the row's current_stock alone (0 when there is
    no row; reserved stock plays no part): when it is below the quantity the
    request is answered 400 'Insufficient stock' and nothing changes,
    otherwise the level goes down by the quantity and is not negative
    afterwards. *)
Theorem out_adjustment_guard uid data s p b q :
  check_permission uid ["Admin"; "InventoryManager"] s = true →
  a_product_id data = Some p →
  a_branch_id data = Some b →
  a_quantity data = Some q →
  a_movement_type data = Some "OUT" →
  is_Some (products s !! p) →
  is_Some (branches s !! b) →
  if stock_level p b s <? q
  then adjust_stock uid data s = (inl (err 400 "Insufficient stock"), s)
  else ∃ s', adjust_stock uid data s = (inr tt, s') ∧
             stock_level p b s' = stock_level p b s - q ∧
             0 ≤ stock_level p b s'.
Proof.
  intros Hperm Hp Hb Hq Hmt [product Hproduct] [branch Hbranch].
  unfold adjust_stock, respond, adjust_stock_body. session_unfold.
  rewrite Hperm. simpl. unfold adjust_data_has; simpl.
  rewrite Hp, Hb, Hq, Hmt. simpl. rewrite Hproduct, Hbranch.
  unfold get_or_create_inventory, stock_level. session_unfold.
  destruct (inventory s !! (p, b)) as [inv|] eqn:Hinv; simpl.
  - destruct (Inventory.current_stock inv <? q) eqn:Hcur; [done|].
    apply Z.ltb_ge in Hcur. eexists. split; [reflexivity|]. simpl.
    rewrite lookup_insert_eq. simpl. lia.
  - destruct (0 <? q) eqn:Hcur; [done|].
    apply Z.ltb_ge in Hcur. eexists. split; [reflexivity|]. simpl.
    rewrite lookup_insert_eq. simpl. lia.
Qed.

Lemma out_adjustment_guard_witness :
  (if stock_level 1 1 sample_store <? 60
   then adjust_stock 3 (adjust_request "OUT" 60) sample_store
        = (inl (err 400 "Insufficient stock"), sample_store)
   else ∃ s', adjust_stock 3 (adjust_request "OUT" 60) sample_store = (inr tt, s') ∧
              stock_level 1 1 s' = stock_level 1 1 sample_store - 60 ∧
              0 ≤ stock_level 1 1 s') ∧
  (if stock_level 1 1 sample_store <? 20
   then adjust_stock 3 (adjust_request "OUT" 20) sample_store
        = (inl (err 400 "Insufficient stock"), sample_store)
   else ∃ s', adjust_stock 3 (adjust_request "OUT" 20) sample_store = (inr tt, s') ∧
              stock_level 1 1 s' = stock_level 1 1 sample_store - 20 ∧
              0 ≤ stock_level 1 1 s').
Proof.
  split.
  - apply (out_adjustment_guard 3 (adjust_request "OUT" 60) sample_store 1 1 60);
      try reflexivity; vm_compute; by eexists.
  - apply (out_adjustment_guard 3 (adjust_request "OUT" 20) sample_store 1 1 20);
      try reflexivity; vm_compute; by eexists.
Defined.
